(** * RSCP: Roller Shutter Control Panel Protocol over I2C

    A shallow embedding of [rscpProtocol.c] / [rscpProtocol.h] and of the
    earlier draft of the receiver, followed by the properties of the
    frame codec, the byte-stream receiver, the master transaction layer
    and the slave dispatch loop.

    Machine integers are [Z] with the wrap-around of their C type written
    out ([u8], [u16], [u32]); arrays are lists updated by index; the
    callbacks of [moduleConfigs/rscpProtocolCallbacks.h] are the members
    of a type class; the transport and the device are an explicit
    [World] that every function threads. *)

From Stdlib Require Import ZArith List Lia Bool.
From stdpp Require Import base list.
Import ListNotations.

Local Open Scope Z_scope.

(** ** Machine integers *)

Definition u8 (x : Z) : Z := x mod 2 ^ 8.
Definition u16 (x : Z) : Z := x mod 2 ^ 16.
Definition u32 (x : Z) : Z := x mod 2 ^ 32.

Definition is_u8 (x : Z) : Prop := 0 <= x < 256.

(** ** rscpProtocol.h *)

Abbreviation RSCP_MAX_TX_BUFFER_SIZE := 64 (only parsing).
Abbreviation RSCP_PREAMBLE_BYTE := 170 (only parsing).   (* 0xAA *)

Abbreviation RSCP_CMD_FAIL := 1 (only parsing).
Abbreviation RSCP_CMD_NOK := 2 (only parsing).
Abbreviation RSCP_CMD_CPU_QUERY := 3 (only parsing).
Abbreviation RSCP_CMD_SET_SHUTTER_ACTION := 4 (only parsing).
Abbreviation RSCP_CMD_SET_SHUTTER_POSITION := 5 (only parsing).
Abbreviation RSCP_CMD_GET_SHUTTER_POSITION := 6 (only parsing).
Abbreviation RSCP_CMD_SET_SWITCH_RELAY := 7 (only parsing).
Abbreviation RSCP_CMD_GET_SWITCH_RELAY := 8 (only parsing).
Abbreviation RSCP_CMD_SET_BUZZER_ACTION := 9 (only parsing).
Abbreviation RSCP_CMD_GET_SWITCH_BUTTON := 10 (only parsing).

Abbreviation RSCP_DEF_PROTOCOL_VERSION := 1 (only parsing).
Abbreviation RSCP_DEF_SWVERSION_VERSION := 1 (only parsing).
Abbreviation RSCP_DEF_CRC_TYPE_MODBUS16 := 1 (only parsing).
Abbreviation RSCP_DEF_CPU_TYPE_ATMEGA328P_8MHZ := 1 (only parsing).

(** [RSCP_ErrorType]: a C enum, used through its integer value (the slave
    narrows it to one byte of payload, the master widens a payload byte
    back to it). *)
Abbreviation RSCP_ERR_OK := 0 (only parsing).
Abbreviation RSCP_ERR_TIMEOUT := (-1) (only parsing).
Abbreviation RSCP_ERR_OVERFLOW := (-2) (only parsing).
Abbreviation RSCP_ERR_MALFORMED := (-3) (only parsing).
Abbreviation RSCP_ERR_NOT_SUPPORTED := (-4) (only parsing).
Abbreviation RSCP_ERR_TX_FAILED := (-5) (only parsing).
Abbreviation RSCP_ERR_REQUEST_FAILED := (-6) (only parsing).
Abbreviation RSCP_ERR_TASK_BUFFER_FULL := (-7) (only parsing).
Abbreviation RSCP_ERR_INVALID_ANSWER := (-8) (only parsing).

(** [struct RSCP_frame]: [length], [command], [data[26]], [crc]. *)
Record RSCP_frame := mkFrame {
  frame_length : Z;
  frame_command : Z;
  frame_data : list Z;
  frame_crc : Z
}.

Abbreviation sizeof_frame_data := 26 (only parsing).
Abbreviation sizeof_frame_crc := 2 (only parsing).
Abbreviation sizeof_RSCP_frame := 30 (only parsing).

Definition set_length (f : RSCP_frame) (v : Z) : RSCP_frame :=
  mkFrame v (frame_command f) (frame_data f) (frame_crc f).
Definition set_command (f : RSCP_frame) (v : Z) : RSCP_frame :=
  mkFrame (frame_length f) v (frame_data f) (frame_crc f).
Definition set_data (f : RSCP_frame) (d : list Z) : RSCP_frame :=
  mkFrame (frame_length f) (frame_command f) d (frame_crc f).
Definition set_crc (f : RSCP_frame) (v : Z) : RSCP_frame :=
  mkFrame (frame_length f) (frame_command f) (frame_data f) v.

(** The bytes of a frame as they lie in memory: no padding is needed
    before [crc] (offset 28); [crc] is stored low byte first, as on both
    targets named in the header (ATmega328P, ESP32). *)
Definition frame_bytes (f : RSCP_frame) : list Z :=
  frame_length f :: frame_command f :: frame_data f
    ++ [Z.land (frame_crc f) 255; Z.shiftr (frame_crc f) 8].

(** Packed argument and reply records: their sizes in bytes. *)
Abbreviation sizeof_RSCP_Arg_rollershutter := 3%nat (only parsing).
Abbreviation sizeof_RSCP_Arg_rollershutterposition := 2%nat (only parsing).
Abbreviation sizeof_RSCP_Arg_switchrelay := 1%nat (only parsing).
Abbreviation sizeof_RSCP_Arg_buzzer_action := 9%nat (only parsing).

Record RSCP_Reply_cpuquery := {
  flags : Z; crcType : Z; protocolversion : Z; cpuType : Z;
  swversion : Z; packetMaxLen : Z
}.
Record RSCP_Reply_rollershutterposition := {
  reply_shutter : Z; reply_position : Z
}.
Record RSCP_Reply_switchrelay := { relay_status : Z }.
Record RSCP_Reply_switchbutton := { button_status : Z }.

Definition bytes_of_cpuquery (r : RSCP_Reply_cpuquery) : list Z :=
  [ Z.land (u16 (flags r)) 255; Z.shiftr (u16 (flags r)) 8;
    u8 (crcType r); u8 (protocolversion r); u8 (cpuType r); u8 (swversion r);
    Z.land (u16 (packetMaxLen r)) 255; Z.shiftr (u16 (packetMaxLen r)) 8 ].
Definition bytes_of_rollershutterposition
    (r : RSCP_Reply_rollershutterposition) : list Z :=
  [ u8 (reply_shutter r); u8 (reply_position r) ].
Definition bytes_of_switchrelay (r : RSCP_Reply_switchrelay) : list Z :=
  [ u8 (relay_status r) ].
Definition bytes_of_switchbutton (r : RSCP_Reply_switchbutton) : list Z :=
  [ u8 (button_status r) ].

(** ** The environment

    [rx] is the byte source: [rx n] is what the [n]-th call of
    [rscpGetRxByteCallback] finds ([None]: no byte ready, the callback
    returns a negative value).  The counters and logs record what the
    protocol did to the transport and to the device.  [stack] is the
    indeterminate content of uninitialised local storage. *)
Record World := mkWorld {
  rx : nat -> option Z;
  polls : nat;                     (* calls of rscpGetRxByteCallback *)
  waits : nat;                     (* calls of rscpRxWaitingCallback *)
  sent : list (list Z);            (* slots given to rscpSendSlotCallback *)
  slots : list Z;                  (* sizes given to rscpRequestSlotCallback *)
  calls : list (Z * list Z);       (* device set-callbacks: command, argument *)
  stack : nat -> Z
}.

Definition advance (n : nat) (w : World) : World :=
  mkWorld (rx w) (polls w + n)%nat (waits w) (sent w) (slots w) (calls w) (stack w).
Definition waited (n : nat) (w : World) : World :=
  mkWorld (rx w) (polls w) (waits w + n)%nat (sent w) (slots w) (calls w) (stack w).
Definition log_sent (b : list Z) (w : World) : World :=
  mkWorld (rx w) (polls w) (waits w) (sent w ++ [b]) (slots w) (calls w) (stack w).
Definition log_slot (n : Z) (w : World) : World :=
  mkWorld (rx w) (polls w) (waits w) (sent w) (slots w ++ [n]) (calls w) (stack w).
Definition log_call (c : Z) (a : list Z) (w : World) : World :=
  mkWorld (rx w) (polls w) (waits w) (sent w) (slots w) (calls w ++ [(c, a)]) (stack w).

(** [n] bytes of uninitialised storage at stack offset [off]. *)
Definition uninit_bytes (w : World) (off n : nat) : list Z :=
  map (fun i => u8 (stack w i)) (seq off n).

(** An uninitialised [struct RSCP_frame] local. *)
Definition uninit_frame (w : World) : RSCP_frame :=
  mkFrame (u8 (stack w 0%nat)) (u8 (stack w 1%nat))
          (uninit_bytes w 2 26)
          (u16 (stack w 28%nat + 256 * stack w 29%nat)).

(** ** moduleConfigs/rscpProtocolCallbacks.h

    The callbacks the host supplies.  The CRC is a function of the bytes
    it is given; the others may depend on everything that happened before
    (the [World]). *)
Class RSCP_Callbacks := {
  rscpGetCrcCallback : list Z -> Z;
  rscpSendSlotCallback : World -> list Z -> Z;
  rscpRequestSlotCallback : World -> Z -> Z;
  rscpGetShutterPositionCallback : World -> RSCP_Reply_rollershutterposition;
  rscpGetSwitchRelayCallback : World -> RSCP_Reply_switchrelay;
  rscpGetSwitchButtonCallback : World -> RSCP_Reply_switchbutton;
  rscpSetShutterActionCallback : World -> list Z -> Z;
  rscpSetShutterPositionCallback : World -> list Z -> Z;
  rscpSetSwitchRelayCallback : World -> list Z -> Z;
  rscpSetBuzzerActionCallback : World -> list Z -> Z
}.

(** ** Outcomes

    A call ends with a value and a new world, or performs an access
    outside an array (undefined behaviour in C), or is still running when
    the fuel of a loop without a bound of its own is used up. *)
Inductive Outcome (A : Type) : Type :=
| Done (a : A) (w : World)
| OutOfBounds
| OutOfFuel.
Arguments Done {A} a w.
Arguments OutOfBounds {A}.
Arguments OutOfFuel {A}.

Definition M (A : Type) : Type := World -> Outcome A.

Definition ret {A} (a : A) : M A := fun w => Done a w.
Definition bind {A B} (m : M A) (k : A -> M B) : M B :=
  fun w => match m w with
           | Done a w' => k a w'
           | OutOfBounds => OutOfBounds
           | OutOfFuel => OutOfFuel
           end.

Notation "'do' x <- m ; k" := (bind m (fun x => k))
  (at level 10, x name, m at level 100, k at level 200).

(** [buf[i] = v] on an array of [length buf] cells. *)
Definition store (buf : list Z) (i v : Z) : M (list Z) :=
  fun w => if (0 <=? i) && (i <? Z.of_nat (length buf))
           then Done (<[Z.to_nat i := v]> buf) w
           else OutOfBounds.

(** [memcpy(&buf[i], src, n)] with [n = length src]. *)
Definition memcpy (buf : list Z) (i : Z) (src : list Z) : M (list Z) :=
  fun w => if (0 <=? i) && (i + Z.of_nat (length src) <=? Z.of_nat (length buf))
           then Done (take (Z.to_nat i) buf ++ src
                        ++ drop (Z.to_nat i + length src) buf) w
           else OutOfBounds.

(** ** rscpProtocol.c: the receiver *)

Definition rscpGetRxByteCallback (w : World) : option Z * World :=
  (u8 <$> rx w (polls w), advance 1 w).

Definition rscpRxWaitingCallback (w : World) : World := waited 1 w.

(** [timeout_ticks] is a [uint32_t] counted down to zero; the decrement
    that wraps it happens on the path that returns and is never read. *)
Fixpoint rscpGetRxByteBlocking (timeout_ticks : nat) (w : World)
    : option Z * World :=
  match rscpGetRxByteCallback w with
  | (Some readByte, w1) => (Some readByte, w1)
  | (None, w1) =>
      match timeout_ticks with
      | O => (None, w1)
      | S t => rscpGetRxByteBlocking t (rscpRxWaitingCallback w1)
      end
  end.

(** What one pass through the [switch] of [rscpGetMsg] does. *)
Inductive Step : Type :=
| Next (frame : RSCP_frame) (bufferIndex rscpRxStatus : Z)
| Return (err : Z) (frame : RSCP_frame)
| Fault.

(** [frame->data[i] = v]. *)
Definition data_write (frame : RSCP_frame) (i v : Z) : option RSCP_frame :=
  if (0 <=? i) && (i <? sizeof_frame_data)
  then Some (set_data frame (<[Z.to_nat i := v]> (frame_data frame)))
  else None.

Definition rscpGetMsg_switch (frame : RSCP_frame)
    (bufferIndex rscpRxStatus readByte : Z) : Step :=
  match rscpRxStatus with
  | 0 => (* Waiting for length byte *)
      if negb (readByte =? RSCP_PREAMBLE_BYTE)
      then Next (set_length frame readByte) bufferIndex 1
      else Next frame bufferIndex rscpRxStatus
  | 1 => (* Waiting for command byte *)
      let frame := set_command frame readByte in
      if frame_length frame >? 2
      then Next frame bufferIndex 2
      else Next frame bufferIndex 3
  | 2 => (* Waiting for data bytes *)
      match data_write frame bufferIndex readByte with
      | None => Fault
      | Some frame =>
          let bufferIndex := u32 (bufferIndex + 1) in
          if bufferIndex >=? u32 (frame_length frame - sizeof_frame_crc)
          then Next frame bufferIndex 3
          else Next frame bufferIndex rscpRxStatus
      end
  | 3 => (* Waiting for CRC high byte *)
      Next (set_crc frame (u16 (Z.shiftl readByte 8))) bufferIndex 4
  | 4 => (* Waiting for CRC low byte *)
      Return RSCP_ERR_OK (set_crc frame (u16 (Z.lor (frame_crc frame) readByte)))
  | _ => Next frame bufferIndex rscpRxStatus
  end.

(** The [while] loop of [rscpGetMsg], one unit of fuel per iteration. *)
Fixpoint rscpGetMsg_loop (switch : RSCP_frame -> Z -> Z -> Z -> Step)
    (fuel : nat) (timeout_ticks : nat)
    (frame : RSCP_frame) (bufferIndex rscpRxStatus : Z) : M (Z * RSCP_frame) :=
  fun w =>
  if bufferIndex <? sizeof_frame_data then
    match fuel with
    | O => OutOfFuel
    | S fuel' =>
        match rscpGetRxByteBlocking timeout_ticks w with
        | (None, w1) => Done (RSCP_ERR_TIMEOUT, frame) w1
        | (Some readByte, w1) =>
            match switch frame bufferIndex rscpRxStatus readByte with
            | Next frame bufferIndex rscpRxStatus =>
                rscpGetMsg_loop switch fuel' timeout_ticks
                                frame bufferIndex rscpRxStatus w1
            | Return err frame => Done (err, frame) w1
            | Fault => OutOfBounds
            end
        end
    end
  else Done (RSCP_ERR_OVERFLOW, frame) w.

Definition rscpGetMsg (fuel : nat) (frame : RSCP_frame) (timeout_ticks : nat)
    : M (Z * RSCP_frame) :=
  rscpGetMsg_loop rscpGetMsg_switch fuel timeout_ticks frame 0 0.

(** ** The earlier draft of rscpProtocol.c

    The second source file differs in the receiver only in the command
    state: it always goes on to the data state. *)
Module Draft.

Definition rscpGetMsg_switch (frame : RSCP_frame)
    (bufferIndex rscpRxStatus readByte : Z) : Step :=
  match rscpRxStatus with
  | 0 => (* Waiting for length byte *)
      if negb (readByte =? RSCP_PREAMBLE_BYTE)
      then Next (set_length frame readByte) bufferIndex 1
      else Next frame bufferIndex rscpRxStatus
  | 1 => (* Waiting for command byte *)
      Next (set_command frame readByte) bufferIndex 2
  | 2 => (* Waiting for data bytes *)
      match data_write frame bufferIndex readByte with
      | None => Fault
      | Some frame =>
          let bufferIndex := u32 (bufferIndex + 1) in
          if bufferIndex >=? u32 (frame_length frame - sizeof_frame_crc)
          then Next frame bufferIndex 3
          else Next frame bufferIndex rscpRxStatus
      end
  | 3 => (* Waiting for CRC high byte *)
      Next (set_crc frame (u16 (Z.shiftl readByte 8))) bufferIndex 4
  | 4 => (* Waiting for CRC low byte *)
      Return RSCP_ERR_OK (set_crc frame (u16 (Z.lor (frame_crc frame) readByte)))
  | _ => Next frame bufferIndex rscpRxStatus
  end.

Definition rscpGetMsg (fuel : nat) (frame : RSCP_frame) (timeout_ticks : nat)
    : M (Z * RSCP_frame) :=
  rscpGetMsg_loop rscpGetMsg_switch fuel timeout_ticks frame 0 0.

End Draft.

(** ** rscpProtocol.c: transmitter, master and slave *)

Section Protocol.
Context `{cb : RSCP_Callbacks}.

(** [rscpGetCrcCallback] returns a [uint16_t]. *)
Definition crc16 (bytes : list Z) : Z := u16 (rscpGetCrcCallback bytes).

Definition send_slot (bytes : list Z) : M Z :=
  fun w => Done (rscpSendSlotCallback w bytes) (log_sent bytes w).

Definition request_slot (n : Z) : M Z :=
  fun w => Done (rscpRequestSlotCallback w n) (log_slot n w).

(** A local array [uint8_t buf[n]] without initialiser. *)
Definition local_array (n : Z) : M (list Z) :=
  fun w => Done (uninit_bytes w 0 (Z.to_nat n)) w.

(** A local [struct RSCP_frame frame;]. *)
Definition local_frame : M RSCP_frame := fun w => Done (uninit_frame w) w.

(** [dataLength] is the length of [data]; it is a [uint8_t], so callers
    pass at most 255 bytes. *)
Definition rscpSendMsg (command : Z) (data : list Z) : M Z :=
  let dataLength := Z.of_nat (length data) in
  let txBufferIndex := 0 in
  do txBuffer <- local_array RSCP_MAX_TX_BUFFER_SIZE;
  (* Fill txBuffer *)
  do txBuffer <- store txBuffer txBufferIndex RSCP_PREAMBLE_BYTE;
  let txBufferIndex := u32 (txBufferIndex + 1) in
  do txBuffer <- store txBuffer txBufferIndex (u8 (2 + dataLength));
  let txBufferIndex := u32 (txBufferIndex + 1) in
  do txBuffer <- store txBuffer txBufferIndex command;
  let txBufferIndex := u32 (txBufferIndex + 1) in
  do txBuffer <- memcpy txBuffer txBufferIndex data;
  let txBufferIndex := u32 (txBufferIndex + dataLength) in
  let crc := crc16 (take (Z.to_nat (txBufferIndex - 1)) (drop 1 txBuffer)) in
  do txBuffer <- store txBuffer txBufferIndex (Z.land (Z.shiftr crc 8) 255);
  let txBufferIndex := u32 (txBufferIndex + 1) in
  do txBuffer <- store txBuffer txBufferIndex (Z.land crc 255);
  let txBufferIndex := u32 (txBufferIndex + 1) in
  do r <- send_slot (take (Z.to_nat txBufferIndex) txBuffer);
  if r <? 0 then ret RSCP_ERR_TX_FAILED else ret RSCP_ERR_OK.

(** [rscpGetCrcCallback((uint8_t * )&frame, frame.length)]: the CRC of
    the first [length] bytes of the frame in memory. *)
Definition frame_crc16 (frame : RSCP_frame) : M Z :=
  fun w => if frame_length frame <=? sizeof_RSCP_frame
           then Done (crc16 (take (Z.to_nat (frame_length frame))
                                  (frame_bytes frame))) w
           else OutOfBounds.

(** *** Master *)

(** [for (i = 0; i < replyLength; i++) reply[i] = frame.data[i];] with
    [n] iterations left. *)
Fixpoint copy_reply (n : nat) (i : Z) (reply : list Z) (frame : RSCP_frame)
    : M (list Z) :=
  match n with
  | O => ret reply
  | S n' =>
      match frame_data frame !! Z.to_nat i with
      | None => fun _ => OutOfBounds
      | Some v =>
          do reply <- store reply i v;
          copy_reply n' (u32 (i + 1)) reply frame
      end
  end.

Definition rscpRequestData (fuel : nat) (command : Z) (reply : list Z)
    (replyLength : Z) (timeout_ticks : nat) : M (Z * list Z) :=
  let data := [0] in (* No data *)
  do err <- rscpSendMsg command data;
  if negb (err =? RSCP_ERR_OK) then ret (err, reply) else
  do frame <- local_frame;
  let rxBufferMaxLength := u32 (1 + 1 + 1 + replyLength + 2) in
  do r <- request_slot rxBufferMaxLength;
  if r <? 0 then ret (RSCP_ERR_REQUEST_FAILED, reply) else
  do ef <- rscpGetMsg fuel frame timeout_ticks;
  let err := fst ef in
  let frame := snd ef in
  if negb (err =? RSCP_ERR_OK) then ret (err, reply) else
  do c <- frame_crc16 frame;
  if negb (c =? frame_crc frame) then ret (RSCP_ERR_MALFORMED, reply) else
  if negb (frame_command frame =? command)
  then ret (RSCP_ERR_INVALID_ANSWER, reply) else
  do reply <- copy_reply (Z.to_nat replyLength) 0 reply frame;
  ret (err, reply).

Definition rscpSendAction (fuel : nat) (command : Z) (data : list Z)
    (timeout_ticks : nat) : M Z :=
  do err <- rscpSendMsg command data;
  if negb (err =? RSCP_ERR_OK) then ret err else
  do frame <- local_frame;
  let rxBufferMaxLength := u32 (1 + 1 + 1 + 1 + 2) in
  do r <- request_slot rxBufferMaxLength;
  if r <? 0 then ret RSCP_ERR_REQUEST_FAILED else
  do ef <- rscpGetMsg fuel frame timeout_ticks;
  let err := fst ef in
  let frame := snd ef in
  if negb (err =? RSCP_ERR_OK) then ret err else
  do c <- frame_crc16 frame;
  if negb (c =? frame_crc frame) then ret RSCP_ERR_MALFORMED else
  if negb (frame_command frame =? command) then ret RSCP_ERR_INVALID_ANSWER else
  match frame_data frame !! 0%nat with
  | Some v => ret v
  | None => fun _ => OutOfBounds
  end.

(** *** Slave *)

(** A query callback fills a reply record. *)
Definition device_get {R} (command : Z) (callback : World -> R) : M R :=
  fun w => Done (callback w) (log_call command [] w).

(** A set callback is given a pointer to [frame.data] as a pointer to its
    packed argument record of [n] bytes, and returns an outcome code. *)
Definition device_set (command : Z) (callback : World -> list Z -> Z)
    (n : nat) (frame : RSCP_frame) : M Z :=
  fun w => let arg := take n (frame_data frame) in
           Done (callback w arg) (log_call command arg w).

Definition rscpGetCPUQuery : M Z :=
  let reply := {| flags := 0;
                  crcType := RSCP_DEF_CRC_TYPE_MODBUS16;
                  protocolversion := RSCP_DEF_PROTOCOL_VERSION;
                  cpuType := RSCP_DEF_CPU_TYPE_ATMEGA328P_8MHZ;
                  swversion := RSCP_DEF_SWVERSION_VERSION;
                  packetMaxLen := sizeof_RSCP_frame |} in
  rscpSendMsg RSCP_CMD_CPU_QUERY (bytes_of_cpuquery reply).

Definition rscpGetShutterPosition : M Z :=
  do reply <- device_get RSCP_CMD_GET_SHUTTER_POSITION
                         rscpGetShutterPositionCallback;
  rscpSendMsg RSCP_CMD_GET_SHUTTER_POSITION (bytes_of_rollershutterposition reply).

Definition rscpGetSwitchRelay : M Z :=
  do reply <- device_get RSCP_CMD_GET_SWITCH_RELAY rscpGetSwitchRelayCallback;
  rscpSendMsg RSCP_CMD_GET_SWITCH_RELAY (bytes_of_switchrelay reply).

Definition rscpGetSwitchButton : M Z :=
  do reply <- device_get RSCP_CMD_GET_SWITCH_BUTTON rscpGetSwitchButtonCallback;
  rscpSendMsg RSCP_CMD_GET_SWITCH_BUTTON (bytes_of_switchbutton reply).

(** [errorCode] is a [uint8_t] parameter. *)
Definition rscpSendFail (command : Z) (errorCode : Z) : M Z :=
  let data := [u8 errorCode] in
  rscpSendMsg command data.

(** The [switch (frame.command)] of [rscpHandle] with the
    [return rscpSendFail(frame.command, err)] its [break]s lead to. *)
Definition rscpHandle_switch (frame : RSCP_frame) : M Z :=
  match frame_command frame with
  | RSCP_CMD_CPU_QUERY => rscpGetCPUQuery
  | RSCP_CMD_GET_SHUTTER_POSITION => rscpGetShutterPosition
  | RSCP_CMD_GET_SWITCH_RELAY => rscpGetSwitchRelay
  | RSCP_CMD_GET_SWITCH_BUTTON => rscpGetSwitchButton
  | RSCP_CMD_SET_SHUTTER_ACTION =>
      do err <- device_set RSCP_CMD_SET_SHUTTER_ACTION
                  rscpSetShutterActionCallback
                  sizeof_RSCP_Arg_rollershutter frame;
      rscpSendFail (frame_command frame) err
  | RSCP_CMD_SET_SHUTTER_POSITION =>
      do err <- device_set RSCP_CMD_SET_SHUTTER_POSITION
                  rscpSetShutterPositionCallback
                  sizeof_RSCP_Arg_rollershutterposition frame;
      rscpSendFail (frame_command frame) err
  | RSCP_CMD_SET_SWITCH_RELAY =>
      do err <- device_set RSCP_CMD_SET_SWITCH_RELAY
                  rscpSetSwitchRelayCallback
                  sizeof_RSCP_Arg_switchrelay frame;
      rscpSendFail (frame_command frame) err
  | RSCP_CMD_SET_BUZZER_ACTION =>
      do err <- device_set RSCP_CMD_SET_BUZZER_ACTION
                  rscpSetBuzzerActionCallback
                  sizeof_RSCP_Arg_buzzer_action frame;
      rscpSendFail (frame_command frame) err
  | _ =>
      let err := RSCP_ERR_NOT_SUPPORTED in
      rscpSendFail (frame_command frame) err
  end.

Definition rscpHandle (fuel : nat) (timeout_ticks : nat) : M Z :=
  do frame <- local_frame;
  do ef <- rscpGetMsg fuel frame timeout_ticks;
  let err := fst ef in
  let frame := snd ef in
  if negb (err =? RSCP_ERR_OK) then ret err else
  do c <- frame_crc16 frame;
  if negb (c =? frame_crc frame) then ret RSCP_ERR_MALFORMED else
  rscpHandle_switch frame.

End Protocol.

(** ** The earlier draft of rscpProtocol.c: master and slave

    The second source file has no [rscpSendMsg]: every function fills
    [txBuffer] itself.  Its master has one function per request, its
    slave answers with [rscpSendAnswer] and does not know
    [RSCP_CMD_GET_SWITCH_BUTTON]. *)

(** [struct RSCP_Arg_buzzer_action], packed: [action], [volume],
    [duration_ms]; the two [uint32_t] lie low byte first. *)
Record RSCP_Arg_buzzer_action := {
  buzzer_action : Z; buzzer_volume : Z; buzzer_duration_ms : Z
}.

Definition bytes_of_u32 (x : Z) : list Z :=
  [ Z.land (u32 x) 255; Z.land (Z.shiftr (u32 x) 8) 255;
    Z.land (Z.shiftr (u32 x) 16) 255; Z.land (Z.shiftr (u32 x) 24) 255 ].

Definition bytes_of_buzzer_action (a : RSCP_Arg_buzzer_action) : list Z :=
  u8 (buzzer_action a) :: bytes_of_u32 (buzzer_volume a)
    ++ bytes_of_u32 (buzzer_duration_ms a).

(** [buf[i]] read from an array of [length buf] cells. *)
Definition load (buf : list Z) (i : Z) : M Z :=
  fun w => match buf !! Z.to_nat i with
           | Some v => if 0 <=? i then Done v w else OutOfBounds
           | None => OutOfBounds
           end.

Module DraftRoles.
Section DraftRoles.
Context `{cb : RSCP_Callbacks}.

(** [reply] is the caller's [struct RSCP_Reply_cpuquery], as its bytes. *)
Definition rscpRequestCPUQuery (fuel : nat) (reply : list Z)
    (timeout_ticks : nat) : M (Z * list Z) :=
  let txBufferIndex := 0 in
  do txBuffer <- local_array RSCP_MAX_TX_BUFFER_SIZE;
  (* Fill txBuffer *)
  do txBuffer <- store txBuffer txBufferIndex RSCP_PREAMBLE_BYTE;
  let txBufferIndex := u32 (txBufferIndex + 1) in
  do txBuffer <- store txBuffer txBufferIndex 3;
  let txBufferIndex := u32 (txBufferIndex + 1) in
  do txBuffer <- store txBuffer txBufferIndex RSCP_CMD_CPU_QUERY;
  let txBufferIndex := u32 (txBufferIndex + 1) in
  do txBuffer <- store txBuffer txBufferIndex 0; (* No data *)
  let txBufferIndex := u32 (txBufferIndex + 1) in
  let crc := crc16 (take (Z.to_nat (txBufferIndex - 1)) (drop 1 txBuffer)) in
  do txBuffer <- store txBuffer txBufferIndex (Z.land (Z.shiftr crc 8) 255);
  let txBufferIndex := u32 (txBufferIndex + 1) in
  do txBuffer <- store txBuffer txBufferIndex (Z.land crc 255);
  let txBufferIndex := u32 (txBufferIndex + 1) in
  do r <- send_slot (take (Z.to_nat txBufferIndex) txBuffer);
  if r <? 0 then ret (RSCP_ERR_TX_FAILED, reply) else
  do frame <- local_frame;
  let rxBufferMaxLength := u32 (1 + 1 + 1 + 8 + 2) in
  do r <- request_slot rxBufferMaxLength;
  if r <? 0 then ret (RSCP_ERR_REQUEST_FAILED, reply) else
  do ef <- Draft.rscpGetMsg fuel frame timeout_ticks;
  let err := fst ef in
  let frame := snd ef in
  if negb (err =? RSCP_ERR_OK) then ret (err, reply) else
  do c <- frame_crc16 frame;
  if negb (c =? frame_crc frame) then ret (RSCP_ERR_MALFORMED, reply) else
  if negb (frame_command frame =? RSCP_CMD_CPU_QUERY)
  then ret (RSCP_ERR_INVALID_ANSWER, reply) else
  do reply <- copy_reply 8 0 reply frame;
  ret (err, reply).

Definition rscpRequestSwitchRelay (fuel : nat) (reply : list Z)
    (timeout_ticks : nat) : M (Z * list Z) :=
  let txBufferIndex := 0 in
  do txBuffer <- local_array RSCP_MAX_TX_BUFFER_SIZE;
  (* Fill txBuffer *)
  do txBuffer <- store txBuffer txBufferIndex RSCP_PREAMBLE_BYTE;
  let txBufferIndex := u32 (txBufferIndex + 1) in
  do txBuffer <- store txBuffer txBufferIndex 3;
  let txBufferIndex := u32 (txBufferIndex + 1) in
  do txBuffer <- store txBuffer txBufferIndex RSCP_CMD_GET_SWITCH_RELAY;
  let txBufferIndex := u32 (txBufferIndex + 1) in
  do txBuffer <- store txBuffer txBufferIndex 0; (* No data *)
  let txBufferIndex := u32 (txBufferIndex + 1) in
  let crc := crc16 (take (Z.to_nat (txBufferIndex - 1)) (drop 1 txBuffer)) in
  do txBuffer <- store txBuffer txBufferIndex (Z.land (Z.shiftr crc 8) 255);
  let txBufferIndex := u32 (txBufferIndex + 1) in
  do txBuffer <- store txBuffer txBufferIndex (Z.land crc 255);
  let txBufferIndex := u32 (txBufferIndex + 1) in
  do r <- send_slot (take (Z.to_nat txBufferIndex) txBuffer);
  if r <? 0 then ret (RSCP_ERR_TX_FAILED, reply) else
  do frame <- local_frame;
  let rxBufferMaxLength := u32 (1 + 1 + 1 + 1 + 2) in
  do r <- request_slot rxBufferMaxLength;
  if r <? 0 then ret (RSCP_ERR_REQUEST_FAILED, reply) else
  do ef <- Draft.rscpGetMsg fuel frame timeout_ticks;
  let err := fst ef in
  let frame := snd ef in
  if negb (err =? RSCP_ERR_OK) then ret (err, reply) else
  do c <- frame_crc16 frame;
  if negb (c =? frame_crc frame) then ret (RSCP_ERR_MALFORMED, reply) else
  if negb (frame_command frame =? RSCP_CMD_GET_SWITCH_RELAY)
  then ret (RSCP_ERR_INVALID_ANSWER, reply) else
  do reply <- copy_reply 1 0 reply frame;
  ret (err, reply).

Definition rscpSendBuzzerAction (fuel : nat) (arg : RSCP_Arg_buzzer_action)
    (timeout_ticks : nat) : M Z :=
  let txBufferIndex := 0 in
  do txBuffer <- local_array RSCP_MAX_TX_BUFFER_SIZE;
  (* Fill txBuffer *)
  do txBuffer <- store txBuffer txBufferIndex RSCP_PREAMBLE_BYTE;
  let txBufferIndex := u32 (txBufferIndex + 1) in
  do txBuffer <- store txBuffer txBufferIndex (u8 (2 + 9));
  let txBufferIndex := u32 (txBufferIndex + 1) in
  do txBuffer <- store txBuffer txBufferIndex RSCP_CMD_SET_BUZZER_ACTION;
  let txBufferIndex := u32 (txBufferIndex + 1) in
  (* Use memcpy to copy struct data to txBuffer *)
  do txBuffer <- memcpy txBuffer txBufferIndex (bytes_of_buzzer_action arg);
  let txBufferIndex := u32 (txBufferIndex + 9) in
  let crc := crc16 (take (Z.to_nat (txBufferIndex - 1)) (drop 1 txBuffer)) in
  do txBuffer <- store txBuffer txBufferIndex (Z.land (Z.shiftr crc 8) 255);
  let txBufferIndex := u32 (txBufferIndex + 1) in
  do txBuffer <- store txBuffer txBufferIndex (Z.land crc 255);
  let txBufferIndex := u32 (txBufferIndex + 1) in
  do r <- send_slot (take (Z.to_nat txBufferIndex) txBuffer);
  if r <? 0 then ret RSCP_ERR_TX_FAILED else
  do frame <- local_frame;
  let rxBufferMaxLength := u32 (1 + 1 + 1 + 1 + 2) in
  do r <- request_slot rxBufferMaxLength;
  if r <? 0 then ret RSCP_ERR_REQUEST_FAILED else
  do ef <- Draft.rscpGetMsg fuel frame timeout_ticks;
  let err := fst ef in
  let frame := snd ef in
  if negb (err =? RSCP_ERR_OK) then ret err else
  do c <- frame_crc16 frame;
  if negb (c =? frame_crc frame) then ret RSCP_ERR_MALFORMED else
  if negb (frame_command frame =? RSCP_CMD_SET_BUZZER_ACTION)
  then ret RSCP_ERR_INVALID_ANSWER else
  match frame_data frame !! 0%nat with
  | Some v => ret v
  | None => fun _ => OutOfBounds
  end.

(** The slave functions take the number of bytes under the CRC from
    [txBuffer[1]] and store [crc >> 8] without a mask. *)
Definition rscpHandleCPUQuery : M Z :=
  let err := RSCP_ERR_OK in
  let txBufferIndex := 0 in
  do txBuffer <- local_array RSCP_MAX_TX_BUFFER_SIZE;
  (* Fill reply *)
  let reply := {| flags := 0;
                  crcType := RSCP_DEF_CRC_TYPE_MODBUS16;
                  protocolversion := RSCP_DEF_PROTOCOL_VERSION;
                  cpuType := RSCP_DEF_CPU_TYPE_ATMEGA328P_8MHZ;
                  swversion := RSCP_DEF_SWVERSION_VERSION;
                  packetMaxLen := sizeof_RSCP_frame |} in
  (* Fill txBuffer *)
  do txBuffer <- store txBuffer txBufferIndex RSCP_PREAMBLE_BYTE;
  let txBufferIndex := u32 (txBufferIndex + 1) in
  do txBuffer <- store txBuffer txBufferIndex (u8 (2 + 8));
  let txBufferIndex := u32 (txBufferIndex + 1) in
  do txBuffer <- store txBuffer txBufferIndex RSCP_CMD_CPU_QUERY;
  let txBufferIndex := u32 (txBufferIndex + 1) in
  do txBuffer <- memcpy txBuffer txBufferIndex (bytes_of_cpuquery reply);
  let txBufferIndex := u32 (txBufferIndex + 8) in
  do len <- load txBuffer 1;
  let crc := crc16 (take (Z.to_nat len) (drop 1 txBuffer)) in
  do txBuffer <- store txBuffer txBufferIndex (u8 (Z.shiftr crc 8));
  let txBufferIndex := u32 (txBufferIndex + 1) in
  do txBuffer <- store txBuffer txBufferIndex (Z.land crc 255);
  let txBufferIndex := u32 (txBufferIndex + 1) in
  do r <- send_slot (take (Z.to_nat txBufferIndex) txBuffer);
  let err := if r <? 0 then RSCP_ERR_TX_FAILED else err in
  ret err.

Definition rscpGetShutterPosition : M Z :=
  let err := RSCP_ERR_OK in
  let txBufferIndex := 0 in
  do txBuffer <- local_array RSCP_MAX_TX_BUFFER_SIZE;
  do reply <- device_get RSCP_CMD_GET_SHUTTER_POSITION
                         rscpGetShutterPositionCallback;
  do txBuffer <- store txBuffer txBufferIndex RSCP_PREAMBLE_BYTE;
  let txBufferIndex := u32 (txBufferIndex + 1) in
  do txBuffer <- store txBuffer txBufferIndex (u8 (2 + 2));
  let txBufferIndex := u32 (txBufferIndex + 1) in
  do txBuffer <- store txBuffer txBufferIndex RSCP_CMD_GET_SHUTTER_POSITION;
  let txBufferIndex := u32 (txBufferIndex + 1) in
  do txBuffer <- memcpy txBuffer txBufferIndex
                        (bytes_of_rollershutterposition reply);
  let txBufferIndex := u32 (txBufferIndex + 2) in
  do len <- load txBuffer 1;
  let crc := crc16 (take (Z.to_nat len) (drop 1 txBuffer)) in
  do txBuffer <- store txBuffer txBufferIndex (u8 (Z.shiftr crc 8));
  let txBufferIndex := u32 (txBufferIndex + 1) in
  do txBuffer <- store txBuffer txBufferIndex (Z.land crc 255);
  let txBufferIndex := u32 (txBufferIndex + 1) in
  do r <- send_slot (take (Z.to_nat txBufferIndex) txBuffer);
  let err := if r <? 0 then RSCP_ERR_TX_FAILED else err in
  ret err.

Definition rscpGetSwitchRelay : M Z :=
  let err := RSCP_ERR_OK in
  let txBufferIndex := 0 in
  do txBuffer <- local_array RSCP_MAX_TX_BUFFER_SIZE;
  do reply <- device_get RSCP_CMD_GET_SWITCH_RELAY rscpGetSwitchRelayCallback;
  do txBuffer <- store txBuffer txBufferIndex RSCP_PREAMBLE_BYTE;
  let txBufferIndex := u32 (txBufferIndex + 1) in
  do txBuffer <- store txBuffer txBufferIndex (u8 (1 + 2));
  let txBufferIndex := u32 (txBufferIndex + 1) in
  do txBuffer <- store txBuffer txBufferIndex RSCP_CMD_GET_SWITCH_RELAY;
  let txBufferIndex := u32 (txBufferIndex + 1) in
  do txBuffer <- memcpy txBuffer txBufferIndex (bytes_of_switchrelay reply);
  let txBufferIndex := u32 (txBufferIndex + 1) in
  do len <- load txBuffer 1;
  let crc := crc16 (take (Z.to_nat len) (drop 1 txBuffer)) in
  do txBuffer <- store txBuffer txBufferIndex (u8 (Z.shiftr crc 8));
  let txBufferIndex := u32 (txBufferIndex + 1) in
  do txBuffer <- store txBuffer txBufferIndex (Z.land crc 255);
  let txBufferIndex := u32 (txBufferIndex + 1) in
  do r <- send_slot (take (Z.to_nat txBufferIndex) txBuffer);
  let err := if r <? 0 then RSCP_ERR_TX_FAILED else err in
  ret err.

(** [command] and [errorCode] are [uint8_t] parameters. *)
Definition rscpSendAnswer (command : Z) (errorCode : Z) : M Z :=
  let err := RSCP_ERR_OK in
  let txBufferIndex := 0 in
  do txBuffer <- local_array RSCP_MAX_TX_BUFFER_SIZE;
  do txBuffer <- store txBuffer txBufferIndex RSCP_PREAMBLE_BYTE;
  let txBufferIndex := u32 (txBufferIndex + 1) in
  do txBuffer <- store txBuffer txBufferIndex 3;
  let txBufferIndex := u32 (txBufferIndex + 1) in
  do txBuffer <- store txBuffer txBufferIndex command;
  let txBufferIndex := u32 (txBufferIndex + 1) in
  do txBuffer <- store txBuffer txBufferIndex (u8 errorCode);
  let txBufferIndex := u32 (txBufferIndex + 1) in
  do len <- load txBuffer 1;
  let crc := crc16 (take (Z.to_nat len) (drop 1 txBuffer)) in
  do txBuffer <- store txBuffer txBufferIndex (u8 (Z.shiftr crc 8));
  let txBufferIndex := u32 (txBufferIndex + 1) in
  do txBuffer <- store txBuffer txBufferIndex (Z.land crc 255);
  let txBufferIndex := u32 (txBufferIndex + 1) in
  do r <- send_slot (take (Z.to_nat txBufferIndex) txBuffer);
  let err := if r <? 0 then RSCP_ERR_TX_FAILED else err in
  ret err.

(** The [switch (frame.command)] of the draft's [rscpHandle] with the
    [return rscpSendAnswer(frame.command, err)] its [break]s lead to. *)
Definition rscpHandle_switch (frame : RSCP_frame) : M Z :=
  match frame_command frame with
  | RSCP_CMD_CPU_QUERY => rscpHandleCPUQuery
  | RSCP_CMD_SET_SHUTTER_ACTION =>
      do err <- device_set RSCP_CMD_SET_SHUTTER_ACTION
                  rscpSetShutterActionCallback
                  sizeof_RSCP_Arg_rollershutter frame;
      rscpSendAnswer (frame_command frame) err
  | RSCP_CMD_SET_SHUTTER_POSITION =>
      do err <- device_set RSCP_CMD_SET_SHUTTER_POSITION
                  rscpSetShutterPositionCallback
                  sizeof_RSCP_Arg_rollershutterposition frame;
      rscpSendAnswer (frame_command frame) err
  | RSCP_CMD_GET_SHUTTER_POSITION => rscpGetShutterPosition
  | RSCP_CMD_SET_SWITCH_RELAY =>
      do err <- device_set RSCP_CMD_SET_SWITCH_RELAY
                  rscpSetSwitchRelayCallback
                  sizeof_RSCP_Arg_switchrelay frame;
      rscpSendAnswer (frame_command frame) err
  | RSCP_CMD_GET_SWITCH_RELAY => rscpGetSwitchRelay
  | RSCP_CMD_SET_BUZZER_ACTION =>
      do err <- device_set RSCP_CMD_SET_BUZZER_ACTION
                  rscpSetBuzzerActionCallback
                  sizeof_RSCP_Arg_buzzer_action frame;
      rscpSendAnswer (frame_command frame) err
  | _ =>
      let err := RSCP_ERR_NOT_SUPPORTED in
      rscpSendAnswer (frame_command frame) err
  end.

Definition rscpHandle (fuel : nat) (timeout_ticks : nat) : M Z :=
  do frame <- local_frame;
  do ef <- Draft.rscpGetMsg fuel frame timeout_ticks;
  let err := fst ef in
  let frame := snd ef in
  if negb (err =? RSCP_ERR_OK) then ret err else
  do c <- frame_crc16 frame;
  if negb (c =? frame_crc frame) then ret RSCP_ERR_MALFORMED else
  rscpHandle_switch frame.

End DraftRoles.
End DraftRoles.

(** ** An example host

    A CRC-16/MODBUS, a transport that accepts every slot and every
    reservation, and a device that accepts every action.  It is used to
    run the protocol on concrete byte streams. *)

Fixpoint crc16_shift (n : nat) (crc : Z) : Z :=
  match n with
  | O => crc
  | S n' =>
      crc16_shift n' (if Z.odd crc
                      then Z.lxor (Z.shiftr crc 1) 40961 (* 0xA001 *)
                      else Z.shiftr crc 1)
  end.

Definition crc16_modbus (bytes : list Z) : Z :=
  fold_left (fun crc b => crc16_shift 8 (Z.lxor crc b)) bytes 65535.

Definition example_host : RSCP_Callbacks := {|
  rscpGetCrcCallback := crc16_modbus;
  rscpSendSlotCallback := fun _ _ => 0;
  rscpRequestSlotCallback := fun _ _ => 0;
  rscpGetShutterPositionCallback :=
    fun _ => {| reply_shutter := 1; reply_position := 50 |};
  rscpGetSwitchRelayCallback := fun _ => {| relay_status := 2 |};
  rscpGetSwitchButtonCallback := fun _ => {| button_status := 1 |};
  rscpSetShutterActionCallback := fun _ _ => RSCP_ERR_OK;
  rscpSetShutterPositionCallback := fun _ _ => RSCP_ERR_OK;
  rscpSetSwitchRelayCallback := fun _ _ => RSCP_ERR_OK;
  rscpSetBuzzerActionCallback := fun _ _ => RSCP_ERR_OK
|}.

(** A host whose transport refuses every slot. *)
Definition deaf_host : RSCP_Callbacks := {|
  rscpGetCrcCallback := crc16_modbus;
  rscpSendSlotCallback := fun _ _ => -1;
  rscpRequestSlotCallback := fun _ _ => -1;
  rscpGetShutterPositionCallback :=
    fun _ => {| reply_shutter := 1; reply_position := 50 |};
  rscpGetSwitchRelayCallback := fun _ => {| relay_status := 2 |};
  rscpGetSwitchButtonCallback := fun _ => {| button_status := 1 |};
  rscpSetShutterActionCallback := fun _ _ => RSCP_ERR_NOT_SUPPORTED;
  rscpSetShutterPositionCallback := fun _ _ => RSCP_ERR_NOT_SUPPORTED;
  rscpSetSwitchRelayCallback := fun _ _ => RSCP_ERR_NOT_SUPPORTED;
  rscpSetBuzzerActionCallback := fun _ _ => RSCP_ERR_NOT_SUPPORTED
|}.

(** A device that refuses every action. *)
Definition refusing_host : RSCP_Callbacks := {|
  rscpGetCrcCallback := crc16_modbus;
  rscpSendSlotCallback := fun _ _ => 0;
  rscpRequestSlotCallback := fun _ _ => 0;
  rscpGetShutterPositionCallback :=
    fun _ => {| reply_shutter := 1; reply_position := 50 |};
  rscpGetSwitchRelayCallback := fun _ => {| relay_status := 2 |};
  rscpGetSwitchButtonCallback := fun _ => {| button_status := 1 |};
  rscpSetShutterActionCallback := fun _ _ => RSCP_ERR_TASK_BUFFER_FULL;
  rscpSetShutterPositionCallback := fun _ _ => RSCP_ERR_TASK_BUFFER_FULL;
  rscpSetSwitchRelayCallback := fun _ _ => RSCP_ERR_TASK_BUFFER_FULL;
  rscpSetBuzzerActionCallback := fun _ _ => RSCP_ERR_TASK_BUFFER_FULL
|}.

(** A device that tells its callbacks apart: each set callback answers
    with a code of its own plus the first byte of the argument it was
    given. *)
Definition probe_host : RSCP_Callbacks := {|
  rscpGetCrcCallback := crc16_modbus;
  rscpSendSlotCallback := fun _ _ => 0;
  rscpRequestSlotCallback := fun _ _ => 0;
  rscpGetShutterPositionCallback :=
    fun _ => {| reply_shutter := 1; reply_position := 50 |};
  rscpGetSwitchRelayCallback := fun _ => {| relay_status := 2 |};
  rscpGetSwitchButtonCallback := fun _ => {| button_status := 1 |};
  rscpSetShutterActionCallback := fun _ arg => 40 + hd 0 arg;
  rscpSetShutterPositionCallback := fun _ arg => 50 + hd 0 arg;
  rscpSetSwitchRelayCallback := fun _ arg => 70 + hd 0 arg;
  rscpSetBuzzerActionCallback := fun _ arg => 90 + hd 0 arg
|}.

(** A world whose source follows the script [s]: the [n]-th poll finds
    [s !! n], and nothing once the script is over.  Uninitialised storage
    holds [g]. *)
Definition world_of (s : list (option Z)) (g : nat -> Z) : World :=
  mkWorld (fun n => mjoin (s !! n)) 0 0 [] [] [] g.

(** The source that delivers the bytes [bs], one at every poll. *)
Definition wire (bs : list Z) (g : nat -> Z) : World :=
  world_of (map Some bs) g.

(** ** Vocabulary of the properties *)

(** [feeds w bs]: from now on, the source of [w] delivers the bytes [bs],
    one at each poll. *)
Definition feeds (w : World) (bs : list Z) : Prop :=
  forall (i : nat) (b : Z), bs !! i = Some b -> rx w (polls w + i)%nat = Some b.

(** The five states of the receiver; any other value of [rscpRxStatus]
    matches no [case]. *)
Definition is_status (s : Z) : Prop := s = 0 \/ s = 1 \/ s = 2 \/ s = 3 \/ s = 4.

(** [rx_inv frame0 f i s]: the invariant of the loop of [rscpGetMsg]
    started on [frame0].  The cells of [data] from [i] on are still those
    of [frame0]; once the length byte has been stored it is a byte and
    fixes how far [i] can go. *)
Definition rx_inv (frame0 f : RSCP_frame) (i s : Z) : Prop :=
  0 <= i
  /\ drop (Z.to_nat i) (frame_data f) = drop (Z.to_nat i) (frame_data frame0)
  /\ length (frame_data f) = length (frame_data frame0)
  /\ ((s = 0 /\ i = 0)
      \/ (s = 1 /\ i = 0 /\ is_u8 (frame_length f))
      \/ (s = 2 /\ is_u8 (frame_length f) /\ i < frame_length f - 2)
      \/ ((s = 3 \/ s = 4) /\ is_u8 (frame_length f)
          /\ i = Z.max 0 (frame_length f - 2))).

(** [rx_done frame0 e f]: what holds of the frame [f] that the loop
    returns from its last state. *)
Definition rx_done (frame0 : RSCP_frame) (e : Z) (f : RSCP_frame) : Prop :=
  e = RSCP_ERR_OK
  /\ 0 <= frame_length f <= 27
  /\ length (frame_data f) = length (frame_data frame0)
  /\ drop (Z.to_nat (Z.max 0 (frame_length f - 2))) (frame_data f)
     = drop (Z.to_nat (Z.max 0 (frame_length f - 2))) (frame_data frame0).

(** The cells of [l] after the bytes [d] were stored from index [i] on,
    in the order in which the receiver stores them. *)
Fixpoint writes (i : nat) (d l : list Z) : list Z :=
  match d with
  | [] => l
  | b :: d' => writes (S i) d' (<[i := b]> l)
  end.

Section Wire.
Context `{cb : RSCP_Callbacks}.

(** The bytes of the frame for [command] and [data] on the wire, as
    [rscpSendMsg] lays them out. *)
Definition frame_on_wire (command : Z) (data : list Z) : list Z :=
  let body := u8 (2 + Z.of_nat (length data)) :: command :: data in
  let crc := crc16 body in
  RSCP_PREAMBLE_BYTE :: body ++ [Z.land (Z.shiftr crc 8) 255; Z.land crc 255].

(** The world in which the master waits for the reply: the request for
    [command] with [data] was given to the transport and a receive slot
    of [n] bytes was asked for. *)
Definition awaiting (command : Z) (data : list Z) (n : Z) (w : World) : World :=
  log_slot n (log_sent (frame_on_wire command data) w).

End Wire.

(** The commands of the catalog are the opcodes 3 to 10. *)
Definition in_catalog (c : Z) : Prop :=
  RSCP_CMD_CPU_QUERY <= c <= RSCP_CMD_GET_SWITCH_BUTTON.

(** The size of the packed argument record of a set-style command. *)
Definition arg_size (c : Z) : option nat :=
  match c with
  | RSCP_CMD_SET_SHUTTER_ACTION => Some sizeof_RSCP_Arg_rollershutter
  | RSCP_CMD_SET_SHUTTER_POSITION => Some sizeof_RSCP_Arg_rollershutterposition
  | RSCP_CMD_SET_SWITCH_RELAY => Some sizeof_RSCP_Arg_switchrelay
  | RSCP_CMD_SET_BUZZER_ACTION => Some sizeof_RSCP_Arg_buzzer_action
  | _ => None
  end.

(** [draft_rx_inv frame0 f i s]: the invariant of the loop of the earlier
    draft's [rscpGetMsg].  The data state is entered whatever the length
    byte is, and with a length byte below 2 it is never left. *)
Definition draft_rx_inv (frame0 f : RSCP_frame) (i s : Z) : Prop :=
  0 <= i
  /\ drop (Z.to_nat i) (frame_data f) = drop (Z.to_nat i) (frame_data frame0)
  /\ length (frame_data f) = length (frame_data frame0)
  /\ ((s = 0 /\ i = 0)
      \/ (s = 1 /\ i = 0 /\ is_u8 (frame_length f))
      \/ (s = 2 /\ is_u8 (frame_length f)
          /\ (i = 0 \/ i < frame_length f - 2 \/ frame_length f < 2))
      \/ ((s = 3 \/ s = 4) /\ is_u8 (frame_length f)
          /\ 2 <= frame_length f
          /\ i = Z.max 1 (frame_length f - 2))).

(** [draft_rx_done frame0 e f]: what holds of the frame [f] that the loop
    of the draft returns from its last state. *)
Definition draft_rx_done (frame0 : RSCP_frame) (e : Z) (f : RSCP_frame) : Prop :=
  e = RSCP_ERR_OK
  /\ 2 <= frame_length f <= 27
  /\ length (frame_data f) = length (frame_data frame0)
  /\ drop (Z.to_nat (Z.max 1 (frame_length f - 2))) (frame_data f)
     = drop (Z.to_nat (Z.max 1 (frame_length f - 2))) (frame_data frame0).

Section Devices.
Context `{cb : RSCP_Callbacks}.

(** The device callback of a set-style command. *)
Definition set_callback (c : Z) : World -> list Z -> Z :=
  match c with
  | RSCP_CMD_SET_SHUTTER_ACTION => rscpSetShutterActionCallback
  | RSCP_CMD_SET_SHUTTER_POSITION => rscpSetShutterPositionCallback
  | RSCP_CMD_SET_SWITCH_RELAY => rscpSetSwitchRelayCallback
  | RSCP_CMD_SET_BUZZER_ACTION => rscpSetBuzzerActionCallback
  | _ => fun _ _ => RSCP_ERR_NOT_SUPPORTED
  end.

(** The bytes of [struct RSCP_Reply_cpuquery] as [rscpGetCPUQuery] fills
    it: flags 0, CRC type 1, protocol version 1, CPU type 1, software
    version 1, [packetMaxLen = sizeof(struct RSCP_frame) = 30]. *)
Definition cpuquery_bytes : list Z := [0; 0; 1; 1; 1; 1; 30; 0].

(** The reply payload of a query-style command, read from the device in
    the world [w]. *)
Definition query_payload (c : Z) (w : World) : list Z :=
  match c with
  | RSCP_CMD_CPU_QUERY => cpuquery_bytes
  | RSCP_CMD_GET_SHUTTER_POSITION =>
      bytes_of_rollershutterposition (rscpGetShutterPositionCallback w)
  | RSCP_CMD_GET_SWITCH_RELAY =>
      bytes_of_switchrelay (rscpGetSwitchRelayCallback w)
  | RSCP_CMD_GET_SWITCH_BUTTON =>
      bytes_of_switchbutton (rscpGetSwitchButtonCallback w)
  | _ => []
  end.

(** Query-style commands. *)
Definition is_query (c : Z) : Prop :=
  c = RSCP_CMD_CPU_QUERY \/ c = RSCP_CMD_GET_SHUTTER_POSITION
  \/ c = RSCP_CMD_GET_SWITCH_RELAY \/ c = RSCP_CMD_GET_SWITCH_BUTTON.

(** The world after the device was asked for the reply of the query [c]:
    [rscpGetCPUQuery] asks nobody. *)
Definition queried (c : Z) (w : World) : World :=
  if c =? RSCP_CMD_CPU_QUERY then w else log_call c [] w.

End Devices.

(** * Properties *)

(** ** Machine integers *)

Lemma u8_small x : is_u8 x -> u8 x = x.
Proof. unfold is_u8, u8. intros. apply Z.mod_small. lia. Qed.

Lemma u8_range x : is_u8 (u8 x).
Proof. unfold is_u8, u8. pose proof (Z.mod_pos_bound x (2 ^ 8)). lia. Qed.

Lemma u32_small x : 0 <= x < 2 ^ 32 -> u32 x = x.
Proof. unfold u32. intros. apply Z.mod_small. lia. Qed.

Lemma u32_nonneg x : 0 <= u32 x.
Proof. unfold u32. pose proof (Z.mod_pos_bound x (2 ^ 32)). lia. Qed.

(** Splitting a 16-bit value in two bytes and joining them again, as the
    transmitter and the receiver do with the CRC. *)
Lemma crc_join_split c :
  0 <= c < 2 ^ 16 ->
  u16 (Z.lor (u16 (Z.shiftl (Z.land (Z.shiftr c 8) 255) 8)) (Z.land c 255)) = c.
Proof.
  intros Hc.
  assert (Hhi : Z.land (Z.shiftr c 8) 255 = c / 2 ^ 8).
  { change 255 with (Z.ones 8). rewrite Z.land_ones by lia.
    rewrite Z.shiftr_div_pow2 by lia. apply Z.mod_small.
    split; [apply Z.div_pos; lia | apply Z.div_lt_upper_bound; lia]. }
  assert (Hlo : Z.land c 255 = c mod 2 ^ 8).
  { change 255 with (Z.ones 8). apply Z.land_ones. lia. }
  rewrite Hhi, Hlo, Z.shiftl_mul_pow2 by lia.
  pose proof (Z.div_mod c (2 ^ 8) ltac:(lia)) as Hdm.
  pose proof (Z.mod_pos_bound c (2 ^ 8) ltac:(lia)) as Hm.
  assert (Hd : 0 <= c / 2 ^ 8 < 2 ^ 8).
  { split; [apply Z.div_pos; lia | apply Z.div_lt_upper_bound; lia]. }
  unfold u16 at 2. rewrite (Z.mod_small (c / 2 ^ 8 * 2 ^ 8)) by lia.
  rewrite <- Z.shiftl_mul_pow2 by lia.
  rewrite <- Z.add_nocarry_lor.
  - rewrite Z.shiftl_mul_pow2 by lia. unfold u16. rewrite Z.mod_small; lia.
  - apply Z.bits_inj'. intros n Hn. rewrite Z.land_spec, Z.bits_0.
    destruct (Z.lt_ge_cases n 8).
    + rewrite Z.shiftl_spec_low by lia. reflexivity.
    + rewrite (Z.mod_pow2_bits_high c 8 n) by lia. apply andb_false_r.
Qed.

(** ** The environment *)

Lemma advance_advance a b w : advance a (advance b w) = advance (b + a) w.
Proof. unfold advance. simpl. f_equal. lia. Qed.

Lemma advance_0 w : advance 0 w = w.
Proof. destruct w. unfold advance. simpl. f_equal. lia. Qed.

Lemma feeds_head w b bs : feeds w (b :: bs) -> rx w (polls w) = Some b.
Proof. intros H. rewrite <- (H 0%nat b); [f_equal; lia | reflexivity]. Qed.

Lemma feeds_tail w b bs : feeds w (b :: bs) -> feeds (advance 1 w) bs.
Proof.
  intros H i c Hi. simpl.
  rewrite <- (H (S i) c); [f_equal; lia | exact Hi].
Qed.

Lemma feeds_app_l w bs cs : feeds w (bs ++ cs) -> feeds w bs.
Proof. intros H i b Hi. apply H. apply lookup_app_l_Some. exact Hi. Qed.

Lemma feeds_app_r w bs cs :
  feeds w (bs ++ cs) -> feeds (advance (length bs) w) cs.
Proof.
  intros H i b Hi. simpl.
  rewrite <- (H (length bs + i)%nat b); [f_equal; lia |].
  rewrite lookup_app_r by lia. rewrite <- Hi. f_equal. lia.
Qed.

Lemma feeds_wire bs g : feeds (wire bs g) bs.
Proof.
  intros i b Hi. simpl. rewrite list_lookup_fmap, Hi. reflexivity.
Qed.

(** ** The blocking read *)

Lemma blocking_ready t w b :
  rx w (polls w) = Some b ->
  rscpGetRxByteBlocking t w = (Some (u8 b), advance 1 w).
Proof.
  intros H. destruct t; simpl; unfold rscpGetRxByteCallback; rewrite H; reflexivity.
Qed.

Lemma blocking_byte_range t w b w' :
  rscpGetRxByteBlocking t w = (Some b, w') -> is_u8 b.
Proof.
  revert w. induction t as [|t IH]; intros w; simpl;
    unfold rscpGetRxByteCallback;
    destruct (rx w (polls w)) as [c|] eqn:E; simpl; intros H;
    try (injection H as <- _; apply u8_range); try discriminate.
  eapply IH, H.
Qed.

(** A source that stays silent for [k + 1] polls exhausts a budget of
    [k] ticks: [k + 1] polls, [k] waits. *)
Lemma blocking_silent k w :
  (forall i, (i <= k)%nat -> rx w (polls w + i)%nat = None) ->
  rscpGetRxByteBlocking k w = (None, advance (k + 1) (waited k w)).
Proof.
  revert w. induction k as [|k IH]; intros w H; simpl;
    unfold rscpGetRxByteCallback.
  - rewrite <- (Nat.add_0_r (polls w)) at 1. rewrite H by lia. simpl.
    f_equal. destruct w; unfold advance, waited; simpl. f_equal; lia.
  - rewrite <- (Nat.add_0_r (polls w)) at 1. rewrite H by lia. simpl.
    rewrite IH.
    + f_equal. unfold advance, waited, rscpRxWaitingCallback; simpl.
      f_equal; lia.
    + intros i Hi. simpl. rewrite <- (H (S i)) by lia. f_equal. lia.
Qed.

(** The blocking read touches neither the transmit log nor the device. *)
Lemma blocking_logs t w r w' :
  rscpGetRxByteBlocking t w = (r, w') ->
  sent w' = sent w /\ calls w' = calls w /\ slots w' = slots w
  /\ stack w' = stack w /\ rx w' = rx w.
Proof.
  revert w. induction t as [|t IH]; intros w; simpl;
    unfold rscpGetRxByteCallback;
    destruct (rx w (polls w)) as [c|]; simpl; intros H;
    try (injection H as <- <-; simpl; tauto).
  apply IH in H. simpl in H. exact H.
Qed.

(** ** The receive loop *)

Lemma switch_no_case f i s b :
  ~ is_status s -> rscpGetMsg_switch f i s b = Next f i s.
Proof.
  unfold is_status. intros H.
  destruct s as [|[[[]|[]|]|[[]|[]|]|]|]; try reflexivity; exfalso; apply H; tauto.
Qed.

Lemma draft_switch_no_case f i s b :
  ~ is_status s -> Draft.rscpGetMsg_switch f i s b = Next f i s.
Proof.
  unfold is_status. intros H.
  destruct s as [|[[[]|[]|]|[[]|[]|]|]|]; try reflexivity; exfalso; apply H; tauto.
Qed.

Lemma status_cases s : is_status s \/ ~ is_status s.
Proof. unfold is_status. lia. Qed.

Ltac by_status s :=
  let H := fresh "Hs" in
  destruct (status_cases s) as [[H|[H|[H|[H|H]]]]|H]; [subst s ..|].

Section Loop.
Variable switch : RSCP_frame -> Z -> Z -> Z -> Step.

Lemma loop_full fuel t f i s w :
  sizeof_frame_data <= i ->
  rscpGetMsg_loop switch fuel t f i s w = Done (RSCP_ERR_OVERFLOW, f) w.
Proof.
  intros H. destruct fuel; simpl; destruct (Z.ltb_spec i 26); try lia; reflexivity.
Qed.

Lemma loop_step fuel t f i s w b :
  i < sizeof_frame_data ->
  rx w (polls w) = Some b ->
  rscpGetMsg_loop switch (S fuel) t f i s w =
  match switch f i s (u8 b) with
  | Next f' i' s' => rscpGetMsg_loop switch fuel t f' i' s' (advance 1 w)
  | Return e f' => Done (e, f') (advance 1 w)
  | Fault => OutOfBounds
  end.
Proof.
  intros Hi Hb. simpl. destruct (Z.ltb_spec i 26); try lia.
  rewrite (blocking_ready t w b Hb). reflexivity.
Qed.

Lemma loop_silent fuel k f i s w :
  i < sizeof_frame_data ->
  (forall n, (n <= k)%nat -> rx w (polls w + n)%nat = None) ->
  rscpGetMsg_loop switch (S fuel) k f i s w =
  Done (RSCP_ERR_TIMEOUT, f) (advance (k + 1) (waited k w)).
Proof.
  intros Hi Hs. simpl. destruct (Z.ltb_spec i 26); try lia.
  rewrite (blocking_silent k w Hs). reflexivity.
Qed.

(** An invariant of the loop body holds wherever the loop stops, and the
    loop never leaves the data buffer if the body does not. *)
Lemma loop_invariant
    (Inv : RSCP_frame -> Z -> Z -> Prop) (Q : Z -> RSCP_frame -> Prop) :
  (forall f i s b, Inv f i s -> i < sizeof_frame_data -> is_u8 b ->
     match switch f i s b with
     | Next f' i' s' => Inv f' i' s'
     | Return e f' => Q e f'
     | Fault => False
     end) ->
  forall fuel t f i s w, Inv f i s ->
  match rscpGetMsg_loop switch fuel t f i s w with
  | Done (e, f') w' =>
      (e = RSCP_ERR_TIMEOUT /\ exists i' s', Inv f' i' s' /\ i' < sizeof_frame_data)
      \/ (e = RSCP_ERR_OVERFLOW /\ exists i' s', Inv f' i' s' /\ sizeof_frame_data <= i')
      \/ Q e f'
  | OutOfBounds => False
  | OutOfFuel => True
  end.
Proof.
  intros Hbody. induction fuel as [|fuel IH]; intros t f i s w HI; simpl;
    destruct (Z.ltb_spec i 26) as [Hlt|Hge]; try exact I;
    try (right; left; split; [reflexivity | exists i, s; split; [exact HI | lia]]).
  destruct (rscpGetRxByteBlocking t w) as [[b|] w1] eqn:E.
  - specialize (Hbody f i s b HI Hlt (blocking_byte_range _ _ _ _ E)).
    destruct (switch f i s b) as [f' i' s'|e f'|].
    + apply IH. exact Hbody.
    + right; right. exact Hbody.
    + exact Hbody.
  - left. split; [reflexivity | exists i, s; split; [exact HI | lia]].
Qed.

(** Receiving touches neither the transmit log nor the device. *)
Lemma loop_logs fuel t f i s w r w' :
  rscpGetMsg_loop switch fuel t f i s w = Done r w' ->
  sent w' = sent w /\ calls w' = calls w /\ slots w' = slots w
  /\ stack w' = stack w /\ rx w' = rx w.
Proof.
  revert f i s w. induction fuel as [|fuel IH]; intros f i s w; simpl;
    destruct (i <? 26); try discriminate;
    try (intros H; injection H as _ <-; tauto).
  destruct (rscpGetRxByteBlocking t w) as [[b|] w1] eqn:E;
    apply blocking_logs in E; destruct E as (E1 & E2 & E3 & E4 & E5).
  - destruct (switch f i s b) as [f' i' s'|e f'|]; try discriminate.
    + intros H. apply IH in H. rewrite <- E1, <- E2, <- E3, <- E4, <- E5. exact H.
    + intros H. injection H as _ <-. tauto.
  - intros H. injection H as _ <-. tauto.
Qed.

End Loop.

(** A store into [frame->data] is in bounds exactly when its index is
    one of [0..25]. *)
Lemma data_write_in_bounds f i v :
  is_Some (data_write f i v) <-> 0 <= i < sizeof_frame_data.
Proof.
  unfold data_write.
  destruct (Z.leb_spec 0 i) as [Hlo|Hlo]; destruct (Z.ltb_spec i 26) as [Hhi|Hhi];
    simpl; split; intros Hw; try lia; try (eexists; reflexivity);
    destruct Hw as [x Hx]; discriminate.
Qed.

(** The receiver never writes outside [frame->data]: the index is below
    26 at every write (both drafts). *)
Lemma switch_in_bounds f i s b :
  0 <= i -> i < sizeof_frame_data ->
  match rscpGetMsg_switch f i s b with
  | Next _ i' _ => 0 <= i'
  | Return _ _ => True
  | Fault => False
  end.
Proof.
  intros H0 H1. by_status s; [..|rewrite switch_no_case by assumption; exact H0];
    simpl; try exact I; try exact H0.
  - destruct (negb (b =? 170)); exact H0.
  - destruct (_ >? 2); exact H0.
  - unfold data_write.
    destruct (Z.leb_spec 0 i); try lia. destruct (Z.ltb_spec i 26); try lia.
    simpl. destruct (_ >=? _); apply u32_nonneg.
Qed.

Lemma draft_switch_in_bounds f i s b :
  0 <= i -> i < sizeof_frame_data ->
  match Draft.rscpGetMsg_switch f i s b with
  | Next _ i' _ => 0 <= i'
  | Return _ _ => True
  | Fault => False
  end.
Proof.
  intros H0 H1. by_status s; [..|rewrite draft_switch_no_case by assumption; exact H0];
    simpl; try exact I; try exact H0.
  - destruct (negb (b =? 170)); exact H0.
  - unfold data_write.
    destruct (Z.leb_spec 0 i); try lia. destruct (Z.ltb_spec i 26); try lia.
    simpl. destruct (_ >=? _); apply u32_nonneg.
Qed.

Lemma rscpGetMsg_in_bounds fuel frame t w :
  rscpGetMsg fuel frame t w <> OutOfBounds.
Proof.
  unfold rscpGetMsg.
  pose proof (loop_invariant rscpGetMsg_switch (fun _ i _ => 0 <= i)
                (fun _ _ => True)) as H.
  specialize (H (fun f i s b Hi Hlt _ => switch_in_bounds f i s b Hi Hlt)
                fuel t frame 0 0 w (Z.le_refl 0)).
  intros E. rewrite E in H. exact H.
Qed.

Lemma draft_rscpGetMsg_in_bounds fuel frame t w :
  Draft.rscpGetMsg fuel frame t w <> OutOfBounds.
Proof.
  unfold Draft.rscpGetMsg.
  pose proof (loop_invariant Draft.rscpGetMsg_switch (fun _ i _ => 0 <= i)
                (fun _ _ => True)) as H.
  specialize (H (fun f i s b Hi Hlt _ => draft_switch_in_bounds f i s b Hi Hlt)
                fuel t frame 0 0 w (Z.le_refl 0)).
  intros E. rewrite E in H. exact H.
Qed.

Lemma drop_write (l l0 : list Z) (i : Z) v :
  0 <= i ->
  drop (Z.to_nat i) l = drop (Z.to_nat i) l0 ->
  drop (Z.to_nat (i + 1)) (<[Z.to_nat i := v]> l) = drop (Z.to_nat (i + 1)) l0.
Proof.
  intros Hi H. rewrite drop_insert_lt by lia.
  replace (Z.to_nat (i + 1)) with (Z.to_nat i + 1)%nat by lia.
  rewrite <- !drop_drop. rewrite H. reflexivity.
Qed.

Lemma rx_inv_step frame0 f i s b :
  rx_inv frame0 f i s -> i < sizeof_frame_data -> is_u8 b ->
  match rscpGetMsg_switch f i s b with
  | Next f' i' s' => rx_inv frame0 f' i' s'
  | Return e f' => rx_done frame0 e f'
  | Fault => False
  end.
Proof.
  unfold rx_inv, rx_done, is_u8.
  intros (H0 & Hd & Hl & [(-> & ->)|[(-> & -> & Hb)|[(-> & Hb & Hi)|([-> | ->] & Hb & Hi)]]]) Hlt Hbyte;
    simpl.
  - destruct (negb (b =? 170)); simpl; intuition lia.
  - destruct (Z.gtb_spec (frame_length f) 2); simpl; intuition lia.
  - unfold data_write.
    destruct (Z.leb_spec 0 i); try lia. destruct (Z.ltb_spec i 26); try lia.
    simpl. rewrite (u32_small (i + 1)) by lia.
    rewrite (u32_small (frame_length f - 2)) by lia.
    pose proof (drop_write _ _ i b H0 Hd) as Hd'.
    destruct (Z.geb_spec (i + 1) (frame_length f - 2)); simpl;
      rewrite length_insert; (split; [lia|]); (split; [exact Hd'|]);
      (split; [exact Hl|]).
    + right; right; right. intuition lia.
    + right; right; left. intuition lia.
  - intuition lia.
  - intuition (try lia). subst i. assumption.
Qed.

Lemma rscpGetMsg_ok fuel frame t w f w' :
  rscpGetMsg fuel frame t w = Done (RSCP_ERR_OK, f) w' ->
  rx_done frame RSCP_ERR_OK f.
Proof.
  unfold rscpGetMsg. intros E.
  pose proof (loop_invariant rscpGetMsg_switch (rx_inv frame) (rx_done frame)
                (rx_inv_step frame) fuel t frame 0 0 w) as H.
  rewrite E in H.
  destruct H as [(H & _)|[(H & _)|H]]; try discriminate; try exact H.
  unfold rx_inv. simpl. intuition lia.
Qed.

(** ** The two drafts of the receiver *)

(** Once the length byte is stored, the receiver of [rscpProtocol.c]
    leaves it alone. *)
Lemma length_fixed fuel t f i s w e f' w' :
  0 <= i -> s <> 0 ->
  rscpGetMsg_loop rscpGetMsg_switch fuel t f i s w = Done (e, f') w' ->
  frame_length f' = frame_length f.
Proof.
  intros Hi Hs E.
  pose proof (loop_invariant rscpGetMsg_switch
    (fun f1 i1 s1 => 0 <= i1 /\ s1 <> 0 /\ frame_length f1 = frame_length f)
    (fun _ f1 => frame_length f1 = frame_length f)) as H.
  assert (Hbody : forall f1 i1 s1 b,
    0 <= i1 /\ s1 <> 0 /\ frame_length f1 = frame_length f ->
    i1 < 26 -> is_u8 b ->
    match rscpGetMsg_switch f1 i1 s1 b with
    | Next f2 i2 s2 => 0 <= i2 /\ s2 <> 0 /\ frame_length f2 = frame_length f
    | Return _ f2 => frame_length f2 = frame_length f
    | Fault => False
    end).
  { intros f1 i1 s1 b (H0 & H1 & H2) Hlt _.
    by_status s1; [..|rewrite switch_no_case by assumption; tauto]; simpl;
      try tauto; try (split; [exact H0 | split; [lia | exact H2]]).
    - destruct (_ >? 2); (split; [exact H0 | split; [lia | exact H2]]).
    - unfold data_write.
      destruct (Z.leb_spec 0 i1); try lia. destruct (Z.ltb_spec i1 26); try lia.
      simpl. destruct (_ >=? _);
        (split; [apply u32_nonneg | split; [lia | exact H2]]). }
  specialize (H Hbody fuel t f i s w (conj Hi (conj Hs eq_refl))).
  rewrite E in H.
  destruct H as [(_ & i' & s' & (_ & _ & H) & _)|[(_ & i' & s' & (_ & _ & H) & _)|H]];
    exact H.
Qed.

Lemma draft_agrees_loop fuel t f i s w e f' w' :
  0 <= i ->
  rscpGetMsg_loop rscpGetMsg_switch fuel t f i s w = Done (e, f') w' ->
  2 < frame_length f' ->
  rscpGetMsg_loop Draft.rscpGetMsg_switch fuel t f i s w = Done (e, f') w'.
Proof.
  revert f i s w. induction fuel as [|fuel IH]; intros f i s w Hi; simpl;
    destruct (Z.ltb_spec i 26) as [Hlt|Hge]; try discriminate; try (intros; assumption).
  destruct (rscpGetRxByteBlocking t w) as [[b|] w1]; [|intros; assumption].
  by_status s; [..|rewrite switch_no_case, draft_switch_no_case by assumption;
                   apply IH; exact Hi]; simpl.
  - destruct (negb (b =? 170)); apply IH; exact Hi.
  - destruct (Z.gtb_spec (frame_length f) 2) as [Hgt|Hle].
    + apply IH; exact Hi.
    + intros E Hlen. apply length_fixed in E; [|exact Hi|lia].
      simpl in E. lia.
  - destruct (data_write f i b) as [f1|]; [|intros; assumption].
    destruct (_ >=? _); apply IH; apply u32_nonneg.
  - apply IH; exact Hi.
  - intros; assumption.
Qed.

(** ** Receiving a byte stream *)

Lemma writes_spec d : forall i l,
  (i + length d <= length l)%nat ->
  writes i d l = take i l ++ d ++ drop (i + length d) l.
Proof.
  induction d as [|b d IH]; intros i l H; simpl.
  - rewrite Nat.add_0_r, take_drop. reflexivity.
  - simpl in H. rewrite IH by (rewrite length_insert; lia).
    rewrite take_insert_lt by lia.
    rewrite drop_insert_lt by lia.
    replace (S i + length d)%nat with (i + S (length d))%nat by lia.
    assert (Hlen : (i < length l)%nat) by lia.
    destruct (lookup_lt_is_Some_2 l i Hlen) as [x Hx].
    rewrite (take_S_r l i x Hx).
    assert (Hi : i = (length (take i l) + 0)%nat) by (rewrite length_take; lia).
    rewrite Hi at 1. rewrite insert_app_r. simpl.
    rewrite <- app_assoc. reflexivity.
Qed.

Lemma rx_preamble pre : forall fuel t f w,
  Forall (eq RSCP_PREAMBLE_BYTE) pre -> feeds w pre ->
  rscpGetMsg_loop rscpGetMsg_switch (length pre + fuel) t f 0 0 w
  = rscpGetMsg_loop rscpGetMsg_switch fuel t f 0 0 (advance (length pre) w).
Proof.
  induction pre as [|b pre IH]; intros fuel t f w Hp Hf.
  - simpl. rewrite advance_0. reflexivity.
  - inversion Hp as [|? ? Hb Hp']; subst.
    change (length (_ :: pre) + fuel)%nat with (S (length pre + fuel)).
    rewrite (loop_step _ _ _ _ _ _ _ 170) by (lia || eapply feeds_head, Hf).
    rewrite (u8_small 170) by (unfold is_u8; lia).
    change (rscpGetMsg_switch f 0 0 170) with (Next f 0 0). cbv iota.
    rewrite IH by (assumption || eapply feeds_tail, Hf).
    rewrite advance_advance. reflexivity.
Qed.

(** Data bytes, up to the last one the length byte announces: the
    receiver stays in the data state until the index reaches
    [length - 2]. *)
Lemma rx_data d : forall fuel t f i w,
  d <> [] ->
  0 <= i -> Forall is_u8 d -> is_u8 (frame_length f) ->
  i + Z.of_nat (length d) <= frame_length f - 2 ->
  i + Z.of_nat (length d) <= sizeof_frame_data ->
  feeds w d ->
  rscpGetMsg_loop rscpGetMsg_switch (length d + fuel) t f i 2 w
  = rscpGetMsg_loop rscpGetMsg_switch fuel t
      (set_data f (writes (Z.to_nat i) d (frame_data f)))
      (i + Z.of_nat (length d))
      (if i + Z.of_nat (length d) >=? frame_length f - 2 then 3 else 2)
      (advance (length d) w).
Proof.
  induction d as [|b d IH]; intros fuel t f i w Hne Hi Hd Hl Hlt Hle Hf;
    [congruence|].
  inversion Hd as [|? ? Hb Hd']; subst.
  change (length (_ :: d) + fuel)%nat with (S (length d + fuel)).
  simpl length in Hlt, Hle.
  rewrite (loop_step _ _ _ _ _ _ _ b) by (lia || eapply feeds_head, Hf).
  rewrite (u8_small b Hb). simpl rscpGetMsg_switch. unfold data_write.
  destruct (Z.leb_spec 0 i); try lia. destruct (Z.ltb_spec i 26); try lia.
  simpl andb. cbv iota. simpl frame_length.
  unfold is_u8 in Hl.
  rewrite (u32_small (i + 1)) by lia.
  rewrite (u32_small (frame_length f - 2)) by lia.
  destruct d as [|b' d].
  - simpl length. simpl writes. change (Z.of_nat 1) with 1.
    destruct (i + 1 >=? frame_length f - 2); reflexivity.
  - simpl length in Hlt, Hle.
    destruct (Z.geb_spec (i + 1) (frame_length f - 2)); try lia.
    rewrite IH; [| congruence | lia | assumption | exact Hl
                 | simpl length; simpl frame_length; lia | simpl length; lia
                 | eapply feeds_tail, Hf].
    rewrite advance_advance. simpl length. simpl frame_data. simpl frame_length.
    replace (Z.to_nat (i + 1)) with (S (Z.to_nat i)) by lia.
    replace (i + 1 + Z.of_nat (S (length d)))
      with (i + Z.of_nat (S (S (length d)))) by lia.
    reflexivity.
Qed.

(** A stream whose length byte announces 26 data bytes or more: the
    receiver stores 26 data bytes and stops with [RSCP_ERR_OVERFLOW];
    it does not poll for a further byte. *)
Lemma rx_overflow pre L c d fuel t f w :
  Forall (eq RSCP_PREAMBLE_BYTE) pre ->
  28 <= L < 256 -> L <> RSCP_PREAMBLE_BYTE -> is_u8 c ->
  Forall is_u8 d -> length d = 26%nat ->
  length (frame_data f) = 26%nat ->
  feeds w (pre ++ L :: c :: d) ->
  (length pre + 28 <= fuel)%nat ->
  rscpGetMsg fuel f t w
  = Done (RSCP_ERR_OVERFLOW, mkFrame L c d (frame_crc f))
         (advance (length pre + 28) w).
Proof.
  intros Hp HL Hne Hc Hd Hlen Hf0 Hf Hfuel.
  unfold rscpGetMsg.
  replace fuel with (length pre + S (S (length d + (fuel - length pre - 28))))%nat
    by lia.
  rewrite rx_preamble by (assumption || eapply feeds_app_l, Hf).
  apply feeds_app_r in Hf.
  rewrite (loop_step _ _ _ _ _ _ _ L) by (lia || eapply feeds_head, Hf).
  rewrite (u8_small L) by (unfold is_u8; lia).
  simpl rscpGetMsg_switch.
  destruct (Z.eqb_spec L 170) as [|_]; [contradiction|]. simpl negb. cbv iota.
  apply feeds_tail in Hf. rewrite advance_advance in Hf.
  rewrite advance_advance.
  rewrite (loop_step _ _ _ _ _ _ _ c) by (lia || eapply feeds_head, Hf).
  rewrite (u8_small c Hc). simpl rscpGetMsg_switch.
  destruct (Z.gtb_spec L 2); try lia.
  apply feeds_tail in Hf. rewrite advance_advance in Hf.
  rewrite advance_advance.
  rewrite rx_data; [| intros ->; discriminate | lia | assumption
                    | simpl; unfold is_u8; lia | simpl; lia | lia | exact Hf].
  rewrite loop_full by lia.
  rewrite advance_advance. simpl frame_data.
  rewrite writes_spec by (simpl; lia).
  rewrite Hlen. simpl take.
  rewrite drop_ge by (simpl; lia). rewrite app_nil_r.
  f_equal. f_equal. lia.
Qed.

(** A well-formed frame with at most 25 data bytes is accepted. *)
Lemma rx_frame pre L c d h l fuel t f w :
  Forall (eq RSCP_PREAMBLE_BYTE) pre ->
  0 <= L <= 27 -> is_u8 c ->
  Forall is_u8 d -> Z.of_nat (length d) = Z.max 0 (L - 2) ->
  is_u8 h -> is_u8 l ->
  length (frame_data f) = 26%nat ->
  feeds w (pre ++ L :: c :: d ++ [h; l]) ->
  (length pre + length d + 4 <= fuel)%nat ->
  rscpGetMsg fuel f t w
  = Done (RSCP_ERR_OK,
          mkFrame L c (d ++ drop (length d) (frame_data f))
                  (u16 (Z.lor (u16 (Z.shiftl h 8)) l)))
         (advance (length pre + length d + 4) w).
Proof.
  intros Hp HL Hc Hd Hlen Hh Hl Hf0 Hf Hfuel.
  unfold rscpGetMsg.
  replace fuel
    with (length pre + S (S (length d + S (S (fuel - length pre - length d - 4)))))%nat
    by lia.
  rewrite rx_preamble by (assumption || eapply feeds_app_l, Hf).
  apply feeds_app_r in Hf.
  rewrite (loop_step _ _ _ _ _ _ _ L) by (lia || eapply feeds_head, Hf).
  rewrite (u8_small L) by (unfold is_u8; lia).
  simpl rscpGetMsg_switch.
  destruct (Z.eqb_spec L 170) as [|_]; [lia|]. simpl negb. cbv iota.
  apply feeds_tail in Hf. rewrite advance_advance in Hf.
  rewrite advance_advance.
  rewrite (loop_step _ _ _ _ _ _ _ c) by (lia || eapply feeds_head, Hf).
  rewrite (u8_small c Hc). simpl rscpGetMsg_switch.
  apply feeds_tail in Hf. rewrite advance_advance in Hf.
  rewrite advance_advance.
  assert (Hstate :
    rscpGetMsg_loop rscpGetMsg_switch
      (length d + S (S (fuel - length pre - length d - 4))) t
      (set_command (set_length f L) c) 0 (if L >? 2 then 2 else 3)
      (advance (length pre + 1 + 1) w)
    = rscpGetMsg_loop rscpGetMsg_switch
      (S (S (fuel - length pre - length d - 4))) t
      (mkFrame L c (d ++ drop (length d) (frame_data f)) (frame_crc f))
      (Z.of_nat (length d)) 3
      (advance (length pre + 1 + 1 + length d) w)).
  { destruct d as [|b d].
    - simpl in Hlen. destruct (Z.gtb_spec L 2); try lia.
      simpl length. rewrite Nat.add_0_r. reflexivity.
    - simpl length in Hlen. destruct (Z.gtb_spec L 2); try lia.
      rewrite rx_data; [| congruence | lia | assumption
                        | simpl; unfold is_u8; lia | simpl length; simpl; lia
                        | simpl length; lia | eapply feeds_app_l, Hf].
      rewrite advance_advance. simpl frame_data. simpl frame_length.
      rewrite writes_spec by (simpl length in *; lia).
      destruct (Z.geb_spec (0 + Z.of_nat (length (b :: d))) (L - 2));
        [|simpl length in *; lia].
      reflexivity. }
  destruct (L >? 2); rewrite Hstate; clear Hstate;
    apply feeds_app_r in Hf; rewrite advance_advance in Hf;
    (rewrite (loop_step _ _ _ _ _ _ _ h) by (lia || eapply feeds_head, Hf));
    rewrite (u8_small h Hh); simpl rscpGetMsg_switch;
    apply feeds_tail in Hf; rewrite advance_advance in Hf;
    rewrite advance_advance;
    (rewrite (loop_step _ _ _ _ _ _ _ l) by (lia || eapply feeds_head, Hf));
    rewrite (u8_small l Hl); simpl rscpGetMsg_switch;
    rewrite advance_advance; unfold set_crc; simpl;
    f_equal; f_equal; lia.
Qed.

(** ** The transmitter *)

Section Transmit.
Context `{cb : RSCP_Callbacks}.

Lemma uninit_bytes_length w off n : length (uninit_bytes w off n) = n.
Proof. unfold uninit_bytes. rewrite length_map, length_seq. reflexivity. Qed.

Lemma store_ok (buf : list Z) i v w :
  0 <= i < Z.of_nat (length buf) ->
  store buf i v w = Done (<[Z.to_nat i := v]> buf) w.
Proof.
  intros H. unfold store.
  destruct (Z.leb_spec 0 i); try lia.
  destruct (Z.ltb_spec i (Z.of_nat (length buf))); try lia. reflexivity.
Qed.

Lemma store_out (buf : list Z) i v w :
  Z.of_nat (length buf) <= i -> store buf i v w = OutOfBounds.
Proof.
  intros H. unfold store.
  destruct (Z.ltb_spec i (Z.of_nat (length buf))); try lia.
  rewrite andb_false_r. reflexivity.
Qed.

Lemma memcpy_ok (buf : list Z) i (src : list Z) w :
  0 <= i -> i + Z.of_nat (length src) <= Z.of_nat (length buf) ->
  memcpy buf i src w
  = Done (take (Z.to_nat i) buf ++ src ++ drop (Z.to_nat i + length src) buf) w.
Proof.
  intros H0 H1. unfold memcpy.
  destruct (Z.leb_spec 0 i); try lia.
  destruct (Z.leb_spec (i + Z.of_nat (length src)) (Z.of_nat (length buf)));
    try lia.
  reflexivity.
Qed.

Lemma memcpy_out (buf : list Z) i (src : list Z) w :
  Z.of_nat (length buf) < i + Z.of_nat (length src) ->
  memcpy buf i src w = OutOfBounds.
Proof.
  intros H. unfold memcpy.
  destruct (Z.leb_spec (i + Z.of_nat (length src)) (Z.of_nat (length buf)));
    try lia.
  rewrite andb_false_r. reflexivity.
Qed.

Lemma rscpSendMsg_spec command data w :
  (length data <= 59)%nat ->
  rscpSendMsg command data w
  = Done (if rscpSendSlotCallback w (frame_on_wire command data) <? 0
          then RSCP_ERR_TX_FAILED else RSCP_ERR_OK)
         (log_sent (frame_on_wire command data) w).
Proof.
  intros Hn. unfold rscpSendMsg, bind, local_array.
  pose proof (uninit_bytes_length w 0 (Z.to_nat 64)) as Hbuf.
  set (buf := uninit_bytes w 0 (Z.to_nat 64)) in *. clearbody buf.
  change (Z.to_nat 64) with 64%nat in Hbuf.
  destruct buf as [|b0 [|b1 [|b2 rest]]]; try discriminate.
  simpl in Hbuf. assert (Hrest : length rest = 61%nat) by lia. clear Hbuf.
  rewrite store_ok by (simpl length; lia).
  rewrite (u32_small (0 + 1)) by lia.
  rewrite store_ok by (rewrite length_insert; simpl length; lia).
  rewrite (u32_small (0 + 1 + 1)) by lia.
  rewrite store_ok by (rewrite !length_insert; simpl length; lia).
  rewrite (u32_small (0 + 1 + 1 + 1)) by lia.
  simpl insert.
  rewrite memcpy_ok by (simpl length; lia).
  change (Z.to_nat (0 + 1 + 1 + 1)) with 3%nat. simpl take. simpl drop.
  assert (Hd : (2 <= length (drop (length data) rest))%nat)
    by (rewrite length_drop; lia).
  destruct (drop (length data) rest) as [|r0 [|r1 rest2]]; simpl in Hd; try lia.
  clear Hd.
  rewrite (u32_small (0 + 1 + 1 + 1 + Z.of_nat (length data))) by lia.
  rewrite (u32_small (0 + 1 + 1 + 1 + Z.of_nat (length data) + 1)) by lia.
  rewrite (u32_small (0 + 1 + 1 + 1 + Z.of_nat (length data) + 1 + 1)) by lia.
  replace (Z.to_nat (0 + 1 + 1 + 1 + Z.of_nat (length data) - 1))
    with (S (S (length data))) by lia.
  simpl drop. simpl take. rewrite take_app_length.
  set (L := u8 (2 + Z.of_nat (length data))).
  set (crc := crc16 (L :: command :: data)).
  change ((170 :: L :: command :: take 0 rest) ++ data ++ r0 :: r1 :: rest2)
    with ((170 :: L :: command :: data) ++ r0 :: r1 :: rest2).
  set (P := 170 :: L :: command :: data).
  assert (HP : length P = (3 + length data)%nat) by reflexivity.
  rewrite store_ok by (rewrite length_app, HP; simpl length; lia).
  replace (Z.to_nat (0 + 1 + 1 + 1 + Z.of_nat (length data)))
    with (length P + 0)%nat by lia.
  rewrite insert_app_r. simpl insert.
  rewrite store_ok by (rewrite length_app, HP; simpl length; lia).
  replace (Z.to_nat (0 + 1 + 1 + 1 + Z.of_nat (length data) + 1))
    with (length P + 1)%nat by lia.
  rewrite insert_app_r. simpl insert.
  replace (Z.to_nat (0 + 1 + 1 + 1 + Z.of_nat (length data) + 1 + 1))
    with (length P + 2)%nat by lia.
  rewrite take_app_add. simpl take. rewrite take_0.
  unfold send_slot, ret.
  replace (P ++ [Z.land (crc ≫ 8) 255; Z.land crc 255])
    with (frame_on_wire command data)
    by (unfold frame_on_wire; reflexivity).
  destruct (_ <? 0); reflexivity.
Qed.

(** A payload of 60 bytes or more does not fit: the frame would take
    [5 + dataLength > 64] bytes and [rscpSendMsg] writes past the end of
    [txBuffer]. *)
Lemma rscpSendMsg_overrun command data w :
  (60 <= length data)%nat ->
  rscpSendMsg command data w = OutOfBounds.
Proof.
  intros Hn. unfold rscpSendMsg, bind, local_array.
  pose proof (uninit_bytes_length w 0 (Z.to_nat 64)) as Hbuf.
  set (buf := uninit_bytes w 0 (Z.to_nat 64)) in *. clearbody buf.
  change (Z.to_nat 64) with 64%nat in Hbuf.
  rewrite store_ok by lia.
  rewrite (u32_small (0 + 1)) by lia.
  rewrite store_ok by (rewrite length_insert; lia).
  rewrite (u32_small (0 + 1 + 1)) by lia.
  rewrite store_ok by (rewrite !length_insert; lia).
  rewrite (u32_small (0 + 1 + 1 + 1)) by lia.
  destruct (le_lt_dec 62 (length data)) as [Hbig|Hsmall].
  - rewrite memcpy_out by (rewrite !length_insert; lia). reflexivity.
  - rewrite memcpy_ok by (rewrite ?length_insert; lia).
    rewrite (u32_small (0 + 1 + 1 + 1 + Z.of_nat (length data))) by lia.
    match goal with
    | |- context [store ?b ?i ?v w] =>
        assert (Hlen : length b = 64%nat)
    end.
    { rewrite !length_app, length_take, length_drop, !length_insert. lia. }
    destruct (le_lt_dec 61 (length data)) as [H61|H60].
    + rewrite store_out by (rewrite Hlen; lia). reflexivity.
    + rewrite store_ok by (rewrite Hlen; lia).
      rewrite (u32_small (0 + 1 + 1 + 1 + Z.of_nat (length data) + 1)) by lia.
      rewrite store_out by (rewrite length_insert, Hlen; lia). reflexivity.
Qed.

End Transmit.

(** ** Encoding then decoding *)

Lemma land_255_range x : is_u8 (Z.land x 255).
Proof.
  unfold is_u8. change 255 with (Z.ones 8). rewrite Z.land_ones by lia.
  pose proof (Z.mod_pos_bound x (2 ^ 8)). lia.
Qed.

Lemma u16_range x : 0 <= u16 x < 2 ^ 16.
Proof. unfold u16. pose proof (Z.mod_pos_bound x (2 ^ 16)). lia. Qed.

(** Every payload of at most 25 bytes survives the round trip, whatever
    the tick budget and however many preamble bytes precede the frame; the
    decoded frame passes the CRC check of the master and of the slave. *)
Lemma roundtrip_upto_25 `{cb : RSCP_Callbacks}
    (command : Z) (payload pre : list Z) (frame : RSCP_frame)
    (t fuel : nat) (w : World) :
  is_u8 command -> Forall is_u8 payload -> (length payload <= 25)%nat ->
  Forall (eq RSCP_PREAMBLE_BYTE) pre ->
  length (frame_data frame) = 26%nat ->
  feeds w (pre ++ tail (frame_on_wire command payload)) ->
  (length pre + length payload + 4 <= fuel)%nat ->
  let f := mkFrame (2 + Z.of_nat (length payload)) command
                   (payload ++ drop (length payload) (frame_data frame))
                   (crc16 (2 + Z.of_nat (length payload) :: command :: payload)) in
  let w' := advance (length pre + length payload + 4) w in
  rscpGetMsg fuel frame t w = Done (RSCP_ERR_OK, f) w'
  /\ frame_crc16 f w' = Done (frame_crc f) w'.
Proof.
  intros Hc Hp Hn Hpre Hf0 Hf Hfuel f w'.
  assert (HL : u8 (2 + Z.of_nat (length payload)) = 2 + Z.of_nat (length payload))
    by (apply u8_small; unfold is_u8; lia).
  unfold frame_on_wire in Hf. rewrite HL in Hf. simpl tail in Hf.
  split.
  - subst f w'.
    set (c := crc16 (2 + Z.of_nat (length payload) :: command :: payload)) in *.
    rewrite <- (crc_join_split c) at 1 by (apply u16_range).
    apply rx_frame; try assumption; try lia; try apply land_255_range.
  - unfold frame_crc16. subst f. simpl frame_length.
    destruct (Z.leb_spec (2 + Z.of_nat (length payload)) 30); try lia.
    unfold frame_bytes. simpl frame_length. simpl frame_command. simpl frame_data.
    replace (Z.to_nat (2 + Z.of_nat (length payload)))
      with (S (S (length payload))) by lia.
    simpl take. rewrite <- app_assoc, take_app_length. reflexivity.
Qed.

(** ** The slave *)

Lemma rscpGetMsg_logs fuel frame t w r w' :
  rscpGetMsg fuel frame t w = Done r w' ->
  sent w' = sent w /\ calls w' = calls w /\ slots w' = slots w
  /\ stack w' = stack w /\ rx w' = rx w.
Proof. apply loop_logs. Qed.

Section Slave.
Context `{cb : RSCP_Callbacks}.

Lemma frame_crc16_ok f w :
  frame_length f <= sizeof_RSCP_frame ->
  frame_crc16 f w
  = Done (crc16 (take (Z.to_nat (frame_length f)) (frame_bytes f))) w.
Proof.
  intros H. unfold frame_crc16.
  destruct (Z.leb_spec (frame_length f) 30); [reflexivity | lia].
Qed.

(** [rscpHandle] after a frame was received. *)
Lemma rscpHandle_received fuel t w f w1 :
  rscpGetMsg fuel (uninit_frame w) t w = Done (RSCP_ERR_OK, f) w1 ->
  rscpHandle fuel t w
  = if crc16 (take (Z.to_nat (frame_length f)) (frame_bytes f)) =? frame_crc f
    then rscpHandle_switch f w1
    else Done RSCP_ERR_MALFORMED w1.
Proof.
  intros E. unfold rscpHandle, bind, local_frame. rewrite E. simpl.
  apply rscpGetMsg_ok in E. destruct E as (_ & HL & _).
  rewrite frame_crc16_ok by lia.
  destruct (_ =? frame_crc f); reflexivity.
Qed.

(** Whatever the command, the dispatch ends with exactly one slot handed
    to the transport: a frame with the command of the request. *)
Lemma rscpHandle_switch_reply f w :
  exists e payload,
    rscpHandle_switch f w
    = Done e (log_sent (frame_on_wire (frame_command f) payload)
                (match arg_size (frame_command f) with
                 | Some n => log_call (frame_command f) (take n (frame_data f)) w
                 | None =>
                     if (frame_command f =? RSCP_CMD_GET_SHUTTER_POSITION)
                        || (frame_command f =? RSCP_CMD_GET_SWITCH_RELAY)
                        || (frame_command f =? RSCP_CMD_GET_SWITCH_BUTTON)
                     then log_call (frame_command f) [] w
                     else w
                 end))
    /\ (~ in_catalog (frame_command f) -> payload = [u8 RSCP_ERR_NOT_SUPPORTED]).
Proof.
  unfold rscpHandle_switch, in_catalog.
  destruct (frame_command f) as [|c|c]; [| do 4 (try destruct c as [c|c|]) |];
    unfold rscpGetCPUQuery, rscpGetShutterPosition, rscpGetSwitchRelay,
           rscpGetSwitchButton, rscpSendFail, bind, device_get, device_set;
    rewrite rscpSendMsg_spec by (simpl; lia);
    eexists _, _; (split; [reflexivity|]); intros H;
    try reflexivity; exfalso; apply H; lia.
Qed.

(** The dispatch of a set-style command: the callback of the command is
    applied to the leading bytes of [frame.data], and its outcome code is
    the one byte of the answer. *)
Lemma rscpHandle_switch_set f w n :
  arg_size (frame_command f) = Some n ->
  rscpHandle_switch f w
  = Done (if rscpSendSlotCallback
               (log_call (frame_command f) (take n (frame_data f)) w)
               (frame_on_wire (frame_command f)
                  [u8 (set_callback (frame_command f) w
                         (take n (frame_data f)))]) <? 0
          then RSCP_ERR_TX_FAILED else RSCP_ERR_OK)
         (log_sent
            (frame_on_wire (frame_command f)
               [u8 (set_callback (frame_command f) w (take n (frame_data f)))])
            (log_call (frame_command f) (take n (frame_data f)) w)).
Proof.
  intros Ha. unfold rscpHandle_switch.
  destruct (frame_command f) as [|c|c]; [| do 4 (try destruct c as [c|c|]) |];
    simpl in Ha; try discriminate; injection Ha as <-; cbv beta iota;
    unfold rscpSendFail, bind, device_set;
    rewrite rscpSendMsg_spec by (simpl; lia); reflexivity.
Qed.

End Slave.

(** ** The master *)

Section Master.
Context `{cb : RSCP_Callbacks}.

Lemma copy_reply_world n : forall i reply f w r w',
  copy_reply n i reply f w = Done r w' -> w' = w.
Proof.
  induction n as [|n IH]; intros i reply f w r w'; simpl.
  - unfold ret. intros H. injection H as _ <-. reflexivity.
  - destruct (frame_data f !! Z.to_nat i) as [v|]; [|discriminate].
    unfold bind, store. destruct (_ && _); [|discriminate].
    apply IH.
Qed.

(** The copy loop returns when it stays inside both arrays, and it is
    bounded by [replyLength]: it never runs out of fuel. *)
Lemma copy_reply_returns n : forall i reply f w,
  0 <= i ->
  (Z.to_nat i + n <= length (frame_data f))%nat ->
  (Z.to_nat i + n <= length reply)%nat ->
  Z.of_nat (length (frame_data f)) < 2 ^ 32 ->
  exists r, copy_reply n i reply f w = Done r w.
Proof.
  induction n as [|n IH]; intros i reply f w Hi Hd Hr Hb; simpl.
  - eexists. reflexivity.
  - destruct (lookup_lt_is_Some_2 (frame_data f) (Z.to_nat i)) as [v Hv]; [lia|].
    rewrite Hv. unfold bind. rewrite store_ok by lia.
    rewrite (u32_small (i + 1)) by lia.
    apply IH; rewrite ?length_insert; lia.
Qed.

Lemma copy_reply_stops n : forall i reply f w,
  copy_reply n i reply f w <> OutOfFuel.
Proof.
  induction n as [|n IH]; intros i reply f w; simpl.
  - discriminate.
  - destruct (frame_data f !! Z.to_nat i) as [v|]; [|discriminate].
    unfold bind, store. destruct (_ && _); [apply IH | discriminate].
Qed.

(** [rscpRequestData] up to the point where the reply is awaited. *)
Lemma rscpRequestData_sent fuel command reply replyLength t w :
  0 <= rscpSendSlotCallback w (frame_on_wire command [0]) ->
  0 <= rscpRequestSlotCallback (log_sent (frame_on_wire command [0]) w)
         (u32 (1 + 1 + 1 + replyLength + 2)) ->
  rscpRequestData fuel command reply replyLength t w
  = match rscpGetMsg fuel (uninit_frame w) t
            (awaiting command [0] (u32 (1 + 1 + 1 + replyLength + 2)) w) with
    | Done (err, frame) w2 =>
        if negb (err =? RSCP_ERR_OK) then Done (err, reply) w2 else
        match frame_crc16 frame w2 with
        | Done c w3 =>
            if negb (c =? frame_crc frame)
            then Done (RSCP_ERR_MALFORMED, reply) w3 else
            if negb (frame_command frame =? command)
            then Done (RSCP_ERR_INVALID_ANSWER, reply) w3 else
            match copy_reply (Z.to_nat replyLength) 0 reply frame w3 with
            | Done reply' w4 => Done (err, reply') w4
            | OutOfBounds => OutOfBounds
            | OutOfFuel => OutOfFuel
            end
        | OutOfBounds => OutOfBounds
        | OutOfFuel => OutOfFuel
        end
    | OutOfBounds => OutOfBounds
    | OutOfFuel => OutOfFuel
    end.
Proof.
  intros Hs Hr. unfold rscpRequestData, bind.
  rewrite rscpSendMsg_spec by (simpl; lia).
  destruct (Z.ltb_spec (rscpSendSlotCallback w (frame_on_wire command [0])) 0);
    try lia.
  change (negb (0 =? 0)) with false. cbv beta iota.
  unfold local_frame, request_slot. cbv beta iota.
  destruct (Z.ltb_spec
              (rscpRequestSlotCallback (log_sent (frame_on_wire command [0]) w)
                 (u32 (1 + 1 + 1 + replyLength + 2))) 0); try lia.
  cbv beta iota. unfold awaiting.
  change (uninit_frame (log_sent (frame_on_wire command [0]) w))
    with (uninit_frame w).
  destruct (rscpGetMsg _ _ _ _) as [[err frame] w2| |]; try reflexivity.
  cbn [fst snd].
  destruct (negb (err =? 0)); [reflexivity|]. cbv beta iota.
  destruct (frame_crc16 frame w2) as [c w3| |]; try reflexivity.
  destruct (negb (c =? frame_crc frame)); [reflexivity|].
  destruct (negb (frame_command frame =? command)); reflexivity.
Qed.

(** [rscpSendAction] up to the point where the reply is awaited. *)
Lemma rscpSendAction_sent fuel command data t w :
  (length data <= 59)%nat ->
  0 <= rscpSendSlotCallback w (frame_on_wire command data) ->
  0 <= rscpRequestSlotCallback (log_sent (frame_on_wire command data) w) 6 ->
  rscpSendAction fuel command data t w
  = match rscpGetMsg fuel (uninit_frame w) t (awaiting command data 6 w) with
    | Done (err, frame) w2 =>
        if negb (err =? RSCP_ERR_OK) then Done err w2 else
        match frame_crc16 frame w2 with
        | Done c w3 =>
            if negb (c =? frame_crc frame) then Done RSCP_ERR_MALFORMED w3 else
            if negb (frame_command frame =? command)
            then Done RSCP_ERR_INVALID_ANSWER w3 else
            match frame_data frame !! 0%nat with
            | Some v => Done v w3
            | None => OutOfBounds
            end
        | OutOfBounds => OutOfBounds
        | OutOfFuel => OutOfFuel
        end
    | OutOfBounds => OutOfBounds
    | OutOfFuel => OutOfFuel
    end.
Proof.
  intros Hn Hs Hr. unfold rscpSendAction, bind.
  rewrite rscpSendMsg_spec by assumption.
  destruct (Z.ltb_spec (rscpSendSlotCallback w (frame_on_wire command data)) 0);
    try lia.
  change (negb (0 =? 0)) with false. cbv beta iota.
  unfold local_frame, request_slot. cbv beta iota.
  change (u32 (1 + 1 + 1 + 1 + 2)) with 6.
  destruct (Z.ltb_spec
              (rscpRequestSlotCallback (log_sent (frame_on_wire command data) w)
                 6) 0); try lia.
  cbv beta iota. unfold awaiting.
  change (uninit_frame (log_sent (frame_on_wire command data) w))
    with (uninit_frame w).
  destruct (rscpGetMsg _ _ _ _) as [[err frame] w2| |]; try reflexivity.
  cbn [fst snd].
  destruct (negb (err =? 0)); [reflexivity|]. cbv beta iota.
  destruct (frame_crc16 frame w2) as [c w3| |]; try reflexivity.
  destruct (negb (c =? frame_crc frame)); [reflexivity|].
  destruct (negb (frame_command frame =? command)); [reflexivity|].
  destruct (frame_data frame !! 0%nat); reflexivity.
Qed.

End Master.

(** * The properties of the specification *)

Ltac bytes_ok :=
  repeat (constructor; [unfold is_u8; lia|]); constructor.

(** C1 (round trip), at the largest payload the claim covers.  For every
    command byte and every payload of exactly 26 bytes, [rscpSendMsg]
    hands the complete frame to the transport, and feeding that frame
    byte by byte into [rscpGetMsg] returns [RSCP_ERR_OVERFLOW] after the
    26th data byte, whatever the tick budget: the loop is left when
    [bufferIndex] reaches 26, before the CRC bytes are read.  The round
    trip holds for payloads of at most 25 bytes ([roundtrip_upto_25]). *)
Theorem roundtrip_26_overflow `{cb : RSCP_Callbacks}
    (command : Z) (payload : list Z) (frame : RSCP_frame)
    (t fuel : nat) (w0 w : World) :
  is_u8 command -> Forall is_u8 payload -> length payload = 26%nat ->
  length (frame_data frame) = 26%nat ->
  feeds w (frame_on_wire command payload) ->
  (29 <= fuel)%nat ->
  (exists e, rscpSendMsg command payload w0
             = Done e (log_sent (frame_on_wire command payload) w0))
  /\ rscpGetMsg fuel frame t w
     = Done (RSCP_ERR_OVERFLOW, mkFrame 28 command payload (frame_crc frame))
            (advance 29 w).
Proof.
  intros Hc Hp Hn Hf0 Hf Hfuel. split.
  - eexists. apply rscpSendMsg_spec. lia.
  - unfold frame_on_wire in Hf. rewrite Hn in Hf.
    change (u8 (2 + Z.of_nat 26)) with 28 in Hf.
    apply feeds_app_l with (bs := 170 :: 28 :: command :: payload)
                           (cs := [Z.land (Z.shiftr (crc16 (28 :: command :: payload)) 8) 255;
                                   Z.land (crc16 (28 :: command :: payload)) 255]) in Hf.
    apply (rx_overflow [170] 28 command payload fuel t frame w);
      try assumption; try lia.
    repeat constructor.
Qed.

Lemma roundtrip_26_overflow_witness :
  rscpGetMsg 29 (uninit_frame (wire [] (fun _ => 0))) 0
    (wire (@frame_on_wire example_host 3 (repeat 7 26)) (fun _ => 0))
  = Done (RSCP_ERR_OVERFLOW,
          mkFrame 28 3 (repeat 7 26)
                  (frame_crc (uninit_frame (wire [] (fun _ => 0)))))
         (advance 29 (wire (@frame_on_wire example_host 3 (repeat 7 26))
                           (fun _ => 0))).
Proof.
  apply (@roundtrip_26_overflow example_host 3 (repeat 7 26)
           (uninit_frame (wire [] (fun _ => 0))) 0 29
           (wire [] (fun _ => 0))
           (wire (@frame_on_wire example_host 3 (repeat 7 26)) (fun _ => 0))).
  - unfold is_u8; lia.
  - simpl. bytes_ok.
  - reflexivity.
  - reflexivity.
  - apply feeds_wire.
  - lia.
Defined.

(** C2 (oversize payload).  For every command and every payload whose
    frame of [5 + dataLength] bytes exceeds the 64 bytes of [txBuffer],
    [rscpSendMsg] does not return an error: it has no length check and
    stores past the end of [txBuffer]. *)
Theorem sendMsg_oversize_overrun `{cb : RSCP_Callbacks}
    (command : Z) (data : list Z) (w : World) :
  RSCP_MAX_TX_BUFFER_SIZE < 5 + Z.of_nat (length data) ->
  rscpSendMsg command data w = OutOfBounds.
Proof. intros H. apply rscpSendMsg_overrun. lia. Qed.

Lemma sendMsg_oversize_overrun_witness :
  @rscpSendMsg example_host 7 (repeat 0 60) (wire [] (fun _ => 0)) = OutOfBounds.
Proof.
  apply (@sendMsg_oversize_overrun example_host 7 (repeat 0 60)).
  simpl. lia.
Defined.

(** C3 (overflow boundary).  A stream whose length byte announces more
    than 26 data bytes and that delivers 26 of them makes [rscpGetMsg]
    return [RSCP_ERR_OVERFLOW] once these 26 bytes are stored in
    [data[0..25]]: exactly [28] bytes after the preamble have been polled
    and no 27th data byte is read or written.  And for every stream, tick
    budget and number of iterations, no write leaves the 26 bytes of
    [frame->data]: [OutOfBounds] is the outcome of a store into
    [frame->data] at an index outside [0..25] ([data_write]), and no run
    of the receiver has it. *)
Theorem overflow_boundary
    (pre : list Z) (L c : Z) (d : list Z) (frame : RSCP_frame)
    (t fuel : nat) (w : World) :
  Forall (eq RSCP_PREAMBLE_BYTE) pre ->
  26 < L - 2 -> is_u8 L -> L <> RSCP_PREAMBLE_BYTE -> is_u8 c ->
  Forall is_u8 d -> length d = 26%nat ->
  length (frame_data frame) = 26%nat ->
  feeds w (pre ++ L :: c :: d) ->
  (length pre + 28 <= fuel)%nat ->
  rscpGetMsg fuel frame t w
  = Done (RSCP_ERR_OVERFLOW, mkFrame L c d (frame_crc frame))
         (advance (length pre + 28) w)
  /\ (forall fuel' frame' t' w', rscpGetMsg fuel' frame' t' w' <> OutOfBounds).
Proof.
  intros Hp HL Hu Hne Hc Hd Hn Hf0 Hf Hfuel. split.
  - apply rx_overflow; try assumption. unfold is_u8 in Hu. lia.
  - intros. apply rscpGetMsg_in_bounds.
Qed.

Lemma overflow_boundary_witness :
  rscpGetMsg 40 (uninit_frame (wire [] (fun _ => 0))) 0
    (wire ([170; 170] ++ 200 :: 9 :: repeat 1 26 ++ [5; 6; 7]) (fun _ => 0))
  = Done (RSCP_ERR_OVERFLOW,
          mkFrame 200 9 (repeat 1 26)
                  (frame_crc (uninit_frame (wire [] (fun _ => 0)))))
         (advance 30 (wire ([170; 170] ++ 200 :: 9 :: repeat 1 26 ++ [5; 6; 7])
                           (fun _ => 0))).
Proof.
  apply (overflow_boundary [170; 170] 200 9 (repeat 1 26)
           (uninit_frame (wire [] (fun _ => 0))) 0 40
           (wire ([170; 170] ++ 200 :: 9 :: repeat 1 26 ++ [5; 6; 7])
                 (fun _ => 0))).
  - repeat constructor.
  - lia.
  - unfold is_u8; lia.
  - lia.
  - unfold is_u8; lia.
  - simpl. bytes_ok.
  - reflexivity.
  - reflexivity.
  - apply (feeds_app_l _ ([170; 170] ++ 200 :: 9 :: repeat 1 26) [5; 6; 7]).
    apply feeds_wire.
  - simpl. lia.
Defined.

(** C4 (timeout boundary), as the code has it.  With a tick budget of
    [k], a source that never produces a byte makes the receive operation
    fail with [RSCP_ERR_TIMEOUT] after exactly [k + 1] calls of
    [rscpGetRxByteCallback] and exactly [k] calls of
    [rscpRxWaitingCallback]: the budget counts the waits between polls,
    and the poll that finds the budget at zero is one more. *)
Theorem timeout_boundary (k fuel : nat) (frame : RSCP_frame) (w : World) :
  (forall n, rx w n = None) ->
  exists w',
    rscpGetMsg (S fuel) frame k w = Done (RSCP_ERR_TIMEOUT, frame) w'
    /\ polls w' = (polls w + (k + 1))%nat
    /\ waits w' = (waits w + k)%nat.
Proof.
  intros H. exists (advance (k + 1) (waited k w)). split; [|split; reflexivity].
  unfold rscpGetMsg. apply loop_silent; [lia | intros; apply H].
Qed.

Lemma timeout_boundary_witness :
  exists w',
    rscpGetMsg 1 (uninit_frame (wire [] (fun _ => 0))) 3 (wire [] (fun _ => 0))
    = Done (RSCP_ERR_TIMEOUT, uninit_frame (wire [] (fun _ => 0))) w'
    /\ polls w' = 4%nat /\ waits w' = 3%nat.
Proof.
  apply (timeout_boundary 3 0 (uninit_frame (wire [] (fun _ => 0)))
           (wire [] (fun _ => 0))).
  intros n. reflexivity.
Defined.

(** C4 as stated fails: with a budget of 3 ticks the silent source is
    polled 4 times, not 3, before [RSCP_ERR_TIMEOUT] is returned. *)
Lemma timeout_boundary_counterexample :
  exists w',
    rscpGetMsg 1 (uninit_frame (wire [] (fun _ => 0))) 3 (wire [] (fun _ => 0))
    = Done (RSCP_ERR_TIMEOUT, uninit_frame (wire [] (fun _ => 0))) w'
    /\ polls w' = 4%nat /\ polls w' <> 3%nat.
Proof.
  eexists. split; [reflexivity|]. split; [reflexivity|]. simpl. lia.
Qed.

(** C5 (the two drafts), as the code has it.  Whenever the receiver of
    [rscpProtocol.c] stops with a frame whose length field is greater
    than 2, the receiver of the earlier draft stops on the same stream,
    tick budget and fuel with the same error code, the same frame and the
    same number of bytes consumed.  (For a length field of 2 or less the
    drafts differ: the earlier one always takes the byte after the
    command as data.) *)
Theorem drafts_agree_above_2 (fuel t : nat) (frame f : RSCP_frame)
    (e : Z) (w w' : World) :
  rscpGetMsg fuel frame t w = Done (e, f) w' ->
  2 < frame_length f ->
  Draft.rscpGetMsg fuel frame t w = Done (e, f) w'.
Proof.
  unfold rscpGetMsg, Draft.rscpGetMsg. apply draft_agrees_loop. lia.
Qed.

Lemma drafts_agree_above_2_witness :
  Draft.rscpGetMsg 10 (uninit_frame (wire [] (fun _ => 0))) 0
    (wire [170; 4; 9; 11; 12; 1; 2] (fun _ => 0))
  = Done (RSCP_ERR_OK,
          mkFrame 4 9 (11 :: 12 :: repeat 0 24) 258)
         (advance 7 (wire [170; 4; 9; 11; 12; 1; 2] (fun _ => 0))).
Proof.
  apply (drafts_agree_above_2 10 0 (uninit_frame (wire [] (fun _ => 0)))).
  - reflexivity.
  - simpl. lia.
Defined.

(** C5 as stated fails at [length = 2]: on the frame [AA 02 03 crc_hi
    crc_lo] the receiver of [rscpProtocol.c] returns [RSCP_ERR_OK], the
    earlier draft stores [crc_hi] as a data byte and runs into
    [RSCP_ERR_TIMEOUT]. *)
Lemma drafts_differ_counterexample :
  exists f1 w1 f2 w2,
    rscpGetMsg 10 (uninit_frame (wire [] (fun _ => 0))) 0
      (wire (@frame_on_wire example_host 3 []) (fun _ => 0))
    = Done (RSCP_ERR_OK, f1) w1
    /\ Draft.rscpGetMsg 10 (uninit_frame (wire [] (fun _ => 0))) 0
         (wire (@frame_on_wire example_host 3 []) (fun _ => 0))
       = Done (RSCP_ERR_TIMEOUT, f2) w2
    /\ frame_length f1 = 2.
Proof.
  do 4 eexists. split; [vm_compute; reflexivity|].
  split; [vm_compute; reflexivity|]. reflexivity.
Qed.

(** C6 (reply if and only if the CRC matches).  After [rscpGetMsg] has
    returned a complete frame to [rscpHandle]: if the recomputed CRC
    differs from the received one, [rscpHandle] returns
    [RSCP_ERR_MALFORMED], nothing was given to the transport and no device
    callback was called; if it matches, exactly one slot is given to the
    transport, a frame with the command of the request, and for a command
    outside the catalog its payload is the one byte of
    [RSCP_ERR_NOT_SUPPORTED] (252) and no device callback was called. *)
Theorem handle_reply_iff_crc `{cb : RSCP_Callbacks}
    (fuel t : nat) (w : World) (f : RSCP_frame) (w1 : World) :
  rscpGetMsg fuel (uninit_frame w) t w = Done (RSCP_ERR_OK, f) w1 ->
  (crc16 (take (Z.to_nat (frame_length f)) (frame_bytes f)) <> frame_crc f ->
     rscpHandle fuel t w = Done RSCP_ERR_MALFORMED w1
     /\ sent w1 = sent w /\ calls w1 = calls w)
  /\ (crc16 (take (Z.to_nat (frame_length f)) (frame_bytes f)) = frame_crc f ->
     exists e w2 payload,
       rscpHandle fuel t w = Done e w2
       /\ sent w2 = sent w ++ [frame_on_wire (frame_command f) payload]
       /\ (~ in_catalog (frame_command f) ->
           payload = [252] /\ calls w2 = calls w)).
Proof.
  intros E. rewrite (rscpHandle_received _ _ _ _ _ E).
  apply rscpGetMsg_logs in E. destruct E as (Es & Ec & _).
  split; intros Hcrc.
  - apply Z.eqb_neq in Hcrc. rewrite Hcrc. auto.
  - apply Z.eqb_eq in Hcrc. rewrite Hcrc.
    destruct (rscpHandle_switch_reply f w1) as (e & payload & H & Hd).
    exists e. eexists. exists payload. split; [exact H|].
    split.
    + simpl. rewrite <- Es.
      destruct (arg_size (frame_command f)); [reflexivity|].
      destruct (_ || _); reflexivity.
    + intros Hn. split; [exact (Hd Hn)|].
      unfold in_catalog in Hn. simpl. rewrite <- Ec.
      destruct (frame_command f) as [|c|c]; [| do 4 (try destruct c as [c|c|]) |];
        try reflexivity; lia.
Qed.

Lemma handle_reply_iff_crc_witness :
  exists e w2 payload,
    @rscpHandle example_host 10 0
      (wire (@frame_on_wire example_host 77 []) (fun _ => 0))
    = Done e w2
    /\ sent w2 = [] ++ [@frame_on_wire example_host 77 payload]
    /\ (~ in_catalog 77 -> payload = [252] /\ calls w2 = []).
Proof.
  refine (proj2 (@handle_reply_iff_crc example_host 10 0
                   (wire (@frame_on_wire example_host 77 []) (fun _ => 0))
                   (mkFrame 2 77 (repeat 0 26) (crc16_modbus [2; 77]))
                   (advance 5 (wire (@frame_on_wire example_host 77 [])
                                    (fun _ => 0)))
                   _) _).
  - vm_compute. reflexivity.
  - vm_compute. reflexivity.
Defined.

(** C7 (mismatched reply).  In a master transaction whose request was
    sent, whose receive slot was granted and whose reply frame arrived
    with a valid CRC but with a command byte other than the one of the
    request, [rscpSendAction] and [rscpRequestData] return
    [RSCP_ERR_INVALID_ANSWER], and [rscpRequestData] leaves the caller's
    reply buffer as it was. *)
Theorem mismatched_reply `{cb : RSCP_Callbacks}
    (fuel t : nat) (command : Z) (data : list Z) (n : Z)
    (w : World) (f : RSCP_frame) (w2 : World) :
  (length data <= 59)%nat ->
  0 <= rscpSendSlotCallback w (frame_on_wire command data) ->
  0 <= rscpRequestSlotCallback (log_sent (frame_on_wire command data) w) n ->
  rscpGetMsg fuel (uninit_frame w) t (awaiting command data n w)
  = Done (RSCP_ERR_OK, f) w2 ->
  crc16 (take (Z.to_nat (frame_length f)) (frame_bytes f)) = frame_crc f ->
  frame_command f <> command ->
  (n = 6 ->
   rscpSendAction fuel command data t w = Done RSCP_ERR_INVALID_ANSWER w2)
  /\ (forall (reply : list Z) (replyLength : Z),
        data = [0] -> n = u32 (1 + 1 + 1 + replyLength + 2) ->
        rscpRequestData fuel command reply replyLength t w
        = Done (RSCP_ERR_INVALID_ANSWER, reply) w2).
Proof.
  intros Hn Hs Hr E Hcrc Hcmd.
  pose proof (rscpGetMsg_ok _ _ _ _ _ _ E) as (_ & HL & _).
  apply Z.eqb_eq in Hcrc. apply Z.eqb_neq in Hcmd.
  split.
  - intros ->. rewrite rscpSendAction_sent by assumption.
    rewrite E. simpl negb. cbv iota.
    rewrite frame_crc16_ok by lia. rewrite Hcrc, Hcmd. reflexivity.
  - intros reply replyLength -> ->.
    rewrite rscpRequestData_sent by assumption.
    rewrite E. simpl negb. cbv iota.
    rewrite frame_crc16_ok by lia. rewrite Hcrc, Hcmd. reflexivity.
Qed.

Lemma mismatched_reply_witness :
  @rscpSendAction example_host 10 RSCP_CMD_SET_SWITCH_RELAY [2] 0
    (wire (@frame_on_wire example_host RSCP_CMD_GET_SWITCH_RELAY [0])
          (fun _ => 0))
  = Done RSCP_ERR_INVALID_ANSWER
      (advance 6
         (@awaiting example_host RSCP_CMD_SET_SWITCH_RELAY [2] 6
            (wire (@frame_on_wire example_host RSCP_CMD_GET_SWITCH_RELAY [0])
                  (fun _ => 0)))).
Proof.
  refine (proj1 (@mismatched_reply example_host 10 0 7 [2] 6
                   (wire (@frame_on_wire example_host 8 [0]) (fun _ => 0))
                   (mkFrame 3 8 (0 :: repeat 0 25) (crc16_modbus [3; 8; 0]))
                   _ _ _ _ _ _ _) _).
  - simpl. lia.
  - simpl. lia.
  - simpl. lia.
  - vm_compute. reflexivity.
  - vm_compute. reflexivity.
  - simpl. lia.
  - reflexivity.
Defined.

(** C8 (the request of [rscpRequestData]), as the code has it.  For every
    command, the request frame that [rscpRequestData] gives to the
    transport carries one data byte, [0x00]: its length byte is 3 and the
    byte [0x00] stands between the command byte and the CRC.  Sending it
    is the first thing the call does and always completes.  Whatever the
    call then does, the request is the one slot it has transmitted: when
    it returns; when it is still in the receive loop, which was started
    after the request went out; and when, after a reply was received, the
    copy loop leaves [frame.data] or the reply buffer.  The call returns
    whenever the receive returns and [replyLength] fits both arrays. *)
Theorem requestData_frame `{cb : RSCP_Callbacks}
    (fuel t : nat) (command : Z) (reply : list Z) (replyLength : Z)
    (w : World) :
  let request :=
    [RSCP_PREAMBLE_BYTE; 3; command; 0;
     Z.land (Z.shiftr (crc16 [3; command; 0]) 8) 255;
     Z.land (crc16 [3; command; 0]) 255] in
  let n := u32 (1 + 1 + 1 + replyLength + 2) in
  let w1 := log_sent request w in
  let w2 := log_slot n w1 in
  rscpSendMsg command [0] w
  = Done (if rscpSendSlotCallback w request <? 0
          then RSCP_ERR_TX_FAILED else RSCP_ERR_OK) w1
  /\ sent w1 = sent w ++ [request]
  /\ sent w2 = sent w ++ [request]
  /\ match rscpRequestData fuel command reply replyLength t w with
     | Done _ w' => sent w' = sent w ++ [request]
     | OutOfFuel =>
         0 <= rscpSendSlotCallback w request
         /\ 0 <= rscpRequestSlotCallback w1 n
         /\ rscpGetMsg fuel (uninit_frame w) t w2 = OutOfFuel
     | OutOfBounds =>
         0 <= rscpSendSlotCallback w request
         /\ 0 <= rscpRequestSlotCallback w1 n
         /\ (exists f w3,
               rscpGetMsg fuel (uninit_frame w) t w2
               = Done (RSCP_ERR_OK, f) w3
               /\ sent w3 = sent w ++ [request])
         /\ (26 < replyLength \/ Z.of_nat (length reply) < replyLength)
     end
  /\ (forall ef w3,
        rscpGetMsg fuel (uninit_frame w) t w2 = Done ef w3 ->
        replyLength <= 26 -> replyLength <= Z.of_nat (length reply) ->
        exists r w',
          rscpRequestData fuel command reply replyLength t w = Done r w').
Proof.
  intros request n w1 w2.
  change request with (frame_on_wire command [0]) in *. clear request.
  assert (Hm :
    match rscpRequestData fuel command reply replyLength t w with
    | Done _ w' => sent w' = sent w ++ [frame_on_wire command [0]]
    | OutOfFuel =>
        0 <= rscpSendSlotCallback w (frame_on_wire command [0])
        /\ 0 <= rscpRequestSlotCallback w1 n
        /\ rscpGetMsg fuel (uninit_frame w) t w2 = OutOfFuel
    | OutOfBounds =>
        0 <= rscpSendSlotCallback w (frame_on_wire command [0])
        /\ 0 <= rscpRequestSlotCallback w1 n
        /\ (exists f w3,
              rscpGetMsg fuel (uninit_frame w) t w2 = Done (RSCP_ERR_OK, f) w3
              /\ sent w3 = sent w ++ [frame_on_wire command [0]])
        /\ (26 < replyLength \/ Z.of_nat (length reply) < replyLength)
    end).
  { destruct (Z_lt_le_dec (rscpSendSlotCallback w (frame_on_wire command [0])) 0)
      as [Hs|Hs].
    { unfold rscpRequestData, bind.
      rewrite rscpSendMsg_spec by (simpl; lia).
      destruct (Z.ltb_spec (rscpSendSlotCallback w (frame_on_wire command [0])) 0);
        [|lia].
      reflexivity. }
    destruct (Z_lt_le_dec (rscpRequestSlotCallback w1 n) 0) as [Hr|Hr].
    { unfold rscpRequestData, bind.
      rewrite rscpSendMsg_spec by (simpl; lia).
      destruct (Z.ltb_spec (rscpSendSlotCallback w (frame_on_wire command [0])) 0);
        [lia|].
      change (negb (0 =? 0)) with false. cbv beta iota.
      unfold local_frame, request_slot. cbv beta iota.
      fold n. fold w1.
      destruct (Z.ltb_spec (rscpRequestSlotCallback w1 n) 0); [|lia].
      reflexivity. }
    rewrite (rscpRequestData_sent fuel command reply replyLength t w Hs Hr).
    change (awaiting command [0] (u32 (1 + 1 + 1 + replyLength + 2)) w) with w2.
    destruct (rscpGetMsg fuel (uninit_frame w) t w2) as [[err f] w3| |] eqn:E.
    - pose proof (rscpGetMsg_logs _ _ _ _ _ _ E) as (Es & _).
      change (sent w2) with (sent w ++ [frame_on_wire command [0]]) in Es.
      destruct (Z.eqb_spec err 0) as [He|He]; [|exact Es].
      subst err. cbv beta iota. simpl negb. cbv iota.
      pose proof (rscpGetMsg_ok _ _ _ _ _ _ E) as (_ & HL & Hlen & _).
      change (frame_data (uninit_frame w)) with (uninit_bytes w 2 26) in Hlen.
      rewrite uninit_bytes_length in Hlen.
      rewrite frame_crc16_ok by lia.
      destruct (negb (_ =? frame_crc f)); [exact Es|].
      destruct (negb (frame_command f =? command)); [exact Es|].
      destruct (copy_reply (Z.to_nat replyLength) 0 reply f w3)
        as [reply' w4| |] eqn:Ec.
      + apply copy_reply_world in Ec. subst w4. exact Es.
      + repeat split; try assumption.
        * exists f, w3. split; [reflexivity | exact Es].
        * destruct (Z_lt_le_dec 26 replyLength) as [H26|H26]; [left; exact H26|].
          destruct (Z_lt_le_dec (Z.of_nat (length reply)) replyLength)
            as [Hb|Hb]; [right; exact Hb|].
          exfalso.
          destruct (copy_reply_returns (Z.to_nat replyLength) 0 reply f w3)
            as [r Hr']; try congruence.
          { lia. }
          { rewrite Hlen. simpl. lia. }
          { simpl. lia. }
          { rewrite Hlen. simpl. lia. }
      + exfalso. exact (copy_reply_stops _ _ _ _ _ Ec).
    - exfalso. exact (rscpGetMsg_in_bounds _ _ _ _ E).
    - repeat split; assumption. }
  split; [apply rscpSendMsg_spec; simpl; lia|].
  split; [reflexivity|]. split; [reflexivity|]. split; [exact Hm|].
  intros ef w3 E H26 Hb.
  destruct (rscpRequestData fuel command reply replyLength t w)
    as [r w'| |].
  - exists r, w'. reflexivity.
  - destruct Hm as (_ & _ & _ & [H|H]); lia.
  - destruct Hm as (_ & _ & Hf). congruence.
Qed.

Lemma requestData_frame_witness :
  exists r w',
    @rscpRequestData example_host 13 RSCP_CMD_CPU_QUERY (repeat 0 8) 8 0
      (wire (@frame_on_wire example_host RSCP_CMD_CPU_QUERY
               [0; 0; 1; 1; 1; 1; 30; 0]) (fun _ => 0))
    = Done r w'.
Proof.
  pose proof (@requestData_frame example_host 13 0 RSCP_CMD_CPU_QUERY
                (repeat 0 8) 8
                (wire (@frame_on_wire example_host 3 [0; 0; 1; 1; 1; 1; 30; 0])
                      (fun _ => 0))) as H.
  cbv zeta in H. destruct H as (_ & _ & _ & _ & H).
  eapply H.
  - vm_compute. reflexivity.
  - lia.
  - simpl. lia.
Defined.

(** C8 as stated fails: the request for [RSCP_CMD_CPU_QUERY] goes out
    with a length byte of 3, not 2, and with the data byte [0x00] after
    the command byte. *)
Lemma requestData_frame_counterexample :
  exists r w' hi lo,
    @rscpRequestData example_host 1 RSCP_CMD_CPU_QUERY (repeat 0 8) 8 0
      (wire [] (fun _ => 0))
    = Done r w'
    /\ sent w' = [[170; 3; 3; 0; hi; lo]]
    /\ [170; 3; 3; 0; hi; lo] !! 1%nat <> Some 2.
Proof.
  do 4 eexists. split; [vm_compute; reflexivity|].
  split; [reflexivity|]. simpl. congruence.
Qed.



(** C10 (dispatch without a check of the payload size).  For every frame
    that was received with a valid CRC and whose command is a set-style
    command, [rscpHandle] applies the device callback of that command to
    the leading [sizeof] bytes of [frame.data], whatever the length field
    says, and answers with the outcome code that this callback returned;
    the cells of [frame.data] from index [max (length - 2) 0] on were
    never received: they are the uninitialised content of the local
    frame.  A [RSCP_CMD_SET_BUZZER_ACTION] frame of length 2 thus has
    [rscpSetBuzzerActionCallback] run on nine uninitialised bytes, and
    what it returns on them is sent back. *)
Theorem handle_set_unchecked `{cb : RSCP_Callbacks}
    (fuel t : nat) (w : World) (f : RSCP_frame) (w1 : World) (n : nat) :
  rscpGetMsg fuel (uninit_frame w) t w = Done (RSCP_ERR_OK, f) w1 ->
  crc16 (take (Z.to_nat (frame_length f)) (frame_bytes f)) = frame_crc f ->
  arg_size (frame_command f) = Some n ->
  let arg := take n (frame_data f) in
  let w2 := log_call (frame_command f) arg w1 in
  let answer :=
    frame_on_wire (frame_command f)
      [u8 (set_callback (frame_command f) w1 arg)] in
  rscpHandle fuel t w
  = Done (if rscpSendSlotCallback w2 answer <? 0
          then RSCP_ERR_TX_FAILED else RSCP_ERR_OK)
         (log_sent answer w2)
  /\ calls (log_sent answer w2) = calls w ++ [(frame_command f, arg)]
  /\ drop (Z.to_nat (Z.max 0 (frame_length f - 2))) (frame_data f)
     = drop (Z.to_nat (Z.max 0 (frame_length f - 2))) (uninit_bytes w 2 26)
  /\ (frame_command f = RSCP_CMD_SET_BUZZER_ACTION -> frame_length f = 2 ->
      rscpHandle fuel t w
      = let garbage := uninit_bytes w 2 9 in
        let reply :=
          frame_on_wire RSCP_CMD_SET_BUZZER_ACTION
            [u8 (rscpSetBuzzerActionCallback w1 garbage)] in
        let w3 := log_call RSCP_CMD_SET_BUZZER_ACTION garbage w1 in
        Done (if rscpSendSlotCallback w3 reply <? 0
              then RSCP_ERR_TX_FAILED else RSCP_ERR_OK)
             (log_sent reply w3)).
Proof.
  intros E Hcrc Hn arg w2 answer.
  assert (Hh : rscpHandle fuel t w
               = Done (if rscpSendSlotCallback w2 answer <? 0
                       then RSCP_ERR_TX_FAILED else RSCP_ERR_OK)
                      (log_sent answer w2)).
  { rewrite (rscpHandle_received _ _ _ _ _ E).
    apply Z.eqb_eq in Hcrc. rewrite Hcrc.
    apply rscpHandle_switch_set. exact Hn. }
  pose proof (rscpGetMsg_logs _ _ _ _ _ _ E) as (_ & Ec & _).
  pose proof (rscpGetMsg_ok _ _ _ _ _ _ E) as (_ & _ & _ & Hd).
  split; [exact Hh|]. split; [simpl; rewrite Ec; reflexivity|].
  split; [exact Hd|].
  intros Hc HL. rewrite Hh. subst arg w2 answer.
  rewrite HL in Hd. change (Z.to_nat (Z.max 0 (2 - 2))) with 0%nat in Hd.
  rewrite !drop_0 in Hd.
  rewrite Hc in Hn |- *. injection Hn as <-.
  rewrite Hd. reflexivity.
Qed.

Lemma handle_set_unchecked_witness :
  @rscpHandle probe_host 10 0
    (wire (@frame_on_wire probe_host RSCP_CMD_SET_BUZZER_ACTION [])
          (fun i => Z.of_nat i))
  = Done RSCP_ERR_OK
      (log_sent (@frame_on_wire probe_host RSCP_CMD_SET_BUZZER_ACTION [92])
         (log_call RSCP_CMD_SET_BUZZER_ACTION [2; 3; 4; 5; 6; 7; 8; 9; 10]
            (advance 5
               (wire (@frame_on_wire probe_host RSCP_CMD_SET_BUZZER_ACTION [])
                     (fun i => Z.of_nat i))))).
Proof.
  destruct (@handle_set_unchecked probe_host 10 0
              (wire (@frame_on_wire probe_host 9 []) (fun i => Z.of_nat i))
              (mkFrame 2 9
                 (uninit_bytes (wire [] (fun i => Z.of_nat i)) 2 26)
                 (crc16_modbus [2; 9]))
              (advance 5 (wire (@frame_on_wire probe_host 9 [])
                               (fun i => Z.of_nat i)))
              9%nat)
    as (_ & _ & _ & H).
  - vm_compute. reflexivity.
  - vm_compute. reflexivity.
  - reflexivity.
  - rewrite H by reflexivity. reflexivity.
Defined.


(** * Further properties of the code *)

(** ** The blocking read and the receiver *)

Lemma blocking_delayed g : forall t w b,
  (g <= t)%nat ->
  (forall i, (i < g)%nat -> rx w (polls w + i)%nat = None) ->
  rx w (polls w + g)%nat = Some b ->
  rscpGetRxByteBlocking t w = (Some (u8 b), advance (g + 1) (waited g w)).
Proof.
  induction g as [|g IH]; intros t w b Hg Hn Hb.
  - rewrite Nat.add_0_r in Hb. rewrite (blocking_ready t w b Hb).
    f_equal. destruct w; unfold advance, waited; simpl. f_equal; lia.
  - destruct t as [|t]; [lia|]. simpl. unfold rscpGetRxByteCallback.
    rewrite <- (Nat.add_0_r (polls w)) at 1. rewrite Hn by lia. simpl.
    rewrite (IH t _ b).
    + f_equal. unfold advance, waited, rscpRxWaitingCallback; simpl.
      f_equal; lia.
    + lia.
    + intros i Hi. simpl. rewrite <- (Hn (S i)) by lia. f_equal. lia.
    + simpl. rewrite <- Hb. f_equal. lia.
Qed.

(** [rscpGetRxByteBlocking] with a budget of [t] ticks, when the byte [b]
    becomes ready at the poll after [g] empty ones: for [g <= t] the byte is
    returned after [g] waits and [g + 1] polls (so a byte that is ready at
    once costs no wait); for [g > t] the call gives up after [t] waits and
    [t + 1] polls and the byte stays in the source. *)
Theorem blocking_read_boundary (g t : nat) (w : World) (b : Z) :
  (forall i, (i < g)%nat -> rx w (polls w + i)%nat = None) ->
  rx w (polls w + g)%nat = Some b ->
  rscpGetRxByteBlocking t w
  = if (g <=? t)%nat
    then (Some (u8 b), advance (g + 1) (waited g w))
    else (None, advance (t + 1) (waited t w)).
Proof.
  intros Hn Hb. destruct (Nat.leb_spec g t).
  - apply blocking_delayed; assumption.
  - apply blocking_silent. intros i Hi. apply Hn. lia.
Qed.

Lemma blocking_read_boundary_witness :
  rscpGetRxByteBlocking 2 (world_of [None; None; Some 300] (fun _ => 0))
  = (Some 44, advance 3 (waited 2 (world_of [None; None; Some 300] (fun _ => 0))))
  /\ rscpGetRxByteBlocking 1 (world_of [None; None; Some 300] (fun _ => 0))
     = (None, advance 2 (waited 1 (world_of [None; None; Some 300] (fun _ => 0)))).
Proof.
  split.
  - apply (blocking_read_boundary 2 2 (world_of [None; None; Some 300] (fun _ => 0)) 300).
    + intros i Hi. destruct i as [|[|i]]; [reflexivity | reflexivity | lia].
    + reflexivity.
  - apply (blocking_read_boundary 2 1 (world_of [None; None; Some 300] (fun _ => 0)) 300).
    + intros i Hi. destruct i as [|[|i]]; [reflexivity | reflexivity | lia].
    + reflexivity.
Defined.

(** Preamble skip: any number of [0xAA] bytes in front of a stream is
    consumed, one loop iteration each, without a change to the frame; the
    receiver then does on the rest of the stream what it would have done
    without them. *)
Theorem preamble_skip (pre : list Z) (fuel t : nat) (frame : RSCP_frame)
    (w : World) :
  Forall (eq RSCP_PREAMBLE_BYTE) pre -> feeds w pre ->
  rscpGetMsg (length pre + fuel) frame t w
  = rscpGetMsg fuel frame t (advance (length pre) w).
Proof. intros Hp Hf. unfold rscpGetMsg. apply rx_preamble; assumption. Qed.

Lemma preamble_skip_witness :
  rscpGetMsg (3 + 10) (uninit_frame (wire [] (fun _ => 0))) 0
    (wire [170; 170; 170; 4; 9; 11; 12; 1; 2] (fun _ => 0))
  = rscpGetMsg 10 (uninit_frame (wire [] (fun _ => 0))) 0
      (advance 3 (wire [170; 170; 170; 4; 9; 11; 12; 1; 2] (fun _ => 0))).
Proof.
  apply (preamble_skip [170; 170; 170] 10 0).
  - repeat constructor.
  - apply (feeds_app_l _ [170; 170; 170] [4; 9; 11; 12; 1; 2]).
    apply feeds_wire.
Defined.

(** Receiving only reads: whatever [rscpGetMsg] returns, it has given
    nothing to the transport, reserved no slot and called no device
    callback. *)
Theorem receive_only_reads (fuel t : nat) (frame : RSCP_frame) (w : World)
    (r : Z * RSCP_frame) (w' : World) :
  rscpGetMsg fuel frame t w = Done r w' ->
  sent w' = sent w /\ slots w' = slots w /\ calls w' = calls w.
Proof.
  intros E. apply rscpGetMsg_logs in E. tauto.
Qed.

Lemma receive_only_reads_witness :
  sent (advance 7 (wire [170; 4; 9; 11; 12; 1; 2] (fun _ => 0))) = []
  /\ slots (advance 7 (wire [170; 4; 9; 11; 12; 1; 2] (fun _ => 0))) = []
  /\ calls (advance 7 (wire [170; 4; 9; 11; 12; 1; 2] (fun _ => 0))) = [].
Proof.
  apply (receive_only_reads 10 0 (uninit_frame (wire [] (fun _ => 0)))
           (wire [170; 4; 9; 11; 12; 1; 2] (fun _ => 0))
           (RSCP_ERR_OK, mkFrame 4 9 (11 :: 12 :: repeat 0 24) 258)).
  reflexivity.
Defined.

(** ** The transmitter and the round trip *)

(** The frame of [rscpSendMsg]: for every payload of at most 59 bytes the
    transport is given, in one slot, the preamble, the length byte
    [2 + dataLength], the command, the payload and the CRC of the bytes
    from the length byte to the end of the payload, high byte first; the
    result is [RSCP_ERR_TX_FAILED] exactly when [rscpSendSlotCallback]
    returns a negative value, and [RSCP_ERR_OK] otherwise. *)
Theorem sendMsg_frame `{cb : RSCP_Callbacks}
    (command : Z) (data : list Z) (w : World) :
  (length data <= 59)%nat ->
  let body := 2 + Z.of_nat (length data) :: command :: data in
  let slot := RSCP_PREAMBLE_BYTE :: body
                ++ [Z.land (Z.shiftr (crc16 body) 8) 255;
                    Z.land (crc16 body) 255] in
  rscpSendMsg command data w
  = Done (if rscpSendSlotCallback w slot <? 0
          then RSCP_ERR_TX_FAILED else RSCP_ERR_OK)
         (log_sent slot w)
  /\ length slot = (5 + length data)%nat.
Proof.
  intros Hn body slot.
  assert (Hs : slot = frame_on_wire command data).
  { unfold slot, body, frame_on_wire.
    rewrite (u8_small (2 + Z.of_nat (length data))) by (unfold is_u8; lia).
    reflexivity. }
  split.
  - rewrite Hs. apply rscpSendMsg_spec. exact Hn.
  - unfold slot, body. simpl. rewrite length_app. simpl. lia.
Qed.

Lemma sendMsg_frame_witness :
  @rscpSendMsg example_host 3 [1; 2; 3] (wire [] (fun _ => 0))
  = Done RSCP_ERR_OK (log_sent [170; 5; 3; 1; 2; 3; 229; 248] (wire [] (fun _ => 0))).
Proof.
  apply (proj1 (@sendMsg_frame example_host 3 [1; 2; 3] (wire [] (fun _ => 0))
                  ltac:(simpl; lia))).
Defined.

(** Round trip: for every command byte and every payload of at most 25
    bytes, the frame that [rscpSendMsg] hands to the transport, fed byte
    by byte into [rscpGetMsg] after any number of preamble bytes and with
    any tick budget, is returned with [RSCP_ERR_OK], the command, the
    length [2 + n], the payload in [data[0..n-1]] (the other cells
    untouched) and a CRC that the check of the master and the slave
    accepts. *)
Theorem send_receive_roundtrip `{cb : RSCP_Callbacks}
    (command : Z) (payload pre : list Z) (frame : RSCP_frame)
    (t fuel : nat) (w0 w : World) :
  is_u8 command -> Forall is_u8 payload -> (length payload <= 25)%nat ->
  Forall (eq RSCP_PREAMBLE_BYTE) pre ->
  length (frame_data frame) = 26%nat ->
  feeds w (pre ++ tail (frame_on_wire command payload)) ->
  (length pre + length payload + 4 <= fuel)%nat ->
  let f := mkFrame (2 + Z.of_nat (length payload)) command
                   (payload ++ drop (length payload) (frame_data frame))
                   (crc16 (2 + Z.of_nat (length payload) :: command :: payload)) in
  let w' := advance (length pre + length payload + 4) w in
  (exists e, rscpSendMsg command payload w0
             = Done e (log_sent (frame_on_wire command payload) w0))
  /\ rscpGetMsg fuel frame t w = Done (RSCP_ERR_OK, f) w'
  /\ frame_crc16 f w' = Done (frame_crc f) w'.
Proof.
  intros Hc Hp Hn Hpre Hf0 Hf Hfuel f w'. split.
  - eexists. apply rscpSendMsg_spec. lia.
  - apply roundtrip_upto_25; assumption.
Qed.

Lemma send_receive_roundtrip_witness :
  rscpGetMsg 30 (uninit_frame (wire [] (fun _ => 0))) 0
    (wire (@frame_on_wire example_host 3 (repeat 7 25)) (fun _ => 0))
  = Done (RSCP_ERR_OK,
          mkFrame 27 3 (repeat 7 25 ++ [0])
                  (@crc16 example_host (27 :: 3 :: repeat 7 25)))
         (advance 30 (wire (@frame_on_wire example_host 3 (repeat 7 25))
                           (fun _ => 0))).
Proof.
  apply (proj1 (proj2 (@send_receive_roundtrip example_host 3 (repeat 7 25) [170]
           (uninit_frame (wire [] (fun _ => 0))) 0 30
           (wire [] (fun _ => 0))
           (wire (@frame_on_wire example_host 3 (repeat 7 25)) (fun _ => 0))
           ltac:(unfold is_u8; lia) ltac:(simpl; bytes_ok) ltac:(simpl; lia)
           ltac:(repeat constructor) ltac:(reflexivity)
           ltac:(apply feeds_wire) ltac:(simpl; lia)))).
Defined.

(** ** The master *)

Section MasterMore.
Context `{cb : RSCP_Callbacks}.

Lemma copy_reply_spec n : forall i reply f w,
  0 <= i ->
  (Z.to_nat i + n <= length (frame_data f))%nat ->
  (Z.to_nat i + n <= length reply)%nat ->
  Z.of_nat (length reply) < 2 ^ 32 ->
  copy_reply n i reply f w
  = Done (take (Z.to_nat i) reply
            ++ take n (drop (Z.to_nat i) (frame_data f))
            ++ drop (Z.to_nat i + n) reply) w.
Proof.
  induction n as [|n IH]; intros i reply f w Hi Hd Hr Hb; simpl.
  - rewrite Nat.add_0_r, take_drop. reflexivity.
  - destruct (lookup_lt_is_Some_2 (frame_data f) (Z.to_nat i)) as [v Hv]; [lia|].
    rewrite Hv. unfold bind. rewrite store_ok by lia.
    rewrite (u32_small (i + 1)) by lia.
    rewrite IH; [| lia | lia | rewrite length_insert; lia
                 | rewrite length_insert; lia].
    replace (Z.to_nat (i + 1)) with (S (Z.to_nat i)) by lia.
    rewrite take_insert_lt by lia. rewrite drop_insert_lt by lia.
    destruct (lookup_lt_is_Some_2 reply (Z.to_nat i)) as [x Hx]; [lia|].
    rewrite (take_S_r reply _ x Hx).
    assert (Hl : Z.to_nat i = (length (take (Z.to_nat i) reply) + 0)%nat)
      by (rewrite length_take; lia).
    rewrite Hl at 1. rewrite insert_app_r. simpl insert.
    rewrite (drop_S _ _ _ Hv). simpl take.
    rewrite <- app_assoc.
    replace (S (Z.to_nat i) + n)%nat with (Z.to_nat i + S n)%nat by lia.
    reflexivity.
Qed.

Lemma copy_reply_out n : forall i reply f w,
  0 <= i ->
  Z.of_nat (length reply) < 2 ^ 32 ->
  (Z.to_nat i <= length (frame_data f))%nat ->
  (Z.to_nat i <= length reply)%nat ->
  (length (frame_data f) < Z.to_nat i + n)%nat
  \/ (length reply < Z.to_nat i + n)%nat ->
  copy_reply n i reply f w = OutOfBounds.
Proof.
  induction n as [|n IH]; intros i reply f w Hi Hb Hid Hir Ho; simpl.
  - lia.
  - destruct (frame_data f !! Z.to_nat i) as [v|] eqn:Hv; [|reflexivity].
    apply lookup_lt_Some in Hv. unfold bind.
    destruct (Z_lt_le_dec i (Z.of_nat (length reply))) as [Hlt|Hge].
    + rewrite store_ok by lia. rewrite (u32_small (i + 1)) by lia.
      apply IH; rewrite ?length_insert; lia.
    + rewrite store_out by lia. reflexivity.
Qed.

End MasterMore.

Lemma receive_frame_on_wire `{cb : RSCP_Callbacks}
    (command : Z) (payload : list Z) (frame : RSCP_frame)
    (t fuel : nat) (w : World) :
  is_u8 command -> Forall is_u8 payload -> (length payload <= 25)%nat ->
  length (frame_data frame) = 26%nat ->
  feeds w (frame_on_wire command payload) ->
  (length payload + 5 <= fuel)%nat ->
  let f := mkFrame (2 + Z.of_nat (length payload)) command
                   (payload ++ drop (length payload) (frame_data frame))
                   (crc16 (2 + Z.of_nat (length payload) :: command :: payload)) in
  let w' := advance (length payload + 5) w in
  rscpGetMsg fuel frame t w = Done (RSCP_ERR_OK, f) w'
  /\ frame_crc16 f w' = Done (frame_crc f) w'.
Proof.
  intros Hc Hp Hn Hf0 Hf Hfuel f w'.
  assert (Hw : w' = advance (length [170] + length payload + 4) w).
  { unfold w', advance. simpl. f_equal. lia. }
  rewrite Hw.
  apply (roundtrip_upto_25 command payload [170] frame t fuel w);
    try assumption; try (simpl; lia).
  repeat constructor.
Qed.

(** [rscpRequestData] on a good reply.  When the request was accepted by
    the transport, the slot granted and the reply frame for the same
    command arrives with a payload of at most 25 bytes, the call returns
    [RSCP_ERR_OK] and has overwritten the first [replyLength] bytes of the
    caller's buffer with the first [replyLength] bytes of [frame.data]:
    the payload received, followed, if [replyLength] is larger than the
    payload, by uninitialised bytes of the local frame.  The length of the
    reply is not compared with [replyLength]. *)
Theorem requestData_copies_reply `{cb : RSCP_Callbacks}
    (fuel t : nat) (command : Z) (payload reply : list Z) (replyLength : Z)
    (w : World) :
  is_u8 command -> Forall is_u8 payload -> (length payload <= 25)%nat ->
  0 <= replyLength <= 26 ->
  (Z.to_nat replyLength <= length reply)%nat ->
  Z.of_nat (length reply) < 2 ^ 32 ->
  0 <= rscpSendSlotCallback w (frame_on_wire command [0]) ->
  0 <= rscpRequestSlotCallback (log_sent (frame_on_wire command [0]) w)
         (u32 (1 + 1 + 1 + replyLength + 2)) ->
  feeds (awaiting command [0] (u32 (1 + 1 + 1 + replyLength + 2)) w)
        (frame_on_wire command payload) ->
  (length payload + 5 <= fuel)%nat ->
  rscpRequestData fuel command reply replyLength t w
  = Done (RSCP_ERR_OK,
          take (Z.to_nat replyLength)
               (payload ++ drop (length payload) (uninit_bytes w 2 26))
            ++ drop (Z.to_nat replyLength) reply)
         (advance (length payload + 5)
            (awaiting command [0] (u32 (1 + 1 + 1 + replyLength + 2)) w)).
Proof.
  intros Hc Hp Hn Hrl Hr Hb Hs Hq Hf Hfuel.
  rewrite rscpRequestData_sent by assumption.
  destruct (receive_frame_on_wire command payload (uninit_frame w) t fuel
              _ Hc Hp Hn (uninit_bytes_length w 2 26) Hf Hfuel) as [E Ecrc].
  rewrite E. simpl negb. cbv iota. rewrite Ecrc.
  rewrite Z.eqb_refl. simpl negb. cbv iota.
  simpl frame_command. rewrite Z.eqb_refl. simpl negb. cbv iota.
  rewrite copy_reply_spec; try assumption; try lia.
  - simpl. reflexivity.
  - simpl. rewrite length_app, length_drop, uninit_bytes_length. lia.
Qed.

Lemma requestData_copies_reply_witness :
  @rscpRequestData example_host 20 RSCP_CMD_GET_SHUTTER_POSITION
    [0; 0; 0; 0] 3 0
    (wire (@frame_on_wire example_host RSCP_CMD_GET_SHUTTER_POSITION [1; 50])
          (fun i => 200 + Z.of_nat i))
  = Done (RSCP_ERR_OK, [1; 50; 204; 0])
      (advance 7
         (@awaiting example_host RSCP_CMD_GET_SHUTTER_POSITION [0] 8
            (wire (@frame_on_wire example_host RSCP_CMD_GET_SHUTTER_POSITION
                     [1; 50])
                  (fun i => 200 + Z.of_nat i)))).
Proof.
  apply (@requestData_copies_reply example_host 20 0 6 [1; 50] [0; 0; 0; 0] 3
           (wire (@frame_on_wire example_host 6 [1; 50])
                 (fun i => 200 + Z.of_nat i))).
  - unfold is_u8; lia.
  - bytes_ok.
  - simpl; lia.
  - lia.
  - simpl; lia.
  - simpl; lia.
  - simpl; lia.
  - simpl; lia.
  - apply feeds_wire.
  - simpl; lia.
Defined.

(** [rscpRequestData] does not bound [replyLength] by the 26 bytes of
    [frame.data]: with [replyLength > 26] a good reply makes the copy loop
    leave an array.  It reads [frame.data[26]], outside the array, unless
    the caller's buffer is shorter than 26 bytes and the store to
    [reply[i]] leaves that one first. *)
Theorem requestData_overread `{cb : RSCP_Callbacks}
    (fuel t : nat) (command : Z) (payload reply : list Z) (replyLength : Z)
    (w : World) :
  is_u8 command -> Forall is_u8 payload -> (length payload <= 25)%nat ->
  26 < replyLength ->
  Z.of_nat (length reply) < 2 ^ 32 ->
  0 <= rscpSendSlotCallback w (frame_on_wire command [0]) ->
  0 <= rscpRequestSlotCallback (log_sent (frame_on_wire command [0]) w)
         (u32 (1 + 1 + 1 + replyLength + 2)) ->
  feeds (awaiting command [0] (u32 (1 + 1 + 1 + replyLength + 2)) w)
        (frame_on_wire command payload) ->
  (length payload + 5 <= fuel)%nat ->
  rscpRequestData fuel command reply replyLength t w = OutOfBounds.
Proof.
  intros Hc Hp Hn Hrl Hb Hs Hq Hf Hfuel.
  rewrite rscpRequestData_sent by assumption.
  destruct (receive_frame_on_wire command payload (uninit_frame w) t fuel
              _ Hc Hp Hn (uninit_bytes_length w 2 26) Hf Hfuel) as [E Ecrc].
  rewrite E. simpl negb. cbv iota. rewrite Ecrc.
  rewrite Z.eqb_refl. simpl negb. cbv iota.
  simpl frame_command. rewrite Z.eqb_refl. simpl negb. cbv iota.
  rewrite copy_reply_out; try assumption; try lia; try reflexivity.
  left. simpl. rewrite length_app, length_drop, uninit_bytes_length. lia.
Qed.

Lemma requestData_overread_witness :
  @rscpRequestData example_host 20 RSCP_CMD_CPU_QUERY (repeat 0 40) 27 0
    (wire (@frame_on_wire example_host RSCP_CMD_CPU_QUERY [1; 2; 3])
          (fun _ => 0))
  = OutOfBounds.
Proof.
  apply (@requestData_overread example_host 20 0 3 [1; 2; 3] (repeat 0 40) 27
           (wire (@frame_on_wire example_host 3 [1; 2; 3]) (fun _ => 0))).
  - unfold is_u8; lia.
  - bytes_ok.
  - simpl; lia.
  - lia.
  - simpl; lia.
  - simpl; lia.
  - simpl; lia.
  - apply feeds_wire.
  - simpl; lia.
Defined.

(** [rscpSendAction] on a good reply.  When the request (at most 59 data
    bytes) was accepted, the slot granted and the reply frame for the
    same command arrives, the call returns the first byte of [frame.data]
    as its result: the first payload byte of the reply, a value in
    [0..255]; for a reply without payload it is an uninitialised byte of
    the local frame. *)
Theorem sendAction_returns_first_byte `{cb : RSCP_Callbacks}
    (fuel t : nat) (command : Z) (data payload : list Z) (w : World) :
  is_u8 command -> Forall is_u8 payload -> (length payload <= 25)%nat ->
  (length data <= 59)%nat ->
  0 <= rscpSendSlotCallback w (frame_on_wire command data) ->
  0 <= rscpRequestSlotCallback (log_sent (frame_on_wire command data) w) 6 ->
  feeds (awaiting command data 6 w) (frame_on_wire command payload) ->
  (length payload + 5 <= fuel)%nat ->
  rscpSendAction fuel command data t w
  = Done (match payload with
          | v :: _ => v
          | [] => u8 (stack w 2%nat)
          end)
         (advance (length payload + 5) (awaiting command data 6 w)).
Proof.
  intros Hc Hp Hn Hd Hs Hq Hf Hfuel.
  rewrite rscpSendAction_sent by assumption.
  destruct (receive_frame_on_wire command payload (uninit_frame w) t fuel
              _ Hc Hp Hn (uninit_bytes_length w 2 26) Hf Hfuel) as [E Ecrc].
  rewrite E. simpl negb. cbv iota. rewrite Ecrc.
  rewrite Z.eqb_refl. simpl negb. cbv iota.
  simpl frame_command. rewrite Z.eqb_refl. simpl negb. cbv iota.
  destruct payload as [|v payload]; reflexivity.
Qed.

Lemma sendAction_returns_first_byte_witness :
  @rscpSendAction example_host 20 RSCP_CMD_SET_SWITCH_RELAY [2] 0
    (wire (@frame_on_wire example_host RSCP_CMD_SET_SWITCH_RELAY [252])
          (fun _ => 0))
  = Done 252
      (advance 6
         (@awaiting example_host RSCP_CMD_SET_SWITCH_RELAY [2] 6
            (wire (@frame_on_wire example_host RSCP_CMD_SET_SWITCH_RELAY [252])
                  (fun _ => 0)))).
Proof.
  apply (@sendAction_returns_first_byte example_host 20 0 7 [2] [252]
           (wire (@frame_on_wire example_host 7 [252]) (fun _ => 0))).
  - unfold is_u8; lia.
  - bytes_ok.
  - simpl; lia.
  - simpl; lia.
  - simpl; lia.
  - simpl; lia.
  - apply feeds_wire.
  - simpl; lia.
Defined.

(** Failures before the receive.  If the transport refuses the request,
    [rscpSendAction] and [rscpRequestData] return [RSCP_ERR_TX_FAILED]
    without reserving a slot; if the slot is refused they return
    [RSCP_ERR_REQUEST_FAILED]; in both cases the source is not polled and
    the caller's reply buffer is unchanged. *)
Theorem master_fails_before_receive `{cb : RSCP_Callbacks}
    (fuel t : nat) (command : Z) (data reply : list Z) (replyLength : Z)
    (w : World) :
  (length data <= 59)%nat ->
  (rscpSendSlotCallback w (frame_on_wire command data) < 0 ->
     rscpSendAction fuel command data t w
     = Done RSCP_ERR_TX_FAILED (log_sent (frame_on_wire command data) w))
  /\ (0 <= rscpSendSlotCallback w (frame_on_wire command data) ->
      rscpRequestSlotCallback (log_sent (frame_on_wire command data) w) 6 < 0 ->
      rscpSendAction fuel command data t w
      = Done RSCP_ERR_REQUEST_FAILED (awaiting command data 6 w))
  /\ (rscpSendSlotCallback w (frame_on_wire command [0]) < 0 ->
      rscpRequestData fuel command reply replyLength t w
      = Done (RSCP_ERR_TX_FAILED, reply)
             (log_sent (frame_on_wire command [0]) w))
  /\ (0 <= rscpSendSlotCallback w (frame_on_wire command [0]) ->
      rscpRequestSlotCallback (log_sent (frame_on_wire command [0]) w)
        (u32 (1 + 1 + 1 + replyLength + 2)) < 0 ->
      rscpRequestData fuel command reply replyLength t w
      = Done (RSCP_ERR_REQUEST_FAILED, reply)
             (awaiting command [0] (u32 (1 + 1 + 1 + replyLength + 2)) w)).
Proof.
  intros Hn. repeat split.
  - intros Hs. unfold rscpSendAction, bind.
    rewrite rscpSendMsg_spec by assumption.
    destruct (Z.ltb_spec (rscpSendSlotCallback w (frame_on_wire command data)) 0);
      [reflexivity | lia].
  - intros Hs Hq. unfold rscpSendAction, bind.
    rewrite rscpSendMsg_spec by assumption.
    destruct (Z.ltb_spec (rscpSendSlotCallback w (frame_on_wire command data)) 0);
      [lia|].
    change (negb (0 =? 0)) with false. cbv beta iota.
    unfold local_frame, request_slot. cbv beta iota.
    change (u32 (1 + 1 + 1 + 1 + 2)) with 6.
    destruct (Z.ltb_spec
                (rscpRequestSlotCallback
                   (log_sent (frame_on_wire command data) w) 6) 0);
      [reflexivity | lia].
  - intros Hs. unfold rscpRequestData, bind.
    rewrite rscpSendMsg_spec by (simpl; lia).
    destruct (Z.ltb_spec (rscpSendSlotCallback w (frame_on_wire command [0])) 0);
      [reflexivity | lia].
  - intros Hs Hq. unfold rscpRequestData, bind.
    rewrite rscpSendMsg_spec by (simpl; lia).
    destruct (Z.ltb_spec (rscpSendSlotCallback w (frame_on_wire command [0])) 0);
      [lia|].
    change (negb (0 =? 0)) with false. cbv beta iota.
    unfold local_frame, request_slot. cbv beta iota.
    destruct (Z.ltb_spec
                (rscpRequestSlotCallback
                   (log_sent (frame_on_wire command [0]) w)
                   (u32 (1 + 1 + 1 + replyLength + 2))) 0);
      [reflexivity | lia].
Qed.

Lemma master_fails_before_receive_witness :
  @rscpSendAction deaf_host 5 7 [2] 0 (wire [1; 2; 3] (fun _ => 0))
  = Done RSCP_ERR_TX_FAILED
      (log_sent (@frame_on_wire deaf_host 7 [2]) (wire [1; 2; 3] (fun _ => 0))).
Proof.
  apply (proj1 (@master_fails_before_receive deaf_host 5 0 7 [2] [] 0
                  (wire [1; 2; 3] (fun _ => 0)) ltac:(simpl; lia))).
  simpl. lia.
Defined.

(** A corrupted reply.  When the reply frame was received but its CRC
    does not match, [rscpSendAction] and [rscpRequestData] return
    [RSCP_ERR_MALFORMED], whatever the command byte of the reply, and
    [rscpRequestData] leaves the caller's reply buffer as it was. *)
Theorem master_rejects_bad_crc `{cb : RSCP_Callbacks}
    (fuel t : nat) (command : Z) (data : list Z) (n : Z)
    (w : World) (f : RSCP_frame) (w2 : World) :
  (length data <= 59)%nat ->
  0 <= rscpSendSlotCallback w (frame_on_wire command data) ->
  0 <= rscpRequestSlotCallback (log_sent (frame_on_wire command data) w) n ->
  rscpGetMsg fuel (uninit_frame w) t (awaiting command data n w)
  = Done (RSCP_ERR_OK, f) w2 ->
  crc16 (take (Z.to_nat (frame_length f)) (frame_bytes f)) <> frame_crc f ->
  (n = 6 ->
   rscpSendAction fuel command data t w = Done RSCP_ERR_MALFORMED w2)
  /\ (forall (reply : list Z) (replyLength : Z),
        data = [0] -> n = u32 (1 + 1 + 1 + replyLength + 2) ->
        rscpRequestData fuel command reply replyLength t w
        = Done (RSCP_ERR_MALFORMED, reply) w2).
Proof.
  intros Hn Hs Hr E Hcrc.
  pose proof (rscpGetMsg_ok _ _ _ _ _ _ E) as (_ & HL & _).
  apply Z.eqb_neq in Hcrc.
  split.
  - intros ->. rewrite rscpSendAction_sent by assumption.
    rewrite E. simpl negb. cbv iota.
    rewrite frame_crc16_ok by lia. rewrite Hcrc. reflexivity.
  - intros reply replyLength -> ->.
    rewrite rscpRequestData_sent by assumption.
    rewrite E. simpl negb. cbv iota.
    rewrite frame_crc16_ok by lia. rewrite Hcrc. reflexivity.
Qed.

Lemma master_rejects_bad_crc_witness :
  @rscpRequestData example_host 10 RSCP_CMD_GET_SWITCH_RELAY [9; 9] 1 0
    (wire [170; 3; 8; 2; 0; 0] (fun _ => 0))
  = Done (RSCP_ERR_MALFORMED, [9; 9])
      (advance 6
         (@awaiting example_host RSCP_CMD_GET_SWITCH_RELAY [0] 6
            (wire [170; 3; 8; 2; 0; 0] (fun _ => 0)))).
Proof.
  refine (proj2 (@master_rejects_bad_crc example_host 10 0 8 [0] 6
                   (wire [170; 3; 8; 2; 0; 0] (fun _ => 0))
                   (mkFrame 3 8 (2 :: repeat 0 25) 0)
                   _ _ _ _ _ _) [9; 9] 1 _ _).
  - simpl. lia.
  - simpl. lia.
  - simpl. lia.
  - vm_compute. reflexivity.
  - vm_compute. congruence.
  - reflexivity.
  - reflexivity.
Defined.

(** ** The slave *)

(** [rscpGetMsg] has three results. *)
Lemma rscpGetMsg_codes fuel frame t w e f w' :
  rscpGetMsg fuel frame t w = Done (e, f) w' ->
  e = RSCP_ERR_OK \/ e = RSCP_ERR_TIMEOUT \/ e = RSCP_ERR_OVERFLOW.
Proof.
  unfold rscpGetMsg. intros E.
  pose proof (loop_invariant rscpGetMsg_switch (rx_inv frame) (rx_done frame)
                (rx_inv_step frame) fuel t frame 0 0 w) as H.
  assert (H0 : rx_inv frame frame 0 0) by (unfold rx_inv; simpl; intuition lia).
  specialize (H H0). rewrite E in H.
  destruct H as [(H & _)|[(H & _)|(H & _)]]; tauto.
Qed.

(** No answer to a failed receive.  When [rscpGetMsg] fails, which it
    does with [RSCP_ERR_TIMEOUT] or [RSCP_ERR_OVERFLOW] only, [rscpHandle]
    returns that error, gives nothing to the transport and calls no
    device callback. *)
Theorem handle_silent_on_receive_failure `{cb : RSCP_Callbacks}
    (fuel t : nat) (w : World) (e : Z) (f : RSCP_frame) (w1 : World) :
  rscpGetMsg fuel (uninit_frame w) t w = Done (e, f) w1 ->
  e <> RSCP_ERR_OK ->
  rscpHandle fuel t w = Done e w1
  /\ (e = RSCP_ERR_TIMEOUT \/ e = RSCP_ERR_OVERFLOW)
  /\ sent w1 = sent w /\ calls w1 = calls w.
Proof.
  intros E He. split; [|split].
  - unfold rscpHandle, bind, local_frame. rewrite E. cbn [fst snd].
    apply Z.eqb_neq in He. rewrite He. reflexivity.
  - apply rscpGetMsg_codes in E. tauto.
  - apply rscpGetMsg_logs in E. tauto.
Qed.

Lemma handle_silent_on_receive_failure_witness :
  @rscpHandle example_host 10 2 (wire [170; 5; 9] (fun _ => 0))
  = Done RSCP_ERR_TIMEOUT
      (advance 6 (waited 2 (wire [170; 5; 9] (fun _ => 0)))).
Proof.
  apply (@handle_silent_on_receive_failure example_host 10 2
           (wire [170; 5; 9] (fun _ => 0)) RSCP_ERR_TIMEOUT
           (mkFrame 5 9 (repeat 0 26) 0)).
  - vm_compute. reflexivity.
  - lia.
Defined.

Section SlaveMore.
Context `{cb : RSCP_Callbacks}.

Lemma rscpHandle_on_request fuel t w command data :
  is_u8 command -> Forall is_u8 data -> (length data <= 25)%nat ->
  feeds w (frame_on_wire command data) ->
  (length data + 5 <= fuel)%nat ->
  rscpHandle fuel t w
  = rscpHandle_switch
      (mkFrame (2 + Z.of_nat (length data)) command
               (data ++ drop (length data) (uninit_bytes w 2 26))
               (crc16 (2 + Z.of_nat (length data) :: command :: data)))
      (advance (length data + 5) w).
Proof.
  intros Hc Hd Hn Hf Hfuel.
  destruct (receive_frame_on_wire command data (uninit_frame w) t fuel
              w Hc Hd Hn (uninit_bytes_length w 2 26) Hf Hfuel) as [E Ecrc].
  rewrite (rscpHandle_received _ _ _ _ _ E).
  set (f := mkFrame _ _ _ _) in *. clearbody f.
  unfold frame_crc16 in Ecrc.
  destruct (frame_length f <=? 30); [|discriminate].
  injection Ecrc as Ecrc. rewrite Ecrc, Z.eqb_refl. reflexivity.
Qed.

End SlaveMore.

(** A set-style request.  On a well-formed request frame for a set-style
    command with at most 25 data bytes, [rscpHandle] calls the callback
    of the command once, on the leading [sizeof(argument)] bytes of
    [frame.data] (the data received, then uninitialised bytes if the
    request was shorter than the record), and answers with one frame: the
    same command and one data byte, the outcome code of the callback
    reduced to a [uint8_t].  It returns [RSCP_ERR_OK], or
    [RSCP_ERR_TX_FAILED] if the transport refuses the answer. *)
Theorem handle_set_request `{cb : RSCP_Callbacks}
    (fuel t : nat) (w : World) (command : Z) (data : list Z) (n : nat) :
  arg_size command = Some n ->
  Forall is_u8 data -> (length data <= 25)%nat ->
  feeds w (frame_on_wire command data) ->
  (length data + 5 <= fuel)%nat ->
  let arg := take n (data ++ drop (length data) (uninit_bytes w 2 26)) in
  let w1 := advance (length data + 5) w in
  let answer := frame_on_wire command [u8 (set_callback command w1 arg)] in
  rscpHandle fuel t w
  = Done (if rscpSendSlotCallback (log_call command arg w1) answer <? 0
          then RSCP_ERR_TX_FAILED else RSCP_ERR_OK)
         (log_sent answer (log_call command arg w1)).
Proof.
  intros Ha Hd Hn Hf Hfuel arg w1 answer.
  assert (Hc : is_u8 command).
  { unfold is_u8.
    destruct command as [|c|c]; [| do 4 (try destruct c as [c|c|]) |];
      simpl in Ha; try discriminate; lia. }
  rewrite (rscpHandle_on_request fuel t w command data) by assumption.
  subst arg w1 answer.
  unfold rscpHandle_switch. cbn [frame_command frame_data].
  destruct command as [|c|c]; [| do 4 (try destruct c as [c|c|]) |];
    simpl in Ha; try discriminate; injection Ha as <-; cbv beta iota;
    unfold rscpSendFail, bind, device_set; cbn [frame_command frame_data];
    rewrite rscpSendMsg_spec by (simpl; lia); reflexivity.
Qed.

Lemma handle_set_request_witness :
  @rscpHandle example_host 10 0
    (wire (@frame_on_wire example_host RSCP_CMD_SET_SHUTTER_ACTION [1; 2])
          (fun i => 200 + Z.of_nat i))
  = Done RSCP_ERR_OK
      (log_sent (@frame_on_wire example_host RSCP_CMD_SET_SHUTTER_ACTION [0])
         (log_call RSCP_CMD_SET_SHUTTER_ACTION [1; 2; 204]
            (advance 7
               (wire (@frame_on_wire example_host RSCP_CMD_SET_SHUTTER_ACTION
                        [1; 2])
                     (fun i => 200 + Z.of_nat i))))).
Proof.
  apply (@handle_set_request example_host 10 0
           (wire (@frame_on_wire example_host 4 [1; 2])
                 (fun i => 200 + Z.of_nat i))
           4 [1; 2] 3%nat).
  - reflexivity.
  - bytes_ok.
  - simpl. lia.
  - apply feeds_wire.
  - simpl. lia.
Defined.

(** A query.  On a well-formed request frame for a query-style command
    (with any data of at most 25 bytes, which is ignored), [rscpHandle]
    asks the device callback of the command, if it has one, and answers
    with one frame: the same command and the bytes of the reply record
    (for [RSCP_CMD_CPU_QUERY] the constant record with
    [packetMaxLen = 30]).  It returns [RSCP_ERR_OK], or
    [RSCP_ERR_TX_FAILED] if the transport refuses the answer. *)
Theorem handle_query_request `{cb : RSCP_Callbacks}
    (fuel t : nat) (w : World) (command : Z) (data : list Z) :
  is_query command ->
  Forall is_u8 data -> (length data <= 25)%nat ->
  feeds w (frame_on_wire command data) ->
  (length data + 5 <= fuel)%nat ->
  let w1 := advance (length data + 5) w in
  let answer := frame_on_wire command (query_payload command w1) in
  rscpHandle fuel t w
  = Done (if rscpSendSlotCallback (queried command w1) answer <? 0
          then RSCP_ERR_TX_FAILED else RSCP_ERR_OK)
         (log_sent answer (queried command w1)).
Proof.
  intros Hq Hd Hn Hf Hfuel w1 answer.
  assert (Hc : is_u8 command) by (unfold is_u8, is_query in *; lia).
  rewrite (rscpHandle_on_request fuel t w command data) by assumption.
  subst w1 answer.
  unfold rscpHandle_switch. cbn [frame_command frame_data].
  destruct Hq as [->|[->|[->| ->]]]; cbv beta iota;
    unfold rscpGetCPUQuery, rscpGetShutterPosition, rscpGetSwitchRelay,
           rscpGetSwitchButton, bind, device_get;
    rewrite rscpSendMsg_spec by (simpl; lia); reflexivity.
Qed.

Lemma handle_query_request_witness :
  @rscpHandle example_host 10 0
    (wire (@frame_on_wire example_host RSCP_CMD_CPU_QUERY [0]) (fun _ => 0))
  = Done RSCP_ERR_OK
      (log_sent (@frame_on_wire example_host RSCP_CMD_CPU_QUERY
                   [0; 0; 1; 1; 1; 1; 30; 0])
         (advance 6
            (wire (@frame_on_wire example_host RSCP_CMD_CPU_QUERY [0])
                  (fun _ => 0)))).
Proof.
  apply (@handle_query_request example_host 10 0
           (wire (@frame_on_wire example_host 3 [0]) (fun _ => 0)) 3 [0]).
  - left. reflexivity.
  - bytes_ok.
  - simpl. lia.
  - apply feeds_wire.
  - simpl. lia.
Defined.

(** ** Master and slave together *)

Lemma query_payload_bytes `{cb : RSCP_Callbacks} (c : Z) (w : World) :
  is_query c ->
  Forall is_u8 (query_payload c w) /\ (length (query_payload c w) <= 8)%nat.
Proof.
  intros [->|[->|[->| ->]]]; simpl; split; try lia;
    unfold cpuquery_bytes, bytes_of_rollershutterposition,
           bytes_of_switchrelay, bytes_of_switchbutton;
    repeat (constructor; [first [apply u8_range | unfold is_u8; lia]|]);
    constructor.
Qed.

(** A set-style transaction, end to end.  The master calls
    [rscpSendAction] for a set-style command with at most 25 data bytes;
    the slave's source delivers the frame the master sent, the master's
    source delivers the frame the slave answered.  Then the slave has
    called the device callback on the argument bytes and the master's
    call returns the outcome code of that callback reduced to a
    [uint8_t]: 0 for [RSCP_ERR_OK], and a negative code [-k] as
    [256 - k]. *)
Theorem set_transaction `{cb : RSCP_Callbacks}
    (fs fm ts tm : nat) (ws wm : World) (command : Z) (data : list Z)
    (n : nat) :
  arg_size command = Some n ->
  Forall is_u8 data -> (length data <= 25)%nat ->
  0 <= rscpSendSlotCallback wm (frame_on_wire command data) ->
  0 <= rscpRequestSlotCallback (log_sent (frame_on_wire command data) wm) 6 ->
  feeds ws (frame_on_wire command data) ->
  (length data + 5 <= fs)%nat -> (6 <= fm)%nat ->
  let arg := take n (data ++ drop (length data) (uninit_bytes ws 2 26)) in
  let ws1 := advance (length data + 5) ws in
  let outcome := set_callback command ws1 arg in
  let answer := frame_on_wire command [u8 outcome] in
  feeds (awaiting command data 6 wm) answer ->
  (exists e,
     rscpHandle fs ts ws = Done e (log_sent answer (log_call command arg ws1)))
  /\ rscpSendAction fm command data tm wm
     = Done (u8 outcome) (advance 6 (awaiting command data 6 wm)).
Proof.
  intros Ha Hd Hn Hs Hq Hf Hfs Hfm arg ws1 outcome answer Hfa.
  assert (Hc : is_u8 command).
  { unfold is_u8.
    destruct command as [|c|c]; [| do 4 (try destruct c as [c|c|]) |];
      simpl in Ha; try discriminate; lia. }
  split.
  - rewrite (rscpHandle_on_request fs ts ws command data) by assumption.
    subst answer outcome arg ws1.
    unfold rscpHandle_switch. cbn [frame_command frame_data].
    destruct command as [|c|c]; [| do 4 (try destruct c as [c|c|]) |];
      simpl in Ha; try discriminate; injection Ha as <-; cbv beta iota;
      unfold rscpSendFail, bind, device_set; cbn [frame_command frame_data];
      rewrite rscpSendMsg_spec by (simpl; lia); eexists; reflexivity.
  - rewrite rscpSendAction_sent by (assumption || lia).
    destruct (receive_frame_on_wire command [u8 outcome] (uninit_frame wm)
                tm fm (awaiting command data 6 wm) Hc)
      as [E Ecrc];
      [ constructor; [apply u8_range | constructor] | simpl; lia
      | apply uninit_bytes_length | exact Hfa | simpl; lia |].
    rewrite E. simpl negb. cbv iota. rewrite Ecrc.
    rewrite Z.eqb_refl. simpl negb. cbv iota.
    simpl frame_command. rewrite Z.eqb_refl. reflexivity.
Qed.

Lemma set_transaction_witness :
  @rscpSendAction refusing_host 6 RSCP_CMD_SET_SWITCH_RELAY [2] 0
    (wire (@frame_on_wire refusing_host RSCP_CMD_SET_SWITCH_RELAY [249])
          (fun _ => 0))
  = Done 249
      (advance 6
         (@awaiting refusing_host RSCP_CMD_SET_SWITCH_RELAY [2] 6
            (wire (@frame_on_wire refusing_host RSCP_CMD_SET_SWITCH_RELAY [249])
                  (fun _ => 0)))).
Proof.
  apply (proj2 (@set_transaction refusing_host 6 6 0 0
                  (wire (@frame_on_wire refusing_host 7 [2]) (fun _ => 0))
                  (wire (@frame_on_wire refusing_host 7 [249]) (fun _ => 0))
                  7 [2] 1%nat
                  ltac:(reflexivity) ltac:(bytes_ok) ltac:(simpl; lia)
                  ltac:(simpl; lia) ltac:(simpl; lia)
                  ltac:(apply feeds_wire) ltac:(simpl; lia) ltac:(lia)
                  ltac:(apply feeds_wire))).
Defined.

(** A query transaction, end to end.  The master calls [rscpRequestData]
    for a query-style command with [replyLength] the size of the reply
    record and a buffer of that size; the slave's source delivers the
    frame the master sent, the master's source delivers the frame the
    slave answered.  Then the master's call returns [RSCP_ERR_OK] and the
    buffer holds exactly the bytes of the record the slave's device
    supplied (for [RSCP_CMD_CPU_QUERY]: 0, 0, 1, 1, 1, 1, 30, 0). *)
Theorem query_transaction `{cb : RSCP_Callbacks}
    (fs fm ts tm : nat) (ws wm : World) (command : Z) (reply : list Z) :
  is_query command ->
  let ws1 := advance 6 ws in
  let payload := query_payload command ws1 in
  let size := Z.of_nat (length payload) in
  let answer := frame_on_wire command payload in
  length reply = length payload ->
  0 <= rscpSendSlotCallback wm (frame_on_wire command [0]) ->
  0 <= rscpRequestSlotCallback (log_sent (frame_on_wire command [0]) wm)
         (u32 (1 + 1 + 1 + size + 2)) ->
  feeds ws (frame_on_wire command [0]) ->
  feeds (awaiting command [0] (u32 (1 + 1 + 1 + size + 2)) wm) answer ->
  (6 <= fs)%nat -> (13 <= fm)%nat ->
  (exists e,
     rscpHandle fs ts ws = Done e (log_sent answer (queried command ws1)))
  /\ rscpRequestData fm command reply size tm wm
     = Done (RSCP_ERR_OK, payload)
            (advance (length payload + 5)
               (awaiting command [0] (u32 (1 + 1 + 1 + size + 2)) wm)).
Proof.
  intros Hq ws1 payload size answer Hr Hs Hslot Hf Hfa Hfs Hfm.
  assert (Hc : is_u8 command) by (unfold is_u8, is_query in *; lia).
  destruct (query_payload_bytes command ws1 Hq) as [Hp Hl].
  fold payload in Hp, Hl.
  split.
  - rewrite (rscpHandle_on_request fs ts ws command [0]);
      [| assumption | bytes_ok | simpl; lia | assumption | simpl; lia].
    subst answer payload ws1.
    unfold rscpHandle_switch. cbn [frame_command frame_data].
    destruct Hq as [->|[->|[->| ->]]]; cbv beta iota;
      unfold rscpGetCPUQuery, rscpGetShutterPosition, rscpGetSwitchRelay,
             rscpGetSwitchButton, bind, device_get;
      rewrite rscpSendMsg_spec by (simpl; lia); eexists; reflexivity.
  - rewrite rscpRequestData_sent by assumption.
    destruct (receive_frame_on_wire command payload (uninit_frame wm)
                tm fm (awaiting command [0] (u32 (1 + 1 + 1 + size + 2)) wm)
                Hc Hp)
      as [E Ecrc];
      [ lia | apply uninit_bytes_length | exact Hfa | lia |].
    rewrite E. simpl negb. cbv iota. rewrite Ecrc.
    rewrite Z.eqb_refl. simpl negb. cbv iota.
    simpl frame_command. rewrite Z.eqb_refl. simpl negb. cbv iota.
    rewrite copy_reply_spec;
      [| lia
       | simpl; rewrite length_app, length_drop, uninit_bytes_length; lia
       | simpl; lia | lia].
    simpl frame_data. unfold size. rewrite Nat2Z.id.
    change (Z.to_nat 0) with 0%nat. rewrite take_0, drop_0, Nat.add_0_l.
    rewrite take_app_length.
    rewrite drop_ge by lia. rewrite app_nil_r. reflexivity.
Qed.

Lemma query_transaction_witness :
  @rscpRequestData example_host 13 RSCP_CMD_CPU_QUERY (repeat 9 8) 8 0
    (wire (@frame_on_wire example_host RSCP_CMD_CPU_QUERY
             [0; 0; 1; 1; 1; 1; 30; 0])
          (fun _ => 0))
  = Done (RSCP_ERR_OK, [0; 0; 1; 1; 1; 1; 30; 0])
      (advance 13
         (@awaiting example_host RSCP_CMD_CPU_QUERY [0] 13
            (wire (@frame_on_wire example_host RSCP_CMD_CPU_QUERY
                     [0; 0; 1; 1; 1; 1; 30; 0])
                  (fun _ => 0)))).
Proof.
  apply (proj2 (@query_transaction example_host 6 13 0 0
                  (wire (@frame_on_wire example_host 3 [0]) (fun _ => 0))
                  (wire (@frame_on_wire example_host 3 [0; 0; 1; 1; 1; 1; 30; 0])
                        (fun _ => 0))
                  3 (repeat 9 8)
                  ltac:(left; reflexivity) ltac:(reflexivity)
                  ltac:(simpl; lia) ltac:(simpl; lia)
                  ltac:(apply feeds_wire) ltac:(apply feeds_wire)
                  ltac:(lia) ltac:(lia))).
Defined.

(** ** The earlier draft *)

Lemma u8_land x : u8 x = Z.land x 255.
Proof. unfold u8. change 255 with (Z.ones 8). rewrite Z.land_ones by lia. reflexivity. Qed.

Lemma drafts_agree_loop_rx fuel t frame f e w w' :
  rscpGetMsg fuel frame t w = Done (e, f) w' ->
  2 < frame_length f ->
  Draft.rscpGetMsg fuel frame t w = Done (e, f) w'.
Proof.
  unfold rscpGetMsg, Draft.rscpGetMsg. apply draft_agrees_loop. lia.
Qed.

Section DraftMore.
Context `{cb : RSCP_Callbacks}.

Lemma load_ok (buf : list Z) i v w :
  buf !! Z.to_nat i = Some v -> 0 <= i -> load buf i w = Done v w.
Proof.
  intros H Hi. unfold load. rewrite H.
  destruct (Z.leb_spec 0 i); [reflexivity | lia].
Qed.

Ltac tx_buffer :=
  unfold bind, local_array;
  match goal with
  | |- context [uninit_bytes ?w 0 (Z.to_nat 64)] =>
      let Hbuf := fresh "Hbuf" in
      let buf := fresh "buf" in
      pose proof (uninit_bytes_length w 0 (Z.to_nat 64)) as Hbuf;
      set (buf := uninit_bytes w 0 (Z.to_nat 64)) in *; clearbody buf;
      change (Z.to_nat 64) with 64%nat in Hbuf;
      do 14 (destruct buf as [|? buf]; [simpl in Hbuf; lia|])
  end.

Ltac tx_index :=
  repeat match goal with
         | |- context [u32 ?x] =>
             let y := eval vm_compute in (u32 x) in change (u32 x) with y
         end.

Ltac tx_store :=
  rewrite store_ok by (simpl length; lia); simpl insert.

Lemma rscpSendAnswer_spec command errorCode w :
  DraftRoles.rscpSendAnswer command errorCode w
  = Done (if rscpSendSlotCallback w (frame_on_wire command [u8 errorCode]) <? 0
          then RSCP_ERR_TX_FAILED else RSCP_ERR_OK)
         (log_sent (frame_on_wire command [u8 errorCode]) w).
Proof.
  unfold DraftRoles.rscpSendAnswer. tx_buffer. tx_index.
  do 4 tx_store.
  erewrite load_ok by (first [reflexivity | lia]).
  change (Z.to_nat 3) with 3%nat. cbn [take drop firstn skipn].
  do 2 tx_store.
  change (Z.to_nat 6) with 6%nat. cbn [take firstn].
  unfold send_slot, ret. rewrite (u8_land (Z.shiftr _ 8)).
  reflexivity.
Qed.

Lemma rscpHandleCPUQuery_spec w :
  DraftRoles.rscpHandleCPUQuery w
  = Done (if rscpSendSlotCallback w (frame_on_wire 3 cpuquery_bytes) <? 0
          then RSCP_ERR_TX_FAILED else RSCP_ERR_OK)
         (log_sent (frame_on_wire 3 cpuquery_bytes) w).
Proof.
  unfold DraftRoles.rscpHandleCPUQuery. tx_buffer. tx_index.
  do 3 tx_store.
  rewrite memcpy_ok by (simpl length; lia).
  change (bytes_of_cpuquery _) with cpuquery_bytes. unfold cpuquery_bytes.
  cbn [take drop firstn skipn Z.to_nat Pos.to_nat Pos.iter_op Nat.add length app].
  erewrite load_ok by (first [reflexivity | lia]).
  change (u8 (2 + 8)) with 10.
  change (Z.to_nat 10) with 10%nat. cbn [take drop firstn skipn].
  do 2 tx_store.
  change (Z.to_nat 13) with 13%nat. cbn [take firstn].
  unfold send_slot, ret. rewrite (u8_land (Z.shiftr _ 8)).
  reflexivity.
Qed.

Lemma draft_rscpGetShutterPosition_spec w :
  DraftRoles.rscpGetShutterPosition w
  = Done (if rscpSendSlotCallback (log_call 6 [] w)
               (frame_on_wire 6 (query_payload 6 w)) <? 0
          then RSCP_ERR_TX_FAILED else RSCP_ERR_OK)
         (log_sent (frame_on_wire 6 (query_payload 6 w)) (log_call 6 [] w)).
Proof.
  unfold DraftRoles.rscpGetShutterPosition. tx_buffer. tx_index.
  unfold device_get. cbv beta iota.
  do 3 tx_store.
  rewrite memcpy_ok by (simpl length; lia).
  unfold query_payload, bytes_of_rollershutterposition.
  cbn [take drop firstn skipn Z.to_nat Pos.to_nat Pos.iter_op Nat.add length app].
  erewrite load_ok by (first [reflexivity | lia]).
  change (u8 (2 + 2)) with 4.
  change (Z.to_nat 4) with 4%nat. cbn [take drop firstn skipn].
  do 2 tx_store.
  change (Z.to_nat 7) with 7%nat. cbn [take firstn].
  unfold send_slot, ret. rewrite (u8_land (Z.shiftr _ 8)).
  reflexivity.
Qed.

Lemma draft_rscpGetSwitchRelay_spec w :
  DraftRoles.rscpGetSwitchRelay w
  = Done (if rscpSendSlotCallback (log_call 8 [] w)
               (frame_on_wire 8 (query_payload 8 w)) <? 0
          then RSCP_ERR_TX_FAILED else RSCP_ERR_OK)
         (log_sent (frame_on_wire 8 (query_payload 8 w)) (log_call 8 [] w)).
Proof.
  unfold DraftRoles.rscpGetSwitchRelay. tx_buffer. tx_index.
  unfold device_get. cbv beta iota.
  do 3 tx_store.
  rewrite memcpy_ok by (simpl length; lia).
  unfold query_payload, bytes_of_switchrelay.
  cbn [take drop firstn skipn Z.to_nat Pos.to_nat Pos.iter_op Nat.add length app].
  erewrite load_ok by (first [reflexivity | lia]).
  change (u8 (1 + 2)) with 3.
  change (Z.to_nat 3) with 3%nat. cbn [take drop firstn skipn].
  do 2 tx_store.
  change (Z.to_nat 6) with 6%nat. cbn [take firstn].
  unfold send_slot, ret. rewrite (u8_land (Z.shiftr _ 8)).
  reflexivity.
Qed.

Lemma draft_switch_same f w :
  frame_command f <> RSCP_CMD_GET_SWITCH_BUTTON ->
  DraftRoles.rscpHandle_switch f w = rscpHandle_switch f w.
Proof.
  intros Hc. unfold DraftRoles.rscpHandle_switch, rscpHandle_switch.
  destruct (frame_command f) as [|c|c]; [| do 4 (try destruct c as [c|c|]) |];
    try congruence;
    unfold rscpGetCPUQuery, rscpGetShutterPosition, rscpGetSwitchRelay,
           rscpSendFail, bind, device_get, device_set;
    rewrite ?rscpSendAnswer_spec, ?rscpHandleCPUQuery_spec,
            ?draft_rscpGetShutterPosition_spec, ?draft_rscpGetSwitchRelay_spec;
    rewrite rscpSendMsg_spec by (simpl; lia); reflexivity.
Qed.

Lemma draft_switch_button f w :
  frame_command f = RSCP_CMD_GET_SWITCH_BUTTON ->
  DraftRoles.rscpHandle_switch f w
  = Done (if rscpSendSlotCallback w (frame_on_wire 10 [252]) <? 0
          then RSCP_ERR_TX_FAILED else RSCP_ERR_OK)
         (log_sent (frame_on_wire 10 [252]) w).
Proof.
  intros Hc. unfold DraftRoles.rscpHandle_switch. rewrite Hc. cbv beta iota.
  rewrite rscpSendAnswer_spec. reflexivity.
Qed.

End DraftMore.

(** The reply functions of the earlier draft send what their successors
    in [rscpProtocol.c] send.  [rscpSendAnswer], [rscpHandleCPUQuery] and
    the draft's [rscpGetShutterPosition] and [rscpGetSwitchRelay], which
    fill [txBuffer] by hand, take the CRC length from [txBuffer[1]] and
    store [crc >> 8] unmasked, have in every world the same result and
    give the same bytes to the transport as [rscpSendFail],
    [rscpGetCPUQuery], [rscpGetShutterPosition] and [rscpGetSwitchRelay]
    built on [rscpSendMsg]. *)
Theorem draft_replies_same `{cb : RSCP_Callbacks}
    (command errorCode : Z) (w : World) :
  DraftRoles.rscpSendAnswer command errorCode w
  = rscpSendFail command errorCode w
  /\ DraftRoles.rscpHandleCPUQuery w = rscpGetCPUQuery w
  /\ DraftRoles.rscpGetShutterPosition w = rscpGetShutterPosition w
  /\ DraftRoles.rscpGetSwitchRelay w = rscpGetSwitchRelay w.
Proof.
  repeat split.
  - rewrite rscpSendAnswer_spec. unfold rscpSendFail.
    rewrite rscpSendMsg_spec by (simpl; lia). reflexivity.
  - rewrite rscpHandleCPUQuery_spec. unfold rscpGetCPUQuery.
    rewrite rscpSendMsg_spec by (simpl; lia). reflexivity.
  - rewrite draft_rscpGetShutterPosition_spec.
    unfold rscpGetShutterPosition, bind, device_get.
    rewrite rscpSendMsg_spec by (simpl; lia). reflexivity.
  - rewrite draft_rscpGetSwitchRelay_spec.
    unfold rscpGetSwitchRelay, bind, device_get.
    rewrite rscpSendMsg_spec by (simpl; lia). reflexivity.
Qed.

(** The slave of the earlier draft against the slave of
    [rscpProtocol.c].  On every frame that the receiver of
    [rscpProtocol.c] returns with a length field above 2 and a command
    other than [RSCP_CMD_GET_SWITCH_BUTTON], the two [rscpHandle] do the
    same: same result, same device call, same answer.  For
    [RSCP_CMD_GET_SWITCH_BUTTON] with a valid CRC the draft does not ask
    the device: it answers with the one byte of [RSCP_ERR_NOT_SUPPORTED]
    (252). *)
Theorem draft_handle_agrees `{cb : RSCP_Callbacks}
    (fuel t : nat) (w : World) (e : Z) (f : RSCP_frame) (w1 : World) :
  rscpGetMsg fuel (uninit_frame w) t w = Done (e, f) w1 ->
  2 < frame_length f ->
  (frame_command f <> RSCP_CMD_GET_SWITCH_BUTTON ->
   DraftRoles.rscpHandle fuel t w = rscpHandle fuel t w)
  /\ (frame_command f = RSCP_CMD_GET_SWITCH_BUTTON -> e = RSCP_ERR_OK ->
      crc16 (take (Z.to_nat (frame_length f)) (frame_bytes f)) = frame_crc f ->
      DraftRoles.rscpHandle fuel t w
      = Done (if rscpSendSlotCallback w1 (frame_on_wire 10 [252]) <? 0
              then RSCP_ERR_TX_FAILED else RSCP_ERR_OK)
             (log_sent (frame_on_wire 10 [252]) w1)).
Proof.
  intros E HL.
  pose proof (drafts_agree_loop_rx fuel t (uninit_frame w) f e w w1 E HL) as Ed.
  split.
  - intros Hc. unfold DraftRoles.rscpHandle, rscpHandle, bind, local_frame.
    rewrite E, Ed. cbn [fst snd].
    destruct (negb (e =? 0)); [reflexivity|].
    destruct (frame_crc16 f w1) as [c w2| |]; try reflexivity.
    destruct (negb (c =? frame_crc f)); [reflexivity|].
    apply draft_switch_same. exact Hc.
  - intros Hc -> Hcrc.
    unfold DraftRoles.rscpHandle, bind, local_frame. rewrite Ed.
    cbn [fst snd]. change (negb (0 =? 0)) with false. cbv beta iota.
    apply rscpGetMsg_ok in E. destruct E as (_ & Hlen & _).
    rewrite frame_crc16_ok by lia.
    apply Z.eqb_eq in Hcrc. rewrite Hcrc. simpl negb. cbv beta iota.
    apply draft_switch_button. exact Hc.
Qed.

Lemma draft_handle_agrees_witness :
  @DraftRoles.rscpHandle example_host 10 0
    (wire (@frame_on_wire example_host RSCP_CMD_GET_SWITCH_BUTTON [0])
          (fun _ => 0))
  = Done RSCP_ERR_OK
      (log_sent (@frame_on_wire example_host RSCP_CMD_GET_SWITCH_BUTTON [252])
         (advance 6
            (wire (@frame_on_wire example_host RSCP_CMD_GET_SWITCH_BUTTON [0])
                  (fun _ => 0)))).
Proof.
  refine (proj2 (@draft_handle_agrees example_host 10 0
                   (wire (@frame_on_wire example_host 10 [0]) (fun _ => 0))
                   RSCP_ERR_OK
                   (mkFrame 3 10 (repeat 0 26) (crc16_modbus [3; 10; 0]))
                   (advance 6 (wire (@frame_on_wire example_host 10 [0])
                                    (fun _ => 0)))
                   _ _) _ _ _).
  - vm_compute. reflexivity.
  - simpl. lia.
  - reflexivity.
  - reflexivity.
  - vm_compute. reflexivity.
Defined.

Section DraftMasters.
Context `{cb : RSCP_Callbacks}.

Ltac tx_buffer :=
  unfold bind, local_array;
  match goal with
  | |- context [uninit_bytes ?w 0 (Z.to_nat 64)] =>
      let Hbuf := fresh "Hbuf" in
      let buf := fresh "buf" in
      pose proof (uninit_bytes_length w 0 (Z.to_nat 64)) as Hbuf;
      set (buf := uninit_bytes w 0 (Z.to_nat 64)) in *; clearbody buf;
      change (Z.to_nat 64) with 64%nat in Hbuf;
      do 14 (destruct buf as [|? buf]; [simpl in Hbuf; lia|])
  end.

Ltac tx_index :=
  repeat match goal with
         | |- context [u32 ?x] =>
             let y := eval vm_compute in (u32 x) in change (u32 x) with y
         end.

Ltac tx_store :=
  rewrite store_ok by (simpl length; lia); simpl insert.

Lemma bytes_of_buzzer_action_length a :
  length (bytes_of_buzzer_action a) = 9%nat.
Proof. reflexivity. Qed.

Lemma rscpRequestCPUQuery_same fuel reply t w e f w2 :
  rscpGetMsg fuel (uninit_frame w) t (awaiting 3 [0] 13 w) = Done (e, f) w2 ->
  2 < frame_length f ->
  DraftRoles.rscpRequestCPUQuery fuel reply t w
  = rscpRequestData fuel 3 reply 8 t w.
Proof.
  intros E HL.
  pose proof (drafts_agree_loop_rx _ _ _ _ _ _ _ E HL) as Ed.
  unfold rscpRequestData, bind at 1. rewrite rscpSendMsg_spec by (simpl; lia).
  unfold DraftRoles.rscpRequestCPUQuery. tx_buffer.
  change (u32 (1 + 1 + 1 + 8 + 2)) with 13.
  tx_index.
  do 4 tx_store.
  change (Z.to_nat (4 - 1)) with 3%nat. cbn [take drop firstn skipn].
  do 2 tx_store.
  change (Z.to_nat 6) with 6%nat. cbn [take firstn].
  unfold send_slot.
  change [170; 3; 3; 0; Z.land (Z.shiftr (crc16 [3; 3; 0]) 8) 255;
          Z.land (crc16 [3; 3; 0]) 255]
    with (frame_on_wire 3 [0]).
  destruct (rscpSendSlotCallback w (frame_on_wire 3 [0]) <? 0); [reflexivity|].
  change (negb (0 =? 0)) with false. cbv beta iota.
  unfold local_frame, request_slot, bind. cbv beta iota.
  destruct (rscpRequestSlotCallback (log_sent (frame_on_wire 3 [0]) w) 13 <? 0);
    [reflexivity|].
  unfold awaiting in E, Ed.
  change (uninit_frame (log_sent (frame_on_wire 3 [0]) w)) with (uninit_frame w).
  rewrite E, Ed. reflexivity.
Qed.

Lemma rscpRequestSwitchRelay_same fuel reply t w e f w2 :
  rscpGetMsg fuel (uninit_frame w) t (awaiting 8 [0] 6 w) = Done (e, f) w2 ->
  2 < frame_length f ->
  DraftRoles.rscpRequestSwitchRelay fuel reply t w
  = rscpRequestData fuel 8 reply 1 t w.
Proof.
  intros E HL.
  pose proof (drafts_agree_loop_rx _ _ _ _ _ _ _ E HL) as Ed.
  unfold rscpRequestData, bind at 1. rewrite rscpSendMsg_spec by (simpl; lia).
  unfold DraftRoles.rscpRequestSwitchRelay. tx_buffer.
  change (u32 (1 + 1 + 1 + 1 + 2)) with 6.
  tx_index.
  do 4 tx_store.
  change (Z.to_nat (4 - 1)) with 3%nat. cbn [take drop firstn skipn].
  do 2 tx_store.
  change (Z.to_nat 6) with 6%nat. cbn [take firstn].
  unfold send_slot.
  change [170; 3; 8; 0; Z.land (Z.shiftr (crc16 [3; 8; 0]) 8) 255;
          Z.land (crc16 [3; 8; 0]) 255]
    with (frame_on_wire 8 [0]).
  destruct (rscpSendSlotCallback w (frame_on_wire 8 [0]) <? 0); [reflexivity|].
  change (negb (0 =? 0)) with false. cbv beta iota.
  unfold local_frame, request_slot, bind. cbv beta iota.
  destruct (rscpRequestSlotCallback (log_sent (frame_on_wire 8 [0]) w) 6 <? 0);
    [reflexivity|].
  unfold awaiting in E, Ed.
  change (uninit_frame (log_sent (frame_on_wire 8 [0]) w)) with (uninit_frame w).
  rewrite E, Ed. reflexivity.
Qed.

Lemma rscpSendBuzzerAction_same fuel arg t w e f w2 :
  rscpGetMsg fuel (uninit_frame w) t
    (awaiting 9 (bytes_of_buzzer_action arg) 6 w) = Done (e, f) w2 ->
  2 < frame_length f ->
  DraftRoles.rscpSendBuzzerAction fuel arg t w
  = rscpSendAction fuel 9 (bytes_of_buzzer_action arg) t w.
Proof.
  intros E HL.
  pose proof (drafts_agree_loop_rx _ _ _ _ _ _ _ E HL) as Ed.
  pose proof (bytes_of_buzzer_action_length arg) as Hl.
  unfold rscpSendAction, DraftRoles.rscpSendBuzzerAction.
  set (l := bytes_of_buzzer_action arg) in *. clearbody l.
  do 9 (destruct l as [|? l]; [discriminate|]).
  destruct l; [clear Hl|discriminate].
  unfold bind. rewrite rscpSendMsg_spec by (simpl; lia).
  tx_buffer.
  change (u32 (1 + 1 + 1 + 1 + 2)) with 6.
  tx_index.
  do 3 tx_store.
  rewrite memcpy_ok by (simpl length; lia).
  change (Z.to_nat 3) with 3%nat.
  cbn [take drop firstn skipn Nat.add length app].
  do 2 tx_store.
  change (Z.to_nat (12 - 1)) with 11%nat. cbn [take drop firstn skipn].
  change (Z.to_nat 14) with 14%nat. cbn [take firstn].
  unfold send_slot. unfold awaiting in E, Ed.
  set (F := frame_on_wire 9 [z; z0; z1; z2; z3; z4; z5; z6; z7]) in *.
  repeat match goal with
         | |- context [log_sent ?s w] =>
             lazymatch s with
             | F => fail
             | _ => change s with F
             end
         end.
  destruct (rscpSendSlotCallback w F <? 0); [reflexivity|].
  change (negb (0 =? 0)) with false. cbv beta iota.
  unfold local_frame, request_slot, bind. cbv beta iota.
  destruct (rscpRequestSlotCallback (log_sent F w) 6 <? 0); [reflexivity|].
  change (uninit_frame (log_sent F w)) with (uninit_frame w).
  rewrite E, Ed. reflexivity.
Qed.

End DraftMasters.

(** The master of the earlier draft against the master of
    [rscpProtocol.c].  Whenever the reply that the receiver of
    [rscpProtocol.c] finds has a length field above 2,
    [rscpRequestCPUQuery], [rscpRequestSwitchRelay] and
    [rscpSendBuzzerAction] run as [rscpRequestData] (for
    [RSCP_CMD_CPU_QUERY] with 8 bytes, for [RSCP_CMD_GET_SWITCH_RELAY]
    with 1 byte) and [rscpSendAction] (for [RSCP_CMD_SET_BUZZER_ACTION]
    with the 9 bytes of the argument record) do: the same request frame,
    the same slot, the same result. *)
Theorem draft_masters_agree `{cb : RSCP_Callbacks}
    (fuel t : nat) (w : World) (command : Z) (data : list Z) (n : Z)
    (e : Z) (f : RSCP_frame) (w2 : World) :
  rscpGetMsg fuel (uninit_frame w) t (awaiting command data n w)
  = Done (e, f) w2 ->
  2 < frame_length f ->
  (command = RSCP_CMD_CPU_QUERY -> data = [0] -> n = 13 ->
   forall reply,
     DraftRoles.rscpRequestCPUQuery fuel reply t w
     = rscpRequestData fuel RSCP_CMD_CPU_QUERY reply 8 t w)
  /\ (command = RSCP_CMD_GET_SWITCH_RELAY -> data = [0] -> n = 6 ->
      forall reply,
        DraftRoles.rscpRequestSwitchRelay fuel reply t w
        = rscpRequestData fuel RSCP_CMD_GET_SWITCH_RELAY reply 1 t w)
  /\ (forall arg,
        command = RSCP_CMD_SET_BUZZER_ACTION ->
        data = bytes_of_buzzer_action arg -> n = 6 ->
        DraftRoles.rscpSendBuzzerAction fuel arg t w
        = rscpSendAction fuel RSCP_CMD_SET_BUZZER_ACTION data t w).
Proof.
  intros E HL. repeat split.
  - intros -> -> -> reply. eapply rscpRequestCPUQuery_same; eassumption.
  - intros -> -> -> reply. eapply rscpRequestSwitchRelay_same; eassumption.
  - intros arg -> -> ->. eapply rscpSendBuzzerAction_same; eassumption.
Qed.

Lemma draft_masters_agree_witness :
  @DraftRoles.rscpRequestCPUQuery example_host 13 (repeat 9 8) 0
    (wire (@frame_on_wire example_host RSCP_CMD_CPU_QUERY
             [0; 0; 1; 1; 1; 1; 30; 0])
          (fun _ => 0))
  = @rscpRequestData example_host 13 RSCP_CMD_CPU_QUERY (repeat 9 8) 8 0
      (wire (@frame_on_wire example_host RSCP_CMD_CPU_QUERY
               [0; 0; 1; 1; 1; 1; 30; 0])
            (fun _ => 0)).
Proof.
  refine (proj1 (@draft_masters_agree example_host 13 0
                   (wire (@frame_on_wire example_host 3 [0; 0; 1; 1; 1; 1; 30; 0])
                         (fun _ => 0))
                   3 [0] 13 RSCP_ERR_OK
                   (mkFrame 10 3 ([0; 0; 1; 1; 1; 1; 30; 0] ++ repeat 0 18)
                            (crc16_modbus [10; 3; 0; 0; 1; 1; 1; 1; 30; 0]))
                   _ _ _) _ _ _ (repeat 9 8)).
  - vm_compute. reflexivity.
  - simpl. lia.
  - reflexivity.
  - reflexivity.
  - reflexivity.
Defined.

(** ** The receiver of the earlier draft *)

Lemma draft_rx_inv_step frame0 f i s b :
  draft_rx_inv frame0 f i s -> i < sizeof_frame_data -> is_u8 b ->
  match Draft.rscpGetMsg_switch f i s b with
  | Next f' i' s' => draft_rx_inv frame0 f' i' s'
  | Return e f' => draft_rx_done frame0 e f'
  | Fault => False
  end.
Proof.
  unfold draft_rx_inv, draft_rx_done, is_u8.
  intros (H0 & Hd & Hl & [(-> & ->)|[(-> & -> & Hb)|[(-> & Hb & Hi)|([-> | ->] & Hb & Hi)]]]) Hlt Hbyte;
    simpl.
  - destruct (negb (b =? 170)); simpl; intuition lia.
  - intuition lia.
  - unfold data_write.
    destruct (Z.leb_spec 0 i); try lia. destruct (Z.ltb_spec i 26); try lia.
    simpl. rewrite (u32_small (i + 1)) by lia.
    pose proof (drop_write _ _ i b H0 Hd) as Hd'.
    destruct (Z_lt_le_dec (frame_length f) 2) as [Hsmall|Hbig].
    + assert (Hw : u32 (frame_length f - 2) = 2 ^ 32 + (frame_length f - 2)).
      { unfold u32. symmetry. apply (Z.mod_unique_pos _ _ (-1)); lia. }
      rewrite Hw.
      destruct (Z.geb_spec (i + 1) (2 ^ 32 + (frame_length f - 2))); try lia.
      simpl. rewrite length_insert. intuition lia.
    + rewrite (u32_small (frame_length f - 2)) by lia.
      destruct (Z.geb_spec (i + 1) (frame_length f - 2)); simpl;
        rewrite length_insert; (split; [lia|]); (split; [exact Hd'|]);
        (split; [exact Hl|]).
      * right; right; right. intuition lia.
      * right; right; left. intuition lia.
  - intuition lia.
  - intuition (try lia). subst i. assumption.
Qed.

(** The length of a frame accepted by the earlier draft.  Every frame
    that the draft's [rscpGetMsg] returns with [RSCP_ERR_OK] has a length
    field between 2 and 27, and data was stored in at most the first
    [max (length - 2) 1] cells of [frame->data], the cells after them being
    as before: the draft always takes one byte after the command as data, and
    a length byte of 0 or 1, whose [length - 2] wraps around as
    [uint32_t], never ends the data state. *)
Theorem draft_ok_frame_length (fuel t : nat) (frame f : RSCP_frame)
    (w w' : World) :
  Draft.rscpGetMsg fuel frame t w = Done (RSCP_ERR_OK, f) w' ->
  2 <= frame_length f <= 27
  /\ drop (Z.to_nat (Z.max 1 (frame_length f - 2))) (frame_data f)
     = drop (Z.to_nat (Z.max 1 (frame_length f - 2))) (frame_data frame).
Proof.
  unfold Draft.rscpGetMsg. intros E.
  pose proof (loop_invariant Draft.rscpGetMsg_switch (draft_rx_inv frame)
                (draft_rx_done frame) (draft_rx_inv_step frame)
                fuel t frame 0 0 w) as H.
  assert (H0 : draft_rx_inv frame frame 0 0)
    by (unfold draft_rx_inv; simpl; intuition lia).
  specialize (H H0). rewrite E in H.
  destruct H as [(H & _)|[(H & _)|H]]; try discriminate.
  destruct H as (_ & H1 & _ & H2). split; assumption.
Qed.

Lemma draft_ok_frame_length_witness :
  2 <= frame_length (mkFrame 2 3 (11 :: repeat 0 25) 3073) <= 27
  /\ drop (Z.to_nat (Z.max 1 (2 - 2))) (11 :: repeat 0 25)
     = drop (Z.to_nat (Z.max 1 (2 - 2)))
            (frame_data (uninit_frame (wire [] (fun _ => 0)))).
Proof.
  apply (draft_ok_frame_length 10 0 (uninit_frame (wire [] (fun _ => 0)))
           (mkFrame 2 3 (11 :: repeat 0 25) 3073)
           (wire [170; 2; 3; 11; 12; 1] (fun _ => 0))
           (advance 6 (wire [170; 2; 3; 11; 12; 1] (fun _ => 0)))).
  reflexivity.
Defined.

(** The receiver of the earlier draft never writes outside
    [frame->data] either, for every stream, tick budget and number of
    iterations; and it reads and waits only. *)
Theorem draft_receiver_safe (fuel t : nat) (frame : RSCP_frame) (w : World) :
  Draft.rscpGetMsg fuel frame t w <> OutOfBounds
  /\ (forall r w', Draft.rscpGetMsg fuel frame t w = Done r w' ->
        sent w' = sent w /\ slots w' = slots w /\ calls w' = calls w).
Proof.
  split.
  - apply draft_rscpGetMsg_in_bounds.
  - intros r w' E. unfold Draft.rscpGetMsg in E. apply loop_logs in E. tauto.
Qed.

(** Round trip through the receiver of the earlier draft: for every
    command byte and every payload of 1 to 25 bytes, the frame that
    [rscpSendMsg] sends is returned by the draft's [rscpGetMsg] with
    [RSCP_ERR_OK], the length [2 + n], the command, the payload in
    [data[0..n-1]] and the CRC of the sender, as by the receiver of
    [rscpProtocol.c]; a frame without data is outside this range. *)
Theorem draft_roundtrip `{cb : RSCP_Callbacks}
    (command : Z) (payload : list Z) (frame : RSCP_frame)
    (t fuel : nat) (w : World) :
  is_u8 command -> Forall is_u8 payload ->
  (1 <= length payload <= 25)%nat ->
  length (frame_data frame) = 26%nat ->
  feeds w (frame_on_wire command payload) ->
  (length payload + 5 <= fuel)%nat ->
  Draft.rscpGetMsg fuel frame t w
  = Done (RSCP_ERR_OK,
          mkFrame (2 + Z.of_nat (length payload)) command
                  (payload ++ drop (length payload) (frame_data frame))
                  (crc16 (2 + Z.of_nat (length payload) :: command :: payload)))
         (advance (length payload + 5) w).
Proof.
  intros Hc Hp Hn Hf0 Hf Hfuel.
  destruct (receive_frame_on_wire command payload frame t fuel w
              Hc Hp ltac:(lia) Hf0 Hf Hfuel) as [E _].
  apply drafts_agree_loop_rx; [exact E | simpl; lia].
Qed.

Lemma draft_roundtrip_witness :
  Draft.rscpGetMsg 10 (uninit_frame (wire [] (fun _ => 0))) 0
    (wire (@frame_on_wire example_host 3 [0]) (fun _ => 0))
  = Done (RSCP_ERR_OK,
          mkFrame 3 3 ([0] ++ repeat 0 25) (@crc16 example_host [3; 3; 0]))
         (advance 6 (wire (@frame_on_wire example_host 3 [0]) (fun _ => 0))).
Proof.
  apply (@draft_roundtrip example_host 3 [0]
           (uninit_frame (wire [] (fun _ => 0))) 0 10
           (wire (@frame_on_wire example_host 3 [0]) (fun _ => 0))).
  - unfold is_u8; lia.
  - bytes_ok.
  - simpl; lia.
  - reflexivity.
  - apply feeds_wire.
  - simpl; lia.
Defined.

Lemma draft_receiver_safe_witness :
  sent (advance 6 (wire [170; 2; 3; 11; 12; 1] (fun _ => 0))) = []
  /\ slots (advance 6 (wire [170; 2; 3; 11; 12; 1] (fun _ => 0))) = []
  /\ calls (advance 6 (wire [170; 2; 3; 11; 12; 1] (fun _ => 0))) = [].
Proof.
  apply (proj2 (draft_receiver_safe 10 0 (uninit_frame (wire [] (fun _ => 0)))
                  (wire [170; 2; 3; 11; 12; 1] (fun _ => 0)))
               (RSCP_ERR_OK, mkFrame 2 3 (11 :: repeat 0 25) 3073)).
  reflexivity.
Defined.

(** ** The CRC field of a received frame *)

Lemma byte_join h l :
  is_u8 h -> is_u8 l -> u16 (Z.lor (u16 (Z.shiftl h 8)) l) = 256 * h + l.
Proof.
  unfold is_u8. intros Hh Hl.
  rewrite Z.shiftl_mul_pow2 by lia.
  unfold u16 at 2. rewrite (Z.mod_small (h * 2 ^ 8)) by lia.
  rewrite <- Z.shiftl_mul_pow2 by lia.
  rewrite <- Z.add_nocarry_lor.
  - rewrite Z.shiftl_mul_pow2 by lia. unfold u16. rewrite Z.mod_small; lia.
  - apply Z.bits_inj'. intros n Hn. rewrite Z.land_spec, Z.bits_0.
    destruct (Z.lt_ge_cases n 8).
    + rewrite Z.shiftl_spec_low by lia. reflexivity.
    + replace l with (l mod 2 ^ 8) by (apply Z.mod_small; lia).
      rewrite (Z.mod_pow2_bits_high l 8 n) by lia. apply andb_false_r.
Qed.

(** [rscpGetMsg] does not check the CRC.  A stream of preamble bytes, a
    length byte [L <= 27], a command byte, [max (L - 2) 0] data bytes and
    any two further bytes [h] and [l] is returned with [RSCP_ERR_OK]; the
    [crc] field of the frame is [256 * h + l], whatever the other bytes
    are.  Comparing it with the CRC of the frame is left to the caller. *)
Theorem receiver_accepts_any_crc
    (pre : list Z) (L c : Z) (d : list Z) (h l : Z) (frame : RSCP_frame)
    (t fuel : nat) (w : World) :
  Forall (eq RSCP_PREAMBLE_BYTE) pre ->
  0 <= L <= 27 -> is_u8 c ->
  Forall is_u8 d -> Z.of_nat (length d) = Z.max 0 (L - 2) ->
  is_u8 h -> is_u8 l ->
  length (frame_data frame) = 26%nat ->
  feeds w (pre ++ L :: c :: d ++ [h; l]) ->
  (length pre + length d + 4 <= fuel)%nat ->
  rscpGetMsg fuel frame t w
  = Done (RSCP_ERR_OK,
          mkFrame L c (d ++ drop (length d) (frame_data frame)) (256 * h + l))
         (advance (length pre + length d + 4) w).
Proof.
  intros Hp HL Hc Hd Hn Hh Hl Hf0 Hf Hfuel.
  rewrite <- (byte_join h l Hh Hl).
  apply rx_frame; assumption.
Qed.

Lemma receiver_accepts_any_crc_witness :
  rscpGetMsg 10 (uninit_frame (wire [] (fun _ => 0))) 0
    (wire ([170] ++ 4 :: 9 :: [11; 12] ++ [255; 254]) (fun _ => 0))
  = Done (RSCP_ERR_OK, mkFrame 4 9 ([11; 12] ++ repeat 0 24) (256 * 255 + 254))
         (advance 7 (wire ([170] ++ 4 :: 9 :: [11; 12] ++ [255; 254])
                          (fun _ => 0))).
Proof.
  apply (receiver_accepts_any_crc [170] 4 9 [11; 12] 255 254
           (uninit_frame (wire [] (fun _ => 0))) 0 10
           (wire ([170] ++ 4 :: 9 :: [11; 12] ++ [255; 254]) (fun _ => 0))).
  - repeat constructor.
  - lia.
  - unfold is_u8; lia.
  - bytes_ok.
  - simpl; lia.
  - unfold is_u8; lia.
  - unfold is_u8; lia.
  - reflexivity.
  - apply feeds_wire.
  - simpl; lia.
Defined.
